(** * logx / rollingwriter: a rotating-file byte sink

    A shallow embedding of the Go package [rollingwriter] (manager.go,
    writer.go and the declarations file holding [Config], the error values and
    the interfaces), together with the properties of its rotation manager,
    its size parser, its retention queue and its four writer variants.

    Conventions.
    - Go [int], [int64]: [Z], with the 64-bit wrap-around written out
      ([wrap64]) where the source multiplies.
    - Go [string]: [string]; [[]byte]: [list byte].
    - Channels: the values a receiver can take, in order.  For a buffered
      channel these are the buffered elements, for an unbuffered one the
      values offered by senders blocked on it.
    - Every function of the source that touches the operating system takes
      and returns the state of the world ([World]): a small file system, the
      trace of the calls made, the log output, and what the environment
      imposes on the next calls.  A goroutine started with [go] is recorded
      as spawned and run by its own function.
    - A call runs as one step; a [select] with several ready cases takes the
      case chosen by the runtime, an explicit argument [pick].
    - Strings of the configuration are taken to hold ASCII bytes. *)

From Stdlib Require Import ZArith Lia List Bool String Ascii.
From Stdlib Require Import Strings.Byte.
From stdpp Require Import base option list strings gmap.

Open Scope Z_scope.

(** ** Go primitives *)

Module Go.

(** [int64] arithmetic wraps around. *)
Definition wrap64 (z : Z) : Z := (z + 2 ^ 63) mod 2 ^ 64 - 2 ^ 63.

Definition maxInt64 : Z := 2 ^ 63 - 1.
Definition maxUint64 : Z := 2 ^ 64 - 1.

(** [len] as a Go [int]. *)
Definition len {A} (l : list A) : Z := Z.of_nat (length l).

(** [[]byte(s)] and [string(b)]. *)
Definition bytes_of (s : string) : list byte := list_byte_of_string s.
Definition string_of (b : list byte) : string := string_of_list_byte b.

Definition byte_val (c : byte) : Z := Z.of_N (Byte.to_N c).

(** [bytes.Equal], or [==] on strings. *)
Fixpoint bytes_eqb (a b : list byte) : bool :=
  match a, b with
  | [], [] => true
  | x :: a', y :: b' => Byte.eqb x y && bytes_eqb a' b'
  | _, _ => false
  end.

(** How a piece of code ends: it finishes; it parks on a channel or mutex
    operation that nothing in its own run can complete; the fuel given to a
    loop of the model runs out; or it hits a run-time panic. *)
Inductive run (A : Type) : Type :=
| Done (a : A)
| Parked
| Fuel
| Panic (msg : string).
Arguments Done {A} a.
Arguments Parked {A}.
Arguments Fuel {A}.
Arguments Panic {A} msg.

(** [s[:hi]]: panics when [hi] is out of range. *)
Definition slice_to {A} (s : list A) (hi : Z) : option (list A) :=
  if (0 <=? hi) && (hi <=? len s) then Some (take (Z.to_nat hi) s) else None.

(** [s[lo:]] *)
Definition slice_from {A} (s : list A) (lo : Z) : option (list A) :=
  if (0 <=? lo) && (lo <=? len s) then Some (drop (Z.to_nat lo) s) else None.

(** [string(c)] of a byte [c]: the UTF-8 encoding of the code point [c],
    one byte below 128 and two from there on. *)
Definition string_of_byte (c : byte) : list byte :=
  let v := byte_val c in
  if v <? 128 then [c]
  else
    match Byte.of_N (Z.to_N (Z.lor 192 (Z.shiftr v 6))),
          Byte.of_N (Z.to_N (Z.lor 128 (Z.land v 63))) with
    | Some hi, Some lo => [hi; lo]
    | _, _ => [c]
    end.

(** [make([]byte, 0, n)]: a negative capacity is a run-time panic. *)
Definition make_bytes (n : Z) : run (list byte) :=
  if n <? 0 then Panic "makeslice: cap out of range" else Done [].

(** [s[i]] *)
Definition index {A} (s : list A) (i : Z) : option A :=
  if (0 <=? i) && (i <? len s) then s !! Z.to_nat i else None.

End Go.

Import Go.

(** ** package strings *)

Module strings.

(** [unicode.ToUpper] on a byte of an ASCII string. *)
Definition upper_byte (c : byte) : byte :=
  let n := byte_val c in
  if (97 <=? n) && (n <=? 122)
  then match Byte.of_N (Z.to_N (n - 32)) with Some u => u | None => c end
  else c.

(** [strings.ToUpper], for strings of ASCII bytes (other bytes are kept). *)
Definition ToUpper (s : string) : string :=
  string_of (map upper_byte (bytes_of s)).

(** [strings.HasPrefix s prefix] *)
Fixpoint HasPrefix (s prefix : list byte) {struct prefix} : bool :=
  match prefix with
  | [] => true
  | p :: prefix' =>
      match s with
      | [] => false
      | c :: s' => Byte.eqb p c && HasPrefix s' prefix'
      end
  end.

(** [strings.Contains s substr]: [substr] occurs somewhere in [s]. *)
Fixpoint Contains (s substr : list byte) : bool :=
  HasPrefix s substr ||
  match s with
  | [] => false
  | _ :: s' => Contains s' substr
  end.

End strings.

(** ** package strconv *)

Module strconv.

Inductive NumError : Set := ErrSyntax | ErrRange.

(** The digit loop of [Atoi]'s fast path: [ch -= '0'; if ch > 9 ...] on a
    byte, which wraps around below ['0']. *)
Fixpoint atoi_loop (s : list byte) (n : Z) : Z * option NumError :=
  match s with
  | [] => (n, None)
  | c :: s' =>
      let ch := (byte_val c - 48) mod 256 in
      if 9 <? ch then (0, Some ErrSyntax)
      else atoi_loop s' (n * 10 + ch)
  end.

(** The loop of [ParseUint s 10 64]. *)
Fixpoint parseUint_loop (s : list byte) (n : Z) : Z * option NumError :=
  match s with
  | [] => (n, None)
  | c :: s' =>
      let v := byte_val c in
      if (48 <=? v) && (v <=? 57) then
        let d := v - 48 in
        let cutoff := maxUint64 / 10 + 1 in
        if cutoff <=? n then (maxUint64, Some ErrRange)
        else
          let n10 := n * 10 in
          let n1 := (n10 + d) mod 2 ^ 64 in
          if (n1 <? n10) || (maxUint64 <? n1) then (maxUint64, Some ErrRange)
          else parseUint_loop s' n1
      else (0, Some ErrSyntax)
  end.

Definition ParseUint (s : list byte) : Z * option NumError :=
  match s with
  | [] => (0, Some ErrSyntax)
  | _ => parseUint_loop s 0
  end.

(** [ParseInt s 10 0] on a 64-bit platform. *)
Definition ParseInt (s : list byte) : Z * option NumError :=
  match s with
  | [] => (0, Some ErrSyntax)
  | c0 :: rest =>
      let neg := Byte.eqb c0 "-"%byte in
      let s1 := if Byte.eqb c0 "+"%byte then rest
                else if neg then rest else s in
      match ParseUint s1 with
      | (_, Some ErrSyntax) => (0, Some ErrSyntax)
      | (un, _) =>
          let cutoff := 2 ^ 63 in
          if negb neg && (cutoff <=? un) then (cutoff - 1, Some ErrRange)
          else if neg && (cutoff <? un) then (- cutoff, Some ErrRange)
          else (if neg then - un else un, None)
      end
  end.

(** [strconv.Atoi] with [intSize = 64]: the fast path for 1 to 18 bytes, the
    slow path through [ParseInt] otherwise. *)
Definition Atoi (s : list byte) : Z * option NumError :=
  let sLen := len s in
  if (0 <? sLen) && (sLen <? 19) then
    match s with
    | [] => (0, Some ErrSyntax)
    | c0 :: rest =>
        let signed := Byte.eqb c0 "-"%byte || Byte.eqb c0 "+"%byte in
        let s1 := if signed then rest else s in
        if signed && (len s1 <? 1) then (0, Some ErrSyntax)
        else
          match atoi_loop s1 0 with
          | (_, Some e) => (0, Some e)
          | (n, None) => (if Byte.eqb c0 "-"%byte then - n else n, None)
          end
    end
  else ParseInt s.

End strconv.

(** ** Configuration (the declarations file) *)

Definition WithoutRolling : Z := 0.
Definition TimeRolling : Z := 1.
Definition VolumeRolling : Z := 2.

Definition BufferSize : Z := 0x100000.
Definition QueueSize : Z := 1024.
Definition Precision : Z := 1.

Inductive error : Set :=
| ErrInternal
| ErrClosed
| ErrInvalidArgument
| Errno (code : nat)        (* an error of the operating system *)
| ErrOther (msg : string).  (* an error of another library *)

Record Config : Set := mkConfig {
  TimeTagFormat : string;
  LogPath : string;
  FileName : string;
  MaxRemain : Z;
  RollingPolicy : Z;
  RollingTimePattern : string;
  RollingVolumeSize : string;
  WriterMode : string;
  BufferWriterThreshold : Z;
  Compress : bool
}.

Definition NewDefaultConfig : Config :=
  {| TimeTagFormat := "200601021504";
     LogPath := "./log";
     FileName := "log";
     MaxRemain := -1;
     RollingPolicy := 1;
     RollingTimePattern := "0 0 * * *";
     RollingVolumeSize := "1G";
     WriterMode := "lock";
     BufferWriterThreshold := 64;
     Compress := false |}.

Definition WithRollingVolumeSize (size : string) (c : Config) : Config :=
  {| TimeTagFormat := TimeTagFormat c; LogPath := LogPath c;
     FileName := FileName c; MaxRemain := MaxRemain c;
     RollingPolicy := VolumeRolling;
     RollingTimePattern := RollingTimePattern c;
     RollingVolumeSize := size;
     WriterMode := WriterMode c;
     BufferWriterThreshold := BufferWriterThreshold c;
     Compress := Compress c |}.


(** ** package path *)

Module path.

Definition slash : byte := "/"%byte.
Definition dot : byte := "."%byte.

(** The end of a path element: the end of the path or a slash. *)
Definition elem_end (p : list byte) : bool :=
  match p with
  | [] => true
  | c :: _ => Byte.eqb c slash
  end.

(** The [..] case of [Clean] when it can backtrack, on the reversed output
    buffer: [out.w--; for out.w > dotdot && out.index(out.w) != '/' { out.w-- }]. *)
Fixpoint backtrack (out : list byte) (dotdot : nat) : list byte :=
  match out with
  | [] => []
  | c :: r =>
      if (dotdot <? length r)%nat && negb (Byte.eqb c slash)
      then backtrack r dotdot else r
  end.

(** The main loop of [Clean].  [out] is the output buffer, last byte first;
    [inelem] tells that the loop copying a real path element is running. *)
Fixpoint clean_loop (rooted : bool) (p : list byte) (inelem : bool)
    (out : list byte) (dotdot : nat) : list byte :=
  match p with
  | [] => out
  | c :: p1 =>
      let real_elem (_ : unit) :=
        let out1 :=
          if (rooted && negb (length out =? 1)%nat)
             || (negb rooted && negb (length out =? 0)%nat)
          then slash :: out else out in
        clean_loop rooted p1 true (c :: out1) dotdot in
      if inelem then
        if Byte.eqb c slash then clean_loop rooted p1 false out dotdot
        else clean_loop rooted p1 true (c :: out) dotdot
      else if Byte.eqb c slash then clean_loop rooted p1 false out dotdot
      else if Byte.eqb c dot && elem_end p1 then
        clean_loop rooted p1 false out dotdot
      else
        match p1 with
        | c1 :: p2 =>
            if Byte.eqb c dot && Byte.eqb c1 dot && elem_end p2 then
              if (dotdot <? length out)%nat then
                clean_loop rooted p2 false (backtrack out dotdot) dotdot
              else if negb rooted then
                let out1 := if (0 <? length out)%nat then slash :: out else out in
                let out2 := dot :: dot :: out1 in
                clean_loop rooted p2 false out2 (length out2)
              else clean_loop rooted p2 false out dotdot
            else real_elem tt
        | [] => real_elem tt
        end
  end.

Definition Clean (p : list byte) : list byte :=
  match p with
  | [] => [dot]
  | c :: p1 =>
      let rooted := Byte.eqb c slash in
      let out :=
        if rooted then clean_loop true p1 false [slash] 1
        else clean_loop false p false [] 0 in
      match out with
      | [] => [dot]
      | _ => rev out
      end
  end.

(** The loop of [Join]: empty leading elements are skipped, the others are
    separated by a slash. *)
Fixpoint join_loop (buf : list byte) (elem : list (list byte)) : list byte :=
  match elem with
  | [] => buf
  | e :: elem' =>
      match buf, e with
      | [], [] => join_loop buf elem'
      | [], _ => join_loop e elem'
      | _, _ => join_loop (buf ++ slash :: e) elem'
      end
  end.

Definition Join (elem : list string) : string :=
  let es := map bytes_of elem in
  if (length (concat es) =? 0)%nat then EmptyString
  else string_of (Clean (join_loop [] es)).

(** [Ext]: the suffix from the last dot of the last path element. *)
Fixpoint ext_loop (rpath : list byte) (acc : list byte) : list byte :=
  match rpath with
  | [] => []
  | c :: r =>
      if Byte.eqb c slash then []
      else if Byte.eqb c dot then c :: acc
      else ext_loop r (c :: acc)
  end.

Definition Ext (p : string) : string :=
  string_of (ext_loop (rev (bytes_of p)) []).

End path.

(** [LogFilePath]: the path of the active file. *)
Definition LogFilePath (c : Config) : string :=
  (path.Join [LogPath c; FileName c] ++ ".log")%string.

(** ** Channels *)

Module chan.

(** A channel: its capacity, what a receiver can take from it (buffered
    elements or, on an unbuffered channel, the values of the senders blocked
    on it), and whether it has been closed. *)
Record t (A : Type) : Type := mk {
  cap : Z;
  items : list A;
  closed : bool
}.
Arguments mk {A}.
Arguments cap {A}.
Arguments items {A}.
Arguments closed {A}.

Definition make {A} (n : Z) : t A := mk n [] false.

(** [close(ch)]: closing a closed channel panics. *)
Definition close {A} (ch : t A) : run (t A) :=
  if closed ch then Panic "close of closed channel"
  else Done (mk (cap ch) (items ch) true).

(** A [case v := <-ch] of a [select] is ready when there is a value to take. *)
Definition recv_ready {A} (ch : t A) : bool :=
  match items ch with [] => closed ch | _ => true end.

(** Receive without waiting: the case [v := <-ch] of a [select] with a
    [default] ([None]: not ready).  A closed and drained channel yields the
    zero value of its type. *)
Definition try_recv {A} (zero : A) (ch : t A) : option (A * t A) :=
  match items ch with
  | v :: rest => Some (v, mk (cap ch) rest (closed ch))
  | [] => if closed ch then Some (zero, ch) else None
  end.

(** Non-blocking send: the case [ch <- v] of a [select] with a [default].
    On a buffered channel it succeeds while there is room; on an unbuffered
    one it needs a receiver already waiting, and no receiver of the package
    waits on an unbuffered channel outside a [select] with [default].  (No
    channel of the package that is sent on is ever closed.) *)
Definition try_send {A} (ch : t A) (v : A) : option (t A) :=
  if (Z.of_nat (length (items ch)) <? cap ch)
  then Some (mk (cap ch) (items ch ++ [v]) (closed ch))
  else None.

(** A sender that blocks on an unbuffered channel offers its value. *)
Definition offer {A} (ch : t A) (v : A) : t A :=
  mk (cap ch) (items ch ++ [v]) (closed ch).

Definition bounded {A} (ch : t A) : Prop :=
  Z.of_nat (length (items ch)) <= cap ch.

End chan.

(** ** The world outside the structs: file system, log output, goroutines *)

(** A goroutine that has been started and has not run yet. *)
Inductive goroutine : Set :=
| GoReopen (oldfile : nat) (file : string).  (* the [go func()] of [Reopen] *)

Module os.

Inductive node : Set :=
| File (ino : nat)
| Dir.

(** The calls the package makes, as they show in the trace. *)
Inductive call : Set :=
| CRename (oldpath newpath : string)
| COpenFile (name : string)
| CWrite (fd : nat) (b : list byte)
| CClose (fd : nat)
| CRemove (name : string)
| CMkdirAll (p : string)
| CReadDir (p : string)
| CSeek (fd : nat)
| CRead (fd : nat)
| COpen (name : string)
| CStat (fd : nat).

Definition ENOENT : error := Errno 2.
Definition EBADF : error := Errno 9.
Definition ENOTDIR : error := Errno 20.
Definition EISDIR : error := Errno 21.

End os.

Record World : Type := mkWorld {
  names : gmap string os.node;       (* directory entries, by cleaned path *)
  inodes : list (list byte);         (* file contents, by inode number *)
  fds : list (nat * bool);           (* [*os.File]s: inode, and still open *)
  faults : list (option error);      (* what the environment imposes on the
                                        next calls: [Some e] makes one fail *)
  trace : list (os.call * option error);
  logs : list (string * error);      (* the output of [log.Println] *)
  goroutines : list goroutine;
  asyncBufferPool : list Z           (* [_asyncBufferPool]: the lengths of
                                        the slices put back into it *)
}.

Definition set_names (o : World) v :=
  mkWorld v (inodes o) (fds o) (faults o) (trace o) (logs o) (goroutines o) (asyncBufferPool o).
Definition set_inodes (o : World) v :=
  mkWorld (names o) v (fds o) (faults o) (trace o) (logs o) (goroutines o) (asyncBufferPool o).
Definition set_fds (o : World) v :=
  mkWorld (names o) (inodes o) v (faults o) (trace o) (logs o) (goroutines o) (asyncBufferPool o).
Definition set_faults (o : World) v :=
  mkWorld (names o) (inodes o) (fds o) v (trace o) (logs o) (goroutines o) (asyncBufferPool o).
Definition set_trace (o : World) v :=
  mkWorld (names o) (inodes o) (fds o) (faults o) v (logs o) (goroutines o) (asyncBufferPool o).
Definition set_logs (o : World) v :=
  mkWorld (names o) (inodes o) (fds o) (faults o) (trace o) v (goroutines o) (asyncBufferPool o).
Definition set_goroutines (o : World) v :=
  mkWorld (names o) (inodes o) (fds o) (faults o) (trace o) (logs o) v (asyncBufferPool o).
Definition set_asyncBufferPool (o : World) v :=
  mkWorld (names o) (inodes o) (fds o) (faults o) (trace o) (logs o) (goroutines o) v.

(** [log.Println(msg, ..., err)] *)
Definition log_Println (o : World) (msg : string) (err : error) : World :=
  set_logs o (logs o ++ [(msg, err)]).

(** [go f()] *)
Definition go (o : World) (g : goroutine) : World :=
  set_goroutines o (goroutines o ++ [g]).

Module sys.

Import os.

(** The file system resolves a path to its cleaned form. *)
Definition key (p : string) : string := string_of (path.Clean (bytes_of p)).

(** Whether the environment makes the next call fail. *)
Definition fault (o : World) : option error * World :=
  match faults o with
  | [] => (None, o)
  | f :: rest => (f, set_faults o rest)
  end.

Definition emit (o : World) (c : call) (r : option error) : World :=
  set_trace o (trace o ++ [(c, r)]).

(** [os.Rename] *)
Definition Rename (o : World) (oldpath newpath : string) : World * option error :=
  let '(f, o) := fault o in
  let '(o, r) :=
    match f with
    | Some e => (o, Some e)
    | None =>
        match names o !! key oldpath with
        | None => (o, Some ENOENT)
        | Some n =>
            (set_names o (<[key newpath := n]> (delete (key oldpath) (names o))), None)
        end
    end in
  (emit o (CRename oldpath newpath) r, r).

(** [os.OpenFile(name, O_RDWR|O_CREATE|O_APPEND, 0644)] *)
Definition OpenFile (o : World) (name : string) : World * (nat + error) :=
  let '(f, o) := fault o in
  let '(o, r) :=
    match f with
    | Some e => (o, inr e)
    | None =>
        match names o !! key name with
        | Some Dir => (o, inr EISDIR)
        | Some (File ino) =>
            (set_fds o (fds o ++ [(ino, true)]), inl (length (fds o)))
        | None =>
            let ino := length (inodes o) in
            let o := set_inodes o (inodes o ++ [[]]) in
            let o := set_names o (<[key name := File ino]> (names o)) in
            (set_fds o (fds o ++ [(ino, true)]), inl (length (fds o)))
        end
    end in
  (emit o (COpenFile name) (match r with inl _ => None | inr e => Some e end), r).

(** [File.Write]: the file is open for appending. *)
Definition Write (o : World) (fd : nat) (b : list byte) : World * (Z * option error) :=
  let '(f, o) := fault o in
  let '(o, r) :=
    match f with
    | Some e => (o, (0, Some e))
    | None =>
        match fds o !! fd with
        | Some (ino, true) =>
            match inodes o !! ino with
            | Some old => (set_inodes o (<[ino := old ++ b]> (inodes o)), (len b, None))
            | None => (o, (0, Some EBADF))
            end
        | _ => (o, (0, Some EBADF))
        end
    end in
  (emit o (CWrite fd b) (snd r), r).

(** [File.Close] *)
Definition Close (o : World) (fd : nat) : World * option error :=
  let '(f, o) := fault o in
  let '(o, r) :=
    match f with
    | Some e => (o, Some e)
    | None =>
        match fds o !! fd with
        | Some (ino, true) => (set_fds o (<[fd := (ino, false)]> (fds o)), None)
        | _ => (o, Some EBADF)
        end
    end in
  (emit o (CClose fd) r, r).

(** [os.Remove] *)
Definition Remove (o : World) (name : string) : World * option error :=
  let '(f, o) := fault o in
  let '(o, r) :=
    match f with
    | Some e => (o, Some e)
    | None =>
        match names o !! key name with
        | None => (o, Some ENOENT)
        | Some _ => (set_names o (delete (key name) (names o)), None)
        end
    end in
  (emit o (CRemove name) r, r).

(** [os.MkdirAll] (the parents are not tracked). *)
Definition MkdirAll (o : World) (p : string) : World * option error :=
  let '(f, o) := fault o in
  let '(o, r) :=
    match f with
    | Some e => (o, Some e)
    | None =>
        match names o !! key p with
        | Some (File _) => (o, Some ENOTDIR)
        | _ => (set_names o (<[key p := Dir]> (names o)), None)
        end
    end in
  (emit o (CMkdirAll p) r, r).

(** [File.Seek(0, 0)] *)
Definition Seek (o : World) (fd : nat) : World * option error :=
  let '(f, o) := fault o in
  let r :=
    match f with
    | Some e => Some e
    | None =>
        match fds o !! fd with
        | Some (_, true) => None
        | _ => Some EBADF
        end
    end in
  (emit o (CSeek fd) r, r).

(** Reading a file from its start to its end, as [io.Copy] does after the
    [Seek]. *)
Definition ReadAll (o : World) (fd : nat) : World * (list byte + error) :=
  let '(f, o) := fault o in
  let r :=
    match f with
    | Some e => inr e
    | None =>
        match fds o !! fd with
        | Some (ino, true) =>
            match inodes o !! ino with
            | Some data => inl data
            | None => inr EBADF
            end
        | _ => inr EBADF
        end
    end in
  (emit o (CRead fd) (match r with inl _ => None | inr e => Some e end), r).

(** [os.Open]: open for reading (a directory is not opened). *)
Definition Open (o : World) (name : string) : World * (nat + error) :=
  let '(f, o) := fault o in
  let '(o, r) :=
    match f with
    | Some e => (o, inr e)
    | None =>
        match names o !! key name with
        | Some (File ino) =>
            (set_fds o (fds o ++ [(ino, true)]), inl (length (fds o)))
        | Some Dir => (o, inr EISDIR)
        | None => (o, inr ENOENT)
        end
    end in
  (emit o (COpen name) (match r with inl _ => None | inr e => Some e end), r).

(** [File.Stat], as far as [Size()] goes. *)
Definition Stat (o : World) (fd : nat) : World * (Z + error) :=
  let '(f, o) := fault o in
  let r :=
    match f with
    | Some e => inr e
    | None =>
        match fds o !! fd with
        | Some (ino, true) =>
            match inodes o !! ino with
            | Some data => inl (len data)
            | None => inr EBADF
            end
        | _ => inr EBADF
        end
    end in
  (emit o (CStat fd) (match r with inl _ => None | inr e => Some e end), r).

(** The name of [p] inside the directory [d], when [p] is an entry of [d]. *)
Definition entry_name (d p : string) : option string :=
  let db := bytes_of d in
  let pb := bytes_of p in
  let pre := if bytes_eqb db [path.dot] then []
             else if bytes_eqb db [path.slash] then db
             else db ++ [path.slash] in
  if strings.HasPrefix pb pre then
    let name := drop (length pre) pb in
    match name with
    | [] => None
    | _ => if strings.Contains name [path.slash] then None else Some (string_of name)
    end
  else None.

Fixpoint insert_sorted (e : string * bool) (l : list (string * bool)) :=
  match l with
  | [] => [e]
  | x :: l' => if String.leb (fst e) (fst x) then e :: l else x :: insert_sorted e l'
  end.

(** [ioutil.ReadDir]: the entries of a directory (name, and whether it is a
    directory), sorted by name. *)
Definition ReadDir (o : World) (p : string) : World * (list (string * bool) + error) :=
  let '(f, o) := fault o in
  let r :=
    match f with
    | Some e => inr e
    | None =>
        match names o !! key p with
        | Some Dir =>
            inl (foldr insert_sorted []
                   (omap (fun kv : string * node =>
                            match entry_name (key p) (fst kv) with
                            | Some n => Some (n, match snd kv with Dir => true | _ => false end)
                            | None => None
                            end) (map_to_list (names o))))
        | Some (File _) => inr ENOTDIR
        | None => inr ENOENT
        end
    end in
  (emit o (CReadDir p) (match r with inl _ => None | inr e => Some e end), r).

End sys.

(** ** package cron (robfig/cron), as far as the manager uses it *)

Module cron.

Record Cron : Set := mk {
  entries : list string;
  running : bool
}.

Definition New : Cron := mk [] false.
Definition Start (c : Cron) : Cron := mk (entries c) true.
Definition Stop (c : Cron) : Cron := mk (entries c) false.

End cron.

(** ** manager.go *)

(** [time.Time], as an instant on the clock. *)
Definition Time : Set := Z.

(** Where the goroutine of the volume policy stands. *)
Inductive poll_state : Set :=
| PollNone                 (* none was started *)
| PollSelect               (* at the [select] of its loop *)
| PollOffering (fd : nat)  (* blocked in [m.fire <- name], the file open *)
| PollReturned.

Record manager : Type := mkManager {
  thresholdSize : Z;
  startAt : Time;
  fire : chan.t string;
  cr : cron.Cron;
  context : chan.t Z;
  poller : poll_state
}.

Definition set_thresholdSize (m : manager) (v : Z) : manager :=
  mkManager v (startAt m) (fire m) (cr m) (context m) (poller m).
Definition set_startAt (m : manager) (v : Time) : manager :=
  mkManager (thresholdSize m) v (fire m) (cr m) (context m) (poller m).
Definition set_fire (m : manager) (v : chan.t string) : manager :=
  mkManager (thresholdSize m) (startAt m) v (cr m) (context m) (poller m).
Definition set_cr (m : manager) (v : cron.Cron) : manager :=
  mkManager (thresholdSize m) (startAt m) (fire m) v (context m) (poller m).
Definition set_context (m : manager) (v : chan.t Z) : manager :=
  mkManager (thresholdSize m) (startAt m) (fire m) (cr m) v (poller m).
Definition set_poller (m : manager) (v : poll_state) : manager :=
  mkManager (thresholdSize m) (startAt m) (fire m) (cr m) (context m) v.

(** [Close]: [close(m.context)] panics on a closed channel; then the cron
    schedule is stopped. *)
Definition manager_Close (m : manager) : run manager :=
  match chan.close (context m) with
  | Done ctx => Done (set_cr (set_context m ctx) (cron.Stop (cr m)))
  | Parked => Parked
  | Fuel => Fuel
  | Panic msg => Panic msg
  end.

Definition has_unit (s : list byte) : bool :=
  strings.Contains s (bytes_of "K") || strings.Contains s (bytes_of "KB") ||
  strings.Contains s (bytes_of "M") || strings.Contains s (bytes_of "MB") ||
  strings.Contains s (bytes_of "G") || strings.Contains s (bytes_of "GB") ||
  strings.Contains s (bytes_of "T") || strings.Contains s (bytes_of "TB").

(** The [switch unitstr] of [ParseVolume]: every case falls through to the
    ones below it, and [default] sits on top. *)
Definition unit_switch (unitstr : list byte) : Z :=
  let case_ u := bytes_eqb unitstr (bytes_of u) in
  let entry : Z :=
    if case_ "T" || case_ "TB" then 1
    else if case_ "G" || case_ "GB" then 2
    else if case_ "M" || case_ "MB" then 3
    else if case_ "K" || case_ "KB" then 4
    else 0 in
  let unit := 1 in
  let unit := if entry <=? 1 then wrap64 (unit * 1024) else unit in
  let unit := if entry <=? 2 then wrap64 (unit * 1024) else unit in
  let unit := if entry <=? 3 then wrap64 (unit * 1024) else unit in
  let unit := if entry <=? 4 then wrap64 (unit * 1024) else unit in
  unit.

(** [ParseVolume]: [None] is a run-time panic of a slice or index
    expression. *)
Definition ParseVolume (m : manager) (c : Config) : option manager :=
  let s := bytes_of (strings.ToUpper (RollingVolumeSize c)) in
  if negb (has_unit s) then
    Some (set_thresholdSize m (1024 * 1024 * 1024))
  else
    p_s ← slice_to s (len s - 1);
    let p := fst (strconv.Atoi p_s) in
    last ← index s (len s - 1);
    let unitstr := string_of_byte last in
    pu ← (if Byte.eqb last "B"%byte then
            p_s2 ← slice_to s (len s - 2);
            u2 ← slice_from s (len s - 2);
            Some (fst (strconv.Atoi p_s2), u2)
          else Some (p, unitstr));
    let '(p, unitstr) := pu in
    Some (set_thresholdSize m (wrap64 (p * unit_switch unitstr))).

(** The size check of the poller of the volume policy:
    [info.Size() > m.thresholdSize]. *)
Definition volume_exceeded (m : manager) (size : Z) : bool :=
  thresholdSize m <? size.

Section GenLogFileName.

(** [t.Format(layout)] of package time. *)
Variable time_Format : Time -> string -> string.

(** [GenLogFileName], at the instant [now] of the clock: the name and the
    manager with its segment start moved.  The call runs under the mutex
    [m.lock], as one step. *)
Definition GenLogFileName (m : manager) (c : Config) (now : Time) : string * manager :=
  let filename :=
    if Compress c then
      path.Join [LogPath c; (FileName c ++ ".log.gz." ++ time_Format (startAt m) (TimeTagFormat c))%string]
    else
      path.Join [LogPath c; (FileName c ++ ".log." ++ time_Format (startAt m) (TimeTagFormat c))%string] in
  (filename, set_startAt m now).

(** A trigger (a cron job, or the poller) runs
    [m.fire <- m.GenLogFileName(c)]: it blocks on the unbuffered channel,
    offering the name. *)
Definition trigger (m : manager) (c : Config) (now : Time) : manager :=
  let '(name, m1) := GenLogFileName m c now in
  set_fire m1 (chan.offer (fire m1) name).

End GenLogFileName.

(** ** manager.go: construction and the goroutine of the volume policy *)

Section Triggers.

Variable time_Format : Time -> string -> string.

(** [cr.AddFunc(spec, f)] fails on a pattern the cron parser rejects. *)
Variable cron_parse : string -> option error.

(** [NewManager], at the instant [now]. *)
Definition NewManager (c : Config) (now : Time) : run (manager + error) :=
  let m := mkManager 0 now (chan.make 0) cron.New (chan.make 0) PollNone in
  if RollingPolicy c =? TimeRolling then
    match cron_parse (RollingTimePattern c) with
    | Some err => Done (inr err)
    | None =>
        let cr1 := cron.mk (cron.entries (cr m) ++ [RollingTimePattern c]) (cron.running (cr m)) in
        Done (inl (set_cr m (cron.Start cr1)))
    end
  else if RollingPolicy c =? VolumeRolling then
    match ParseVolume m c with
    | None => Panic "slice bounds out of range"
    | Some m1 => Done (inl (set_poller m1 PollSelect))
    end
  else Done (inl m).

(** One turn of the goroutine of the volume policy.  At its [select] it
    returns once [context] is closed, or on a tick ([tick]) compares the
    size of the active file with the threshold; [pick] decides when both
    are ready. *)
Definition poller_step (pick : nat) (tick : bool) (m : manager) (c : Config)
    (now : Time) (o : World) : World * manager :=
  match poller m with
  | PollNone | PollReturned => (o, m)
  | PollOffering fd =>
      match chan.items (fire m) with
      | [] => (fst (sys.Close o fd), set_poller m PollSelect)
      | _ => (o, m)
      end
  | PollSelect =>
      let on_tick :=
        match sys.Open o (LogFilePath c) with
        | (o1, inr _) => (o1, m)
        | (o1, inl fd) =>
            match sys.Stat o1 fd with
            | (o2, inl size) =>
                if volume_exceeded m size
                then (o2, set_poller (trigger time_Format m c now) (PollOffering fd))
                else (fst (sys.Close o2 fd), m)
            | (o2, inr _) => (fst (sys.Close o2 fd), m)
            end
        end in
      match chan.recv_ready (context m), tick with
      | true, false => (o, set_poller m PollReturned)
      | true, true => if Nat.even pick then (o, set_poller m PollReturned) else on_tick
      | false, true => on_tick
      | false, false => (o, m)
      end
  end.

End Triggers.

(** ** writer.go *)

(** The struct [Writer].  Its field [fire] is the channel [m.Fire()] of its
    manager: one channel under two names, kept in the manager. *)
Record Writer : Type := mkWriter {
  m : manager;
  file : nat;                                (* the current [*os.File] *)
  absPath : string;
  cf : Config;
  rollingfilech : option (chan.t string)     (* [None]: the nil channel *)
}.

Definition w_fire (w : Writer) : chan.t string := fire (m w).

Definition set_w_fire (w : Writer) (ch : chan.t string) : Writer :=
  mkWriter (set_fire (m w) ch) (file w) (absPath w) (cf w) (rollingfilech w).
Definition set_file (w : Writer) (f : nat) : Writer :=
  mkWriter (m w) f (absPath w) (cf w) (rollingfilech w).
Definition set_rollingfilech (w : Writer) (ch : option (chan.t string)) : Writer :=
  mkWriter (m w) (file w) (absPath w) (cf w) ch.

(** [DoRemove]: a [select] with one receive case and no [default], so it
    waits for a name; then the file of that name is removed. *)
Definition DoRemove (w : Writer) (o : World) : run (World * Writer) :=
  match rollingfilech w with
  | None => Parked
  | Some ch =>
      match chan.try_recv EmptyString ch with
      | None => Parked
      | Some (file, ch') =>
          let w' := set_rollingfilech w (Some ch') in
          match sys.Remove o file with
          | (o', Some err) => Done (log_Println o' ("error in remove log file " ++ file) err, w')
          | (o', None) => Done (o', w')
          end
      end
  end.

(** The loop [retry: select { case w.rollingfilech <- file: default:
    w.DoRemove(); goto retry }], which [Reopen] and [NewWriterFromConfig]
    both have. *)
Fixpoint enqueue (fuel : nat) (w : Writer) (file : string) (o : World) : run (World * Writer) :=
  match fuel with
  | O => Fuel
  | S fuel' =>
      match ch ← rollingfilech w; chan.try_send ch file with
      | Some ch' => Done (o, set_rollingfilech w (Some ch'))
      | None =>
          match DoRemove w o with
          | Done (o', w') => enqueue fuel' w' file o'
          | r => r
          end
      end
  end.

Section Compress.

(** What [gzip.Writer] writes for a given input. *)
Variable gzip : list byte -> list byte.

(** [CompressFile].  The deferred calls run last: [gw.Close()], which
    writes the compressed stream out, then [cmpfile.Close()]. *)
Definition CompressFile (w : Writer) (oldfile : nat) (cmpname : string) (o : World)
    : World * option error :=
  match sys.OpenFile o cmpname with
  | (o1, inr err) =>
      (* [cmpfile] is nil: its deferred [Close] fails without a call *)
      (o1, Some err)
  | (o1, inl cmpfile) =>
      let deferred (o : World) (input : list byte) : World :=
        let '(o, _) := sys.Write o cmpfile (gzip input) in
        let '(o, _) := sys.Close o cmpfile in o in
      match sys.Seek o1 oldfile with
      | (o2, Some err) => (deferred o2 [], Some err)
      | (o2, None) =>
          match sys.ReadAll o2 oldfile with
          | (o3, inr err) =>
              match sys.Remove o3 cmpname with
              | (o4, Some errR) => (deferred o4 [], Some errR)
              | (o4, None) => (deferred o4 [], Some err)
              end
          | (o3, inl data) =>
              let '(o4, r) := sys.Remove o3 (cmpname ++ ".tmp") in
              (deferred o4 data, r)
          end
      end
  end.

(** The goroutine that [Reopen] starts.  [oldfile.Close()] is deferred. *)
Definition Reopen_go (fuel : nat) (w : Writer) (oldfile : nat) (file : string) (o : World)
    : run (World * Writer) :=
  let deferred (r : World * Writer) : World * Writer :=
    (fst (sys.Close (fst r) oldfile), snd r) in
  let retention (o : World) : run (World * Writer) :=
    if 0 <? MaxRemain (cf w) then
      match enqueue fuel w file o with
      | Done r => Done (deferred r)
      | r => r
      end
    else Done (deferred (o, w)) in
  if Compress (cf w) then
    match sys.Rename o file (file ++ ".tmp") with
    | (o1, Some err) =>
        Done (deferred (log_Println o1 "error in compress rename tempfile" err, w))
    | (o1, None) =>
        match CompressFile w oldfile file o1 with
        | (o2, Some err) =>
            Done (deferred (log_Println o2 "error in compress log file" err, w))
        | (o2, None) => retention o2
        end
    end
  else retention o.

End Compress.

(** [Reopen]: rename, open, swap the file pointer, start the goroutine. *)
Definition Reopen (w : Writer) (file_ : string) (o : World) : World * Writer * option error :=
  match sys.Rename o (absPath w) file_ with
  | (o1, Some err) => (o1, w, Some err)
  | (o1, None) =>
      match sys.OpenFile o1 (absPath w) with
      | (o2, inr err) => (o2, w, Some err)
      | (o2, inl newfile) =>
          let oldfile := file w in
          (go o2 (GoReopen oldfile file_), set_file w newfile, None)
      end
  end.

(** [Writer.Write] *)
Definition Writer_Write (w : Writer) (b : list byte) (o : World)
    : World * Writer * (Z * option error) :=
  match chan.try_recv EmptyString (w_fire w) with
  | Some (filename, ch) =>
      match Reopen (set_w_fire w ch) filename o with
      | (o1, w1, Some err) => (o1, w1, (0, Some err))
      | (o1, w1, None) =>
          let '(o2, r) := sys.Write o1 (file w1) b in (o2, w1, r)
      end
  | None =>
      let '(o1, r) := sys.Write o (file w) b in (o1, w, r)
  end.

(** [Writer.Close] *)
Definition Writer_Close (w : Writer) (o : World) : World * option error :=
  sys.Close o (file w).

(** The struct [LockedWriter]: a [Writer] and a mutex. *)
Record LockedWriter : Type := mkLockedWriter {
  lw_Writer : Writer;
  lw_locked : bool
}.

(** [LockedWriter.Write]: with the mutex held by another goroutine the call
    parks; otherwise it locks, and the deferred [Unlock] runs last. *)
Definition LockedWriter_Write (w : LockedWriter) (b : list byte) (o : World)
    : run (World * LockedWriter * (Z * option error)) :=
  if lw_locked w then Parked
  else
    let unlock (w1 : Writer) := mkLockedWriter w1 false in
    let w0 := lw_Writer w in
    match chan.try_recv EmptyString (w_fire w0) with
    | Some (filename, ch) =>
        match Reopen (set_w_fire w0 ch) filename o with
        | (o1, w1, Some err) => Done (o1, unlock w1, (0, Some err))
        | (o1, w1, None) =>
            let '(o2, r) := sys.Write o1 (file w1) b in Done (o2, unlock w1, r)
        end
    | None =>
        let '(o1, r) := sys.Write o (file w0) b in Done (o1, unlock w0, r)
    end.

(** [LockedWriter.Close] *)
Definition LockedWriter_Close (w : LockedWriter) (o : World)
    : run (World * LockedWriter * option error) :=
  if lw_locked w then Parked
  else let '(o1, r) := sys.Close o (file (lw_Writer w)) in Done (o1, w, r).

(** [_asyncBufferPool.Get()]: a slice put back earlier, or a new one of
    [BufferSize] bytes.  Only its length matters. *)
Definition pool_Get (o : World) : Z * World :=
  match asyncBufferPool o with
  | [] => (BufferSize, o)
  | n :: rest => (n, set_asyncBufferPool o rest)
  end.

(** [_asyncBufferPool.Put(b)] *)
Definition pool_Put (o : World) (b : list byte) : World :=
  set_asyncBufferPool o (len b :: asyncBufferPool o).

(** Where the goroutine [writer()] of an [AsynchronousWriter] stands. *)
Inductive consumer : Set :=
| AtSelect                            (* at the [select] of its loop *)
| Sending (b : list byte)             (* blocked in [w.errChan <- err] *)
| Returned.

(** The struct [AsynchronousWriter]. *)
Record AsynchronousWriter : Type := mkAsynchronousWriter {
  aw_Writer : Writer;
  ctx : chan.t Z;
  queue : chan.t (list byte);
  errChan : chan.t error;
  closed : Z;
  aw_consumer : consumer
}.

Definition set_aw_Writer (w : AsynchronousWriter) v :=
  mkAsynchronousWriter v (ctx w) (queue w) (errChan w) (closed w) (aw_consumer w).
Definition set_ctx (w : AsynchronousWriter) v :=
  mkAsynchronousWriter (aw_Writer w) v (queue w) (errChan w) (closed w) (aw_consumer w).
Definition set_queue (w : AsynchronousWriter) v :=
  mkAsynchronousWriter (aw_Writer w) (ctx w) v (errChan w) (closed w) (aw_consumer w).
Definition set_errChan (w : AsynchronousWriter) v :=
  mkAsynchronousWriter (aw_Writer w) (ctx w) (queue w) v (closed w) (aw_consumer w).
Definition set_closed (w : AsynchronousWriter) v :=
  mkAsynchronousWriter (aw_Writer w) (ctx w) (queue w) (errChan w) v (aw_consumer w).
Definition set_aw_consumer (w : AsynchronousWriter) v :=
  mkAsynchronousWriter (aw_Writer w) (ctx w) (queue w) (errChan w) (closed w) v.

(** What a call of [Write] or [Close] gives back. *)
Definition result : Type := Z * option error.

(** The loop [for len(b) > 0] of [AsynchronousWriter.Write]: the payload
    goes to the queue in pieces of the length of the pooled slices; a send
    on the full queue parks the caller. *)
Fixpoint write_chunks (fuel : nat) (w : AsynchronousWriter) (b : list byte) (o : World)
    : run (World * AsynchronousWriter) :=
  match fuel with
  | O => Fuel
  | S fuel' =>
      if 0 <? len b then
        let '(buflen, o1) := pool_Get o in
        let n := Z.min buflen (len b) in
        match chan.try_send (queue w) (take (Z.to_nat n) b) with
        | None => Parked
        | Some q => write_chunks fuel' (set_queue w q) (drop (Z.to_nat n) b) o1
        end
      else Done (o, w)
  end.

(** [AsynchronousWriter.Write].  Its [select] has two receive cases and a
    [default]: when both an error and a file name can be received, [pick]
    tells which case the runtime takes (even: the error). *)
Definition AsynchronousWriter_Write (fuel pick : nat) (w : AsynchronousWriter)
    (b : list byte) (o : World) : run (World * AsynchronousWriter * result) :=
  if closed w =? 0 then
    let on_err := chan.try_recv ErrInternal (errChan w) in
    let on_fire := chan.try_recv EmptyString (w_fire (aw_Writer w)) in
    let case_err (err : error) (ch : chan.t error) :=
      Done (o, set_errChan w ch, (0, Some err)) in
    let case_fire (filename : string) (ch : chan.t string) :=
      match Reopen (set_w_fire (aw_Writer w) ch) filename o with
      | (o1, w1, Some err) => Done (o1, set_aw_Writer w w1, (0, Some err))
      | (o1, w1, None) =>
          let l := len b in
          match write_chunks fuel (set_aw_Writer w w1) b o1 with
          | Done (o2, w2) => Done (o2, w2, (l, None))
          | Parked => Parked
          | Fuel => Fuel
          | Panic msg => Panic msg
          end
      end in
    match on_err, on_fire with
    | Some (err, ch), None => case_err err ch
    | None, Some (filename, ch) => case_fire filename ch
    | Some (err, ch), Some (filename, ch') =>
        if Nat.even pick then case_err err ch else case_fire filename ch'
    | None, None =>
        let '(_, o1) := pool_Get o in
        match chan.try_send (queue w) b with
        | None => Parked
        | Some q => Done (o1, set_queue w q, (len b, None))
        end
    end
  else Done (o, w, (0, Some ErrClosed)).

(** One turn of the goroutine [writer()]: at its [select] it takes a buffer
    from the queue and writes it, or returns once [ctx] is closed ([pick]
    decides when both are ready); a failed write leaves it blocked sending
    the error, until a [Write] has received it. *)
Definition writer_step (pick : nat) (w : AsynchronousWriter) (o : World)
    : World * AsynchronousWriter :=
  match aw_consumer w with
  | Returned => (o, w)
  | Sending b =>
      match chan.items (errChan w) with
      | [] => (pool_Put o b, set_aw_consumer w AtSelect)
      | _ => (o, w)
      end
  | AtSelect =>
      let case_queue (b : list byte) (q : chan.t (list byte)) :=
        let w1 := set_queue w q in
        match sys.Write o (file (aw_Writer w1)) b with
        | (o1, (_, Some err)) =>
            (o1, set_aw_consumer (set_errChan w1 (chan.offer (errChan w1) err)) (Sending b))
        | (o1, (_, None)) => (pool_Put o1 b, w1)
        end in
      match chan.try_recv [] (queue w), chan.recv_ready (ctx w) with
      | Some (b, q), false => case_queue b q
      | Some (b, q), true =>
          if Nat.even pick then case_queue b q else (o, set_aw_consumer w Returned)
      | None, true => (o, set_aw_consumer w Returned)
      | None, false => (o, w)
      end
  end.

(** [onClose]: the caller of [Close] writes out what is left in the queue;
    after a failed write it tries to hand the error over without waiting,
    and gives up when nobody takes it. *)
Fixpoint onClose_loop (pending : list (list byte)) (w : AsynchronousWriter) (o : World)
    : World * AsynchronousWriter :=
  match pending with
  | [] => (o, w)
  | b :: rest =>
      let w1 := set_queue w (chan.mk (chan.cap (queue w)) rest (chan.closed (queue w))) in
      match sys.Write o (file (aw_Writer w1)) b with
      | (o1, (_, Some err)) =>
          match chan.try_send (errChan w1) err with
          | Some ch => onClose_loop rest (set_errChan w1 ch) (pool_Put o1 b)
          | None => (pool_Put o1 b, w1)
          end
      | (o1, (_, None)) => onClose_loop rest w1 (pool_Put o1 b)
      end
  end.

Definition onClose (w : AsynchronousWriter) (o : World) : World * AsynchronousWriter :=
  onClose_loop (chan.items (queue w)) w o.

(** [AsynchronousWriter.Close]: the compare-and-swap of [closed] from 0 to 1
    guards the shutdown. *)
Definition AsynchronousWriter_Close (w : AsynchronousWriter) (o : World)
    : run (World * AsynchronousWriter * option error) :=
  if closed w =? 0 then
    let w1 := set_closed w 1 in
    match chan.close (ctx w1) with
    | Done c =>
        let '(o2, w2) := onClose (set_ctx w1 c) o in
        let '(o3, r) := sys.Close o2 (file (aw_Writer w2)) in
        Done (o3, w2, r)
    | Parked => Parked
    | Fuel => Fuel
    | Panic msg => Panic msg
    end
  else Done (o, w, Some ErrClosed).

(** The struct [BufferWriter]. *)
Record BufferWriter : Type := mkBufferWriter {
  bw_Writer : Writer;
  buf : list byte;
  swaping : Z
}.

(** [BufferWriter.Write]: what [w.file.Write] returns in the flush is
    dropped. *)
Definition BufferWriter_Write (w : BufferWriter) (b : list byte) (o : World)
    : run (World * BufferWriter * result) :=
  let body (w0 : Writer) (o : World) : run (World * BufferWriter * result) :=
    let buf1 := buf w ++ b in
    if (BufferWriterThreshold (cf w0) <? len buf1) && (swaping w =? 0) then
      match make_bytes (wrap64 (BufferWriterThreshold (cf w0) * 2)) with
      | Done nb =>
          let ob := buf1 in
          let '(o1, _) := sys.Write o (file w0) ob in
          Done (o1, mkBufferWriter w0 nb 0, (len b, None))
      | Parked => Parked
      | Fuel => Fuel
      | Panic msg => Panic msg
      end
    else Done (o, mkBufferWriter w0 buf1 (swaping w), (len b, None)) in
  let w0 := bw_Writer w in
  match chan.try_recv EmptyString (w_fire w0) with
  | Some (filename, ch) =>
      match Reopen (set_w_fire w0 ch) filename o with
      | (o1, w1, Some err) => Done (o1, mkBufferWriter w1 (buf w) (swaping w), (0, Some err))
      | (o1, w1, None) => body w1 o1
      end
  | None => body w0 o
  end.

(** [BufferWriter.Close] *)
Definition BufferWriter_Close (w : BufferWriter) (o : World) : World * option error :=
  match sys.Write o (file (bw_Writer w)) (buf w) with
  | (o1, (_, Some err)) => (o1, Some err)
  | (o1, (_, None)) => sys.Close o1 (file (bw_Writer w))
  end.

(** ** writer.go: construction *)

(** What [NewWriterFromConfig] hands out behind the interface
    [RollingWriter]. *)
Inductive RollingWriter : Type :=
| RW_none (w : Writer)
| RW_lock (w : LockedWriter)
| RW_async (w : AsynchronousWriter)
| RW_buffer (w : BufferWriter).

Section Construction.

Variable cron_parse : string -> option error.

(** [time.Parse(layout, value)]: [None] on an error. *)
Variable time_Parse : string -> string -> option Time.

(** The time tag of a historical file: [path.Ext(name)[1:]] parsed with the
    layout, as the comparison of [sort.Slice] computes it (the zero time on
    an error). *)
Definition tag_time (c : Config) (name : string) : Time :=
  match bytes_of (path.Ext name) with
  | _ :: tag => default 0 (time_Parse (TimeTagFormat c) (string_of tag))
  | [] => 0
  end.

(** The historical log files among the entries of the directory. *)
Definition history (c : Config) (dir : list (string * bool)) : list string :=
  omap (fun fi : string * bool =>
          let '(name, isdir) := fi in
          if isdir then None
          else
            let fileName := (FileName c ++ ".log")%string in
            if strings.Contains (bytes_of name) (bytes_of fileName) then
              let fileSuffix := bytes_of (path.Ext name) in
              if 1 <? len fileSuffix then
                match time_Parse (TimeTagFormat c) (string_of (drop 1 fileSuffix)) with
                | Some _ => Some name
                | None => None
                end
              else None
            else None) dir.

Fixpoint insert_by_time (c : Config) (f : string) (l : list string) : list string :=
  match l with
  | [] => [f]
  | x :: l' =>
      if tag_time c x <? tag_time c f then x :: insert_by_time c f l' else f :: l
  end.

(** [sort.Slice(files, ...)] by time tag (the order [sort.Slice] leaves
    among equal tags is not specified; here they keep their order). *)
Definition sort_by_time (c : Config) (files : list string) : list string :=
  foldr (insert_by_time c) [] files.

(** The loop that enqueues the historical files found at construction. *)
Fixpoint trim (fuel : nat) (c : Config) (files : list string) (w : Writer) (o : World)
    : run (World * Writer) :=
  match files with
  | [] => Done (o, w)
  | f :: rest =>
      match enqueue fuel w (path.Join [LogPath c; f]) o with
      | Done (o1, w1) => trim fuel c rest w1 o1
      | r => r
      end
  end.

(** [NewWriterFromConfig], at the instant [now]. *)
Definition NewWriterFromConfig (fuel : nat) (c : Config) (now : Time) (o : World)
    : run (World * (RollingWriter + error)) :=
  if String.eqb (LogPath c) EmptyString || String.eqb (FileName c) EmptyString then
    Done (o, inr ErrInvalidArgument)
  else
    match sys.MkdirAll o (LogPath c) with
    | (o1, Some err) => Done (o1, inr err)
    | (o1, None) =>
        let filepath := LogFilePath c in
        match sys.OpenFile o1 filepath with
        | (o2, inr err) => Done (o2, inr err)
        | (o2, inl file) =>
            match NewManager cron_parse c now with
            | Done (inr err) => Done (o2, inr err)
            | Done (inl mng) =>
                let writer := mkWriter mng file filepath c None in
                let retained : run (World * (Writer + error)) :=
                  if 0 <? MaxRemain c then
                    let writer := set_rollingfilech writer (Some (chan.make (MaxRemain c))) in
                    match sys.ReadDir o2 (LogPath c) with
                    | (o3, inr err) => Done (o3, inr err)
                    | (o3, inl dir) =>
                        let files := sort_by_time c (history c dir) in
                        match trim fuel c files writer o3 with
                        | Done (o4, w4) => Done (o4, inl w4)
                        | Parked => Parked
                        | Fuel => Fuel
                        | Panic msg => Panic msg
                        end
                    end
                  else Done (o2, inl writer) in
                match retained with
                | Done (o5, inl writer) =>
                    if String.eqb (WriterMode c) "none" then
                      Done (o5, inl (RW_none writer))
                    else if String.eqb (WriterMode c) "lock" then
                      Done (o5, inl (RW_lock (mkLockedWriter writer false)))
                    else if String.eqb (WriterMode c) "async" then
                      Done (o5, inl (RW_async
                        (mkAsynchronousWriter writer (chan.make 0) (chan.make QueueSize)
                           (chan.make 0) 0 AtSelect)))
                    else if String.eqb (WriterMode c) "buffer" then
                      match make_bytes (wrap64 (BufferWriterThreshold c * 2)) with
                      | Done bf => Done (o5, inl (RW_buffer (mkBufferWriter writer bf 0)))
                      | Parked => Parked
                      | Fuel => Fuel
                      | Panic msg => Panic msg
                      end
                    else Done (o5, inr ErrInvalidArgument)
                | Done (o5, inr err) => Done (o5, inr err)
                | Parked => Parked
                | Fuel => Fuel
                | Panic msg => Panic msg
                end
            | Parked => Parked
            | Fuel => Fuel
            | Panic msg => Panic msg
            end
        end
    end.

End Construction.

(** ** The options of the declarations file, and [NewWriter] *)

(** The type [Option]: a function that updates the configuration in
    place. *)
Definition Option : Type := Config -> Config.

Definition WithTimeTagFormat (format : string) : Option := fun c =>
  {| TimeTagFormat := format; LogPath := LogPath c;
     FileName := FileName c; MaxRemain := MaxRemain c;
     RollingPolicy := RollingPolicy c;
     RollingTimePattern := RollingTimePattern c;
     RollingVolumeSize := RollingVolumeSize c;
     WriterMode := WriterMode c;
     BufferWriterThreshold := BufferWriterThreshold c;
     Compress := Compress c |}.

Definition WithLogPath (path : string) : Option := fun c =>
  {| TimeTagFormat := TimeTagFormat c; LogPath := path;
     FileName := FileName c; MaxRemain := MaxRemain c;
     RollingPolicy := RollingPolicy c;
     RollingTimePattern := RollingTimePattern c;
     RollingVolumeSize := RollingVolumeSize c;
     WriterMode := WriterMode c;
     BufferWriterThreshold := BufferWriterThreshold c;
     Compress := Compress c |}.

Definition WithFileName (name : string) : Option := fun c =>
  {| TimeTagFormat := TimeTagFormat c; LogPath := LogPath c;
     FileName := name; MaxRemain := MaxRemain c;
     RollingPolicy := RollingPolicy c;
     RollingTimePattern := RollingTimePattern c;
     RollingVolumeSize := RollingVolumeSize c;
     WriterMode := WriterMode c;
     BufferWriterThreshold := BufferWriterThreshold c;
     Compress := Compress c |}.

(** The three options that set [WriterMode]. *)
Definition with_mode (mode : string) : Option := fun c =>
  {| TimeTagFormat := TimeTagFormat c; LogPath := LogPath c;
     FileName := FileName c; MaxRemain := MaxRemain c;
     RollingPolicy := RollingPolicy c;
     RollingTimePattern := RollingTimePattern c;
     RollingVolumeSize := RollingVolumeSize c;
     WriterMode := mode;
     BufferWriterThreshold := BufferWriterThreshold c;
     Compress := Compress c |}.

Definition WithAsynchronous : Option := with_mode "async".
Definition WithLock : Option := with_mode "lock".
Definition WithBuffer : Option := with_mode "buffer".

Definition WithBufferThreshold (n : Z) : Option := fun c =>
  {| TimeTagFormat := TimeTagFormat c; LogPath := LogPath c;
     FileName := FileName c; MaxRemain := MaxRemain c;
     RollingPolicy := RollingPolicy c;
     RollingTimePattern := RollingTimePattern c;
     RollingVolumeSize := RollingVolumeSize c;
     WriterMode := WriterMode c;
     BufferWriterThreshold := n;
     Compress := Compress c |}.

Definition WithCompress : Option := fun c =>
  {| TimeTagFormat := TimeTagFormat c; LogPath := LogPath c;
     FileName := FileName c; MaxRemain := MaxRemain c;
     RollingPolicy := RollingPolicy c;
     RollingTimePattern := RollingTimePattern c;
     RollingVolumeSize := RollingVolumeSize c;
     WriterMode := WriterMode c;
     BufferWriterThreshold := BufferWriterThreshold c;
     Compress := true |}.

Definition WithMaxRemain (max : Z) : Option := fun c =>
  {| TimeTagFormat := TimeTagFormat c; LogPath := LogPath c;
     FileName := FileName c; MaxRemain := max;
     RollingPolicy := RollingPolicy c;
     RollingTimePattern := RollingTimePattern c;
     RollingVolumeSize := RollingVolumeSize c;
     WriterMode := WriterMode c;
     BufferWriterThreshold := BufferWriterThreshold c;
     Compress := Compress c |}.

Definition WithoutRollingPolicy : Option := fun c =>
  {| TimeTagFormat := TimeTagFormat c; LogPath := LogPath c;
     FileName := FileName c; MaxRemain := MaxRemain c;
     RollingPolicy := WithoutRolling;
     RollingTimePattern := RollingTimePattern c;
     RollingVolumeSize := RollingVolumeSize c;
     WriterMode := WriterMode c;
     BufferWriterThreshold := BufferWriterThreshold c;
     Compress := Compress c |}.

Definition WithRollingTimePattern (pattern : string) : Option := fun c =>
  {| TimeTagFormat := TimeTagFormat c; LogPath := LogPath c;
     FileName := FileName c; MaxRemain := MaxRemain c;
     RollingPolicy := TimeRolling;
     RollingTimePattern := pattern;
     RollingVolumeSize := RollingVolumeSize c;
     WriterMode := WriterMode c;
     BufferWriterThreshold := BufferWriterThreshold c;
     Compress := Compress c |}.

(** [WithRollingVolumeSize] is defined with [Config] above. *)

(** A call of one of the option constructors of the package. *)
Inductive option_call : Set :=
| CallWithTimeTagFormat (format : string)
| CallWithLogPath (path : string)
| CallWithFileName (name : string)
| CallWithAsynchronous
| CallWithLock
| CallWithBuffer
| CallWithBufferThreshold (n : Z)
| CallWithCompress
| CallWithMaxRemain (max : Z)
| CallWithoutRollingPolicy
| CallWithRollingTimePattern (pattern : string)
| CallWithRollingVolumeSize (size : string).

(** The option that the call returns. *)
Definition option_of (k : option_call) : Option :=
  match k with
  | CallWithTimeTagFormat format => WithTimeTagFormat format
  | CallWithLogPath path => WithLogPath path
  | CallWithFileName name => WithFileName name
  | CallWithAsynchronous => WithAsynchronous
  | CallWithLock => WithLock
  | CallWithBuffer => WithBuffer
  | CallWithBufferThreshold n => WithBufferThreshold n
  | CallWithCompress => WithCompress
  | CallWithMaxRemain max => WithMaxRemain max
  | CallWithoutRollingPolicy => WithoutRollingPolicy
  | CallWithRollingTimePattern pattern => WithRollingTimePattern pattern
  | CallWithRollingVolumeSize size => WithRollingVolumeSize size
  end.

(** The loop [for _, opt := range ops { opt(&cfg) }]. *)
Definition configure (cfg : Config) (ops : list Option) : Config :=
  foldl (fun c opt => opt c) cfg ops.

Section NewWriter.

Variable cron_parse : string -> option error.
Variable time_Parse : string -> string -> option Time.

(** [NewWriter], at the instant [now]. *)
Definition NewWriter (fuel : nat) (ops : list Option) (now : Time) (o : World)
    : run (World * (RollingWriter + error)) :=
  let cfg := configure NewDefaultConfig ops in
  NewWriterFromConfig cron_parse time_Parse fuel cfg now o.

End NewWriter.

(** * Specification-level notions *)

(** ** Sizes *)

Definition is_digit (c : byte) : bool :=
  (48 <=? byte_val c) && (byte_val c <=? 57).

(** The number a string of decimal digits denotes. *)
Definition digits_val (ds : list byte) : Z :=
  fold_left (fun n c => n * 10 + (byte_val c - 48)) ds 0.

(** The power of 1024 a unit letter stands for, in either case. *)
Definition unit_letter (u : byte) : option Z :=
  match strings.upper_byte u with
  | "K"%byte => Some 1
  | "M"%byte => Some 2
  | "G"%byte => Some 3
  | "T"%byte => Some 4
  | _ => None
  end.

(** The optional trailing [B], in either case. *)
Definition is_B (b : byte) : bool := Byte.eqb (strings.upper_byte b) "B"%byte.

(** The bytes [ParseVolume] hands to the [Atoi] whose value it keeps, given
    the upper-cased size: all but the last byte, or all but the last two
    when the last one is [B]; and the bytes it takes for the unit. *)
Definition number_part (s : list byte) : list byte :=
  match last s with
  | Some "B"%byte => take (length s - 2) s
  | _ => take (length s - 1) s
  end.

Definition unit_part (s : list byte) : list byte :=
  match last s with
  | Some "B"%byte => drop (length s - 2) s
  | Some c => string_of_byte c
  | None => []
  end.

(** The upper-cased bytes of a size string. *)
Definition upper_bytes (size : string) : list byte :=
  map strings.upper_byte (bytes_of size).

(** A size string has a unit letter: one of k, m, g, t in either case. *)
Definition has_unit_letter (size : string) : bool :=
  existsb (fun c => match unit_letter c with Some _ => true | None => false end)
    (bytes_of size).

(** An upper-case unit letter. *)
Definition is_unit_byte (c : byte) : bool :=
  match c with
  | "K"%byte | "M"%byte | "G"%byte | "T"%byte => true
  | _ => false
  end.

(** What [ParseVolume] computes from the upper-cased bytes of the size. *)
Definition volume (s : list byte) : option Z :=
  if negb (has_unit s) then Some (1024 * 1024 * 1024)
  else
    p_s ← slice_to s (len s - 1);
    last ← index s (len s - 1);
    pu ← (if Byte.eqb last "B"%byte then
            p_s2 ← slice_to s (len s - 2);
            u2 ← slice_from s (len s - 2);
            Some (fst (strconv.Atoi p_s2), u2)
          else Some (fst (strconv.Atoi p_s), string_of_byte last));
    Some (wrap64 (fst pu * unit_switch (snd pu))).

(** A manager before [ParseVolume] has set its threshold. *)
Definition manager0 : manager :=
  mkManager 0 0 (chan.make 0) cron.New (chan.make 0) PollNone.

Definition sized (size : string) : Config := WithRollingVolumeSize size NewDefaultConfig.

(** ** Historical file names *)

(** The name of a historical file as the specification writes it:
    [<LogPath>/<FileName>.log[.gz].<tag>]. *)
Definition historical_name (c : Config) (tag : string) : string :=
  (LogPath c ++ "/" ++ FileName c ++ (if Compress c then ".log.gz." else ".log.") ++ tag)%string.

(** The same without the directory. *)
Definition historical_base (c : Config) (tag : string) : string :=
  (FileName c ++ (if Compress c then ".log.gz." else ".log.") ++ tag)%string.

(** A configuration without a directory, as [NewManager] accepts it. *)
Definition config_no_dir : Config :=
  {| TimeTagFormat := "200601021504";
     LogPath := EmptyString;
     FileName := "app";
     MaxRemain := -1;
     RollingPolicy := TimeRolling;
     RollingTimePattern := "0 0 * * *";
     RollingVolumeSize := "1G";
     WriterMode := "lock";
     BufferWriterThreshold := 64;
     Compress := false |}.

(** A clock format that prints one fixed tag, for the examples. *)
Definition format0 : Time -> string -> string := fun _ _ => "202001010000"%string.

(** A cron parser that accepts every pattern, for the examples. *)
Definition cron_any : string -> option error := fun _ => None.

(** A plain path element: not empty, without a slash, and neither [.] nor
    [..]. *)
Definition plain_elem (e : list byte) : bool :=
  match e with
  | [] => false
  | _ => forallb (fun c => negb (Byte.eqb c path.slash)) e
         && negb (bytes_eqb e [path.dot]) && negb (bytes_eqb e [path.dot; path.dot])
  end.

(** Path elements with a slash between them. *)
Fixpoint slash_join (elems : list (list byte)) : list byte :=
  match elems with
  | [] => []
  | [e] => e
  | e :: es => e ++ path.slash :: slash_join es
  end.

(** A path that [path.Clean] has nothing to do on: plain elements with
    single slashes between them, after an optional leading slash. *)
Definition clean_path (rooted : bool) (elems : list (list byte)) : list byte :=
  (if rooted then [path.slash] else []) ++ slash_join elems.

(** A configuration with a clean directory and compression, for the
    examples. *)
Definition config_var_log : Config :=
  {| TimeTagFormat := "200601021504";
     LogPath := "/var/log";
     FileName := "app";
     MaxRemain := 2;
     RollingPolicy := VolumeRolling;
     RollingTimePattern := "0 0 * * *";
     RollingVolumeSize := "1K";
     WriterMode := "none";
     BufferWriterThreshold := 4;
     Compress := true |}.

(** The separator [Clean] writes before a real path element. *)
Definition sep_before (rooted : bool) (out : list byte) : list byte :=
  if (rooted && negb (length out =? 1)%nat) || (negb rooted && negb (length out =? 0)%nat)
  then [path.slash] else [].


(** ** Sample worlds and writers *)

Definition world0 : World := mkWorld ∅ [] [] [] [] [] [] [].

(** The directory [log] with the active file [log/log.log] open as file 0. *)
Definition world1 : World :=
  fst (sys.OpenFile (fst (sys.MkdirAll world0 "log")) (LogFilePath NewDefaultConfig)).

Definition writer1 : Writer :=
  mkWriter manager0 0 (LogFilePath NewDefaultConfig) NewDefaultConfig None.

(** ** The check-and-rotate protocol of the specification *)

(** Poll the fire channel without waiting; with a file name pending,
    [Reopen] under that name. *)
Definition check_and_rotate (w : Writer) (o : World) : World * Writer * option error :=
  match chan.try_recv EmptyString (w_fire w) with
  | Some (filename, ch) => Reopen (set_w_fire w ch) filename o
  | None => (o, w, None)
  end.

(** Writing the bytes to the active file. *)
Definition write_to_file (w : Writer) (b : list byte) (o : World) : World * Writer * result :=
  let '(o1, r) := sys.Write o (file w) b in (o1, w, r).

(** The write step of the buffered variant: the bytes join the buffer; a
    buffer longer than the threshold is written to the active file, unless a
    flush is under way, and a new buffer takes its place. *)
Definition append_to_buffer (w : Writer) (buffer : list byte) (swaping_ : Z)
    (b : list byte) (o : World) : World * BufferWriter * result :=
  let buffer1 := buffer ++ b in
  if (BufferWriterThreshold (cf w) <? len buffer1) && (swaping_ =? 0)
  then (fst (sys.Write o (file w) buffer1), mkBufferWriter w [] 0, (len b, None))
  else (o, mkBufferWriter w buffer1 swaping_, (len b, None)).

(** The calls made between two states of the world. *)
Definition calls_since (o o1 : World) : list (os.call * option error) :=
  drop (length (trace o)) (trace o1).

Definition is_write (ev : os.call * option error) : bool :=
  match fst ev with os.CWrite _ _ => true | _ => false end.

(** A writer with the historical name [log/log.log.202001010000] offered
    on its fire channel. *)
Definition writer1_fired : Writer :=
  set_w_fire writer1 (chan.offer (chan.make 0) "log/log.log.202001010000"%string).

(** [world1] with the environment failing the next call (no space left). *)
Definition ENOSPC : error := Errno 28.
Definition world1_failing : World := set_faults world1 [Some ENOSPC].

(** ** The retention queue *)

(** The [Writer] inside each variant. *)
Definition core (rw : RollingWriter) : Writer :=
  match rw with
  | RW_none w => w
  | RW_lock w => lw_Writer w
  | RW_async w => aw_Writer w
  | RW_buffer w => bw_Writer w
  end.


(** The last [n] names of a list: what a queue of capacity [n] keeps. *)
Definition keep_last (n : Z) (l : list string) : list string :=
  drop (length l - Z.to_nat n) l.

(** A time parser for the examples: a tag of decimal digits is the instant
    it denotes. *)
Definition parse0 (layout value : string) : option Time :=
  match bytes_of value with
  | [] => None
  | b => if forallb is_digit b then Some (digits_val b) else None
  end.

(** A writer whose retention queue of capacity 2 is full. *)
Definition writer_full : Writer :=
  mkWriter manager0 0 (LogFilePath NewDefaultConfig) config_var_log
    (Some (chan.mk 2 ["log/a.log.1"; "log/a.log.2"] false))%string.

(** A buffered writer with a threshold of 4 bytes, 3 bytes in its buffer. *)
Definition buffer_writer1 : BufferWriter :=
  mkBufferWriter
    (mkWriter manager0 0 (LogFilePath NewDefaultConfig) config_var_log None)
    (bytes_of "abc") 0.

Definition no_error (ev : os.call * option error) : bool :=
  match snd ev with None => true | Some _ => false end.

(** ** Sample asynchronous writers *)

(** An asynchronous writer as the constructor makes it. *)
Definition async_writer1 : AsynchronousWriter :=
  mkAsynchronousWriter writer1 (chan.make 0) (chan.make QueueSize) (chan.make 0) 0 AtSelect.

(** The same with two buffers waiting in its queue. *)
Definition async_writer_queued : AsynchronousWriter :=
  set_queue async_writer1 (chan.mk QueueSize [bytes_of "ab"; bytes_of "cd"] false).

(** Its consumer has failed to write the buffer "ab" and is blocked handing
    the error over, while a historical name waits on the fire channel. *)
Definition async_writer_failed : AsynchronousWriter :=
  mkAsynchronousWriter writer1_fired (chan.make 0) (chan.make QueueSize)
    (chan.offer (chan.make 0) ENOSPC) 0 (Sending (bytes_of "ab")).

(** A configuration that keeps two historical files, and a directory that
    holds three of them, an active file and two files that are not
    historical files of this writer. *)
Definition config_keep2 : Config :=
  {| TimeTagFormat := "200601021504";
     LogPath := "log";
     FileName := "a";
     MaxRemain := 2;
     RollingPolicy := WithoutRolling;
     RollingTimePattern := "0 0 * * *";
     RollingVolumeSize := "1K";
     WriterMode := "none";
     BufferWriterThreshold := 4;
     Compress := false |}.

Definition world_history : World :=
  let o := fst (sys.MkdirAll world0 "log") in
  let o := fst (sys.OpenFile o "log/a.log.202001010003") in
  let o := fst (sys.OpenFile o "log/a.log.202001010001") in
  let o := fst (sys.OpenFile o "log/a.log.202001010002") in
  let o := fst (sys.OpenFile o "log/a.log.notatime") in
  let o := fst (sys.OpenFile o "log/b.log.202001010000") in
  set_trace o [].

(** * Further notions, for the properties beyond the claims *)

(** The bytes of the file behind a file handle, open or closed. *)
Definition data (o : World) (fd : nat) : option (list byte) :=
  match fds o !! fd with
  | Some (ino, _) => inodes o !! ino
  | None => None
  end.

Definition is_open (o : World) (fd : nat) : bool :=
  match fds o !! fd with
  | Some (_, true) => true
  | _ => false
  end.

(** The environment imposes no failure on the calls to come. *)
Definition quiet (o : World) : Prop := faults o = [].

(** A channel with nothing to receive. *)
Definition idle {A} (ch : chan.t A) : Prop :=
  chan.items ch = [] /\ chan.closed ch = false.

(** [Writer.Write] for one payload after the other. *)
Fixpoint Writer_writes (w : Writer) (bs : list (list byte)) (o : World)
    : World * Writer * list result :=
  match bs with
  | [] => (o, w, [])
  | b :: bs' =>
      let '(o1, w1, r) := Writer_Write w b o in
      let '(o2, w2, rs) := Writer_writes w1 bs' o1 in
      (o2, w2, r :: rs)
  end.

(** [world1] after the bytes "old" have been written to its active file. *)
Definition world1_written : World := fst (sys.Write world1 0%nat (bytes_of "old")).

(** [BufferWriter.Write] for one payload after the other. *)
Fixpoint BufferWriter_writes (w : BufferWriter) (bs : list (list byte)) (o : World)
    : run (World * BufferWriter * list result) :=
  match bs with
  | [] => Done (o, w, [])
  | b :: bs' =>
      match BufferWriter_Write w b o with
      | Done (o1, w1, r) =>
          match BufferWriter_writes w1 bs' o1 with
          | Done (o2, w2, rs) => Done (o2, w2, r :: rs)
          | Parked => Parked
          | Fuel => Fuel
          | Panic msg => Panic msg
          end
      | Parked => Parked
      | Fuel => Fuel
      | Panic msg => Panic msg
      end
  end.

(** ** Schedules of the asynchronous writer *)




(** An asynchronous writer at work with nothing going wrong: open, no error
    and no rotation pending, its goroutine at the [select], the file [fd]
    open in a quiet world; the bytes of the file followed by the bytes in
    the queue are [total]. *)
Definition async_steady (w : AsynchronousWriter) (o : World) (fd : nat)
    (total : list byte) : Prop :=
  closed w = 0 /\ idle (errChan w) /\ chan.cap (errChan w) = 0 /\
  idle (w_fire (aw_Writer w)) /\ idle (ctx w) /\
  chan.closed (queue w) = false /\ aw_consumer w = AtSelect /\
  file (aw_Writer w) = fd /\ quiet o /\ is_open o fd = true /\
  exists written, data o fd = Some written /\
                  written ++ concat (chan.items (queue w)) = total.

(** [async_writer1] with a historical name offered on its fire channel. *)
Definition async_writer_fired : AsynchronousWriter :=
  set_aw_Writer async_writer1 writer1_fired.

(** [world1_written] with two short slices in the pool. *)
Definition world1_pooled : World := set_asyncBufferPool world1_written [2; 1].

(** The names that a queue of capacity [n] has let go of, once the names
    [l] have gone through it: all but the last [n]. *)
Definition dropped (n : Z) (l : list string) : list string :=
  take (length l - Z.to_nat n) l.

(** A time tag that [path.Ext] gives back whole: it has neither a dot nor a
    slash. *)
Definition tag_plain (tag : list byte) : bool :=
  forallb (fun c => negb (Byte.eqb c path.slash) && negb (Byte.eqb c path.dot)) tag.

(** The default configuration with a writer mode that does not exist. *)
Definition config_bad_mode : Config :=
  {| TimeTagFormat := "200601021504";
     LogPath := "./log";
     FileName := "log";
     MaxRemain := -1;
     RollingPolicy := 1;
     RollingTimePattern := "0 0 * * *";
     RollingVolumeSize := "1G";
     WriterMode := "fast";
     BufferWriterThreshold := 64;
     Compress := false |}.

(** ** Runs of the triggers *)

Section Runs.

Variable time_Format : Time -> string -> string.

(** Cron jobs firing at the instants [ts], one after the other, with
    nobody receiving: each one blocks in its send. *)
Definition triggers (m : manager) (c : Config) (ts : list Time) : manager :=
  foldl (fun m t => trigger time_Format m c t) m ts.

(** Turns of the goroutine of the volume policy, each with its [pick],
    whether the timer has ticked, and the instant. *)
Fixpoint poller_run (evs : list (nat * bool * Time)) (m : manager) (c : Config)
    (o : World) : World * manager :=
  match evs with
  | [] => (o, m)
  | (pick, tick, now) :: rest =>
      let '(o1, m1) := poller_step time_Format pick tick m c now o in
      poller_run rest m1 c o1
  end.

End Runs.

(** The poller of the volume policy has no name on offer, or one, and then
    it is blocked in the send with the file it has opened still open. *)
Definition poller_inv (o : World) (m : manager) : Prop :=
  (chan.items (fire m) = [] /\ (poller m = PollSelect \/ poller m = PollReturned)) \/
  (exists name fd,
     chan.items (fire m) = [name] /\ poller m = PollOffering fd /\ is_open o fd = true).

(** A manager of the volume policy with a threshold of 2 bytes, its poller
    at the [select]. *)
Definition manager_polling : manager :=
  set_poller (set_thresholdSize manager0 2) PollSelect.

Definition is_WithCompress (k : option_call) : bool :=
  match k with CallWithCompress => true | _ => false end.

(** A stand-in for the compressor, for the examples. *)
Definition gzip0 (d : list byte) : list byte := bytes_of "gz:" ++ d.



(** [writer1] with the manager of the volume policy. *)
Definition writer_polling : Writer :=
  mkWriter manager_polling 0 (LogFilePath NewDefaultConfig) NewDefaultConfig None.
(** * Properties *)

(** ** The size parser *)

Lemma bytes_of_ToUpper (s : string) :
  bytes_of (strings.ToUpper s) = map strings.upper_byte (bytes_of s).
Proof.
  unfold strings.ToUpper, bytes_of, string_of.
  apply list_byte_of_string_of_list_byte.
Qed.

Lemma ParseVolume_volume (m : manager) (c : Config) :
  ParseVolume m c =
  set_thresholdSize m <$> volume (map strings.upper_byte (bytes_of (RollingVolumeSize c))).
Proof.
  unfold ParseVolume, volume. rewrite bytes_of_ToUpper.
  set (s := map strings.upper_byte _).
  destruct (negb (has_unit s)); [reflexivity|].
  destruct (slice_to s (len s - 1)) as [p_s|]; [|reflexivity]. cbn.
  destruct (index s (len s - 1)) as [l|]; [|reflexivity]. cbn.
  destruct (Byte.eqb l "B"); [|reflexivity].
  destruct (slice_to s (len s - 2)); [|reflexivity]. cbn.
  destruct (slice_from s (len s - 2)); reflexivity.
Qed.


Lemma Contains_one (s : list byte) (x : byte) :
  strings.Contains s [x] = existsb (Byte.eqb x) s.
Proof.
  induction s as [|c s IH]; [reflexivity|].
  cbn [strings.Contains strings.HasPrefix existsb].
  rewrite IH, andb_true_r. reflexivity.
Qed.

Lemma Contains_two (s : list byte) (x y : byte) :
  strings.Contains s [x; y] = true -> strings.Contains s [x] = true.
Proof.
  rewrite Contains_one.
  induction s as [|c s IH]; cbn [strings.Contains strings.HasPrefix existsb].
  - discriminate.
  - intros H. apply orb_true_iff in H as [H|H].
    + apply andb_true_iff in H as [H _]. rewrite H. reflexivity.
    + rewrite (IH H). apply orb_true_r.
Qed.

Lemma orb_absorb (a b : bool) : (b = true -> a = true) -> a || b = a.
Proof. destruct a, b; intuition. Qed.

Lemma has_unit_existsb (s : list byte) : has_unit s = existsb is_unit_byte s.
Proof.
  unfold has_unit.
  change (bytes_of "K") with ["K"%byte]. change (bytes_of "KB") with ["K"%byte; "B"%byte].
  change (bytes_of "M") with ["M"%byte]. change (bytes_of "MB") with ["M"%byte; "B"%byte].
  change (bytes_of "G") with ["G"%byte]. change (bytes_of "GB") with ["G"%byte; "B"%byte].
  change (bytes_of "T") with ["T"%byte]. change (bytes_of "TB") with ["T"%byte; "B"%byte].
  rewrite (orb_absorb _ _ (Contains_two s "K" "B")).
  rewrite <- !orb_assoc.
  rewrite (orb_assoc (strings.Contains s ["M"%byte])).
  rewrite (orb_absorb _ _ (Contains_two s "M" "B")).
  rewrite (orb_assoc (strings.Contains s ["G"%byte])).
  rewrite (orb_absorb _ _ (Contains_two s "G" "B")).
  rewrite (orb_absorb _ _ (Contains_two s "T" "B")).
  rewrite !Contains_one.
  induction s as [|c s IH]; [reflexivity|].
  cbn [existsb]. rewrite <- IH.
  destruct c; cbn; try reflexivity;
    repeat (rewrite ?orb_true_r, ?orb_false_r; cbn); try reflexivity;
    destruct (existsb _ s); cbn; rewrite ?orb_true_r; reflexivity.
Qed.

Lemma unit_letter_upper (u : byte) :
  is_unit_byte (strings.upper_byte u) = match unit_letter u with Some _ => true | None => false end.
Proof. unfold unit_letter. destruct (strings.upper_byte u); reflexivity. Qed.

Lemma has_unit_upper (bs : list byte) :
  has_unit (map strings.upper_byte bs) =
  existsb (fun c => match unit_letter c with Some _ => true | None => false end) bs.
Proof.
  rewrite has_unit_existsb. induction bs as [|c bs IH]; [reflexivity|].
  cbn [map existsb]. rewrite IH, unit_letter_upper. reflexivity.
Qed.


Lemma byte_val_bounds (c : byte) : 0 <= byte_val c < 256.
Proof.
  unfold byte_val. pose proof (Byte.to_N_bounded c). lia.
Qed.

Lemma atoi_loop_digits (ds : list byte) (n : Z) :
  forallb is_digit ds = true ->
  strconv.atoi_loop ds n =
  (fold_left (fun n c => n * 10 + (byte_val c - 48)) ds n, None).
Proof.
  revert n. induction ds as [|c ds IH]; intros n H; [reflexivity|].
  cbn [forallb] in H. apply andb_true_iff in H as [Hc Hds].
  unfold is_digit in Hc. apply andb_true_iff in Hc as [H1 H2].
  apply Z.leb_le in H1, H2.
  cbn [strconv.atoi_loop fold_left].
  rewrite (Z.mod_small (byte_val c - 48) 256) by lia.
  destruct (Z.ltb_spec 9 (byte_val c - 48)); [lia|].
  apply IH, Hds.
Qed.

Lemma Atoi_digits (ds : list byte) :
  forallb is_digit ds = true -> (0 < length ds < 19)%nat ->
  strconv.Atoi ds = (digits_val ds, None).
Proof.
  intros Hd Hl. unfold strconv.Atoi, len.
  destruct (Z.ltb_spec 0 (Z.of_nat (length ds))); [|lia].
  destruct (Z.ltb_spec (Z.of_nat (length ds)) 19); [|lia].
  cbn [andb]. destruct ds as [|c0 rest]; [cbn in Hl; lia|].
  assert (Hs : Byte.eqb c0 "-" || Byte.eqb c0 "+" = false).
  { cbn [forallb] in Hd. apply andb_true_iff in Hd as [Hc _].
    destruct c0; try discriminate Hc; reflexivity. }
  rewrite Hs. cbn [andb].
  rewrite (atoi_loop_digits _ _ Hd).
  apply orb_false_iff in Hs as [-> _]. reflexivity.
Qed.

(** A syntax error of [Atoi] leaves the value 0. *)
Lemma Atoi_syntax (s : list byte) :
  snd (strconv.Atoi s) = Some strconv.ErrSyntax -> fst (strconv.Atoi s) = 0.
Proof.
  unfold strconv.Atoi.
  destruct ((0 <? len s) && (len s <? 19)).
  - destruct s as [|c0 rest]; [reflexivity|].
    destruct ((Byte.eqb c0 "-" || Byte.eqb c0 "+") && (len _ <? 1)); [reflexivity|].
    destruct (strconv.atoi_loop _ 0) as [n [e|]]; [reflexivity|discriminate].
  - unfold strconv.ParseInt. destruct s as [|c0 rest]; [reflexivity|].
    destruct (strconv.ParseUint _) as [un [[]|]]; cbn; try reflexivity;
      repeat (match goal with |- context [if ?b then _ else _] => destruct b end;
              cbn; try reflexivity; try discriminate).
Qed.

Lemma upper_digit (c : byte) : is_digit c = true -> strings.upper_byte c = c.
Proof.
  unfold is_digit, strings.upper_byte. intros H.
  apply andb_true_iff in H as [_ H]. apply Z.leb_le in H.
  destruct (Z.leb_spec 97 (byte_val c)); [lia|reflexivity].
Qed.

Lemma upper_digits (ds : list byte) :
  forallb is_digit ds = true -> map strings.upper_byte ds = ds.
Proof.
  induction ds as [|c ds IH]; [reflexivity|]. cbn [forallb map].
  intros H. apply andb_true_iff in H as [Hc Hds].
  rewrite (upper_digit _ Hc), (IH Hds). reflexivity.
Qed.

Lemma unit_letter_cases (u : byte) (k : Z) :
  unit_letter u = Some k ->
  (strings.upper_byte u = "K"%byte /\ k = 1) \/ (strings.upper_byte u = "M"%byte /\ k = 2) \/
  (strings.upper_byte u = "G"%byte /\ k = 3) \/ (strings.upper_byte u = "T"%byte /\ k = 4).
Proof.
  unfold unit_letter. destruct (strings.upper_byte u); try discriminate;
    intros [= <-]; auto.
Qed.

Ltac len_arith := unfold len; rewrite ?length_app; cbn [length]; lia.

Lemma slice_to_app {A} (a b : list A) (n : Z) :
  n = len (a ++ b) - len b -> slice_to (a ++ b) n = Some a.
Proof.
  intros ->. unfold slice_to, len. rewrite length_app.
  replace (Z.of_nat (length a + length b) - Z.of_nat (length b)) with (Z.of_nat (length a)) by lia.
  destruct (Z.leb_spec 0 (Z.of_nat (length a))); [|lia].
  destruct (Z.leb_spec (Z.of_nat (length a)) (Z.of_nat (length a + length b))); [|lia].
  cbn [andb]. rewrite Nat2Z.id, take_app_length. reflexivity.
Qed.

Lemma slice_from_app {A} (a b : list A) (n : Z) :
  n = len (a ++ b) - len b -> slice_from (a ++ b) n = Some b.
Proof.
  intros ->. unfold slice_from, len. rewrite length_app.
  replace (Z.of_nat (length a + length b) - Z.of_nat (length b)) with (Z.of_nat (length a)) by lia.
  destruct (Z.leb_spec 0 (Z.of_nat (length a))); [|lia].
  destruct (Z.leb_spec (Z.of_nat (length a)) (Z.of_nat (length a + length b))); [|lia].
  cbn [andb]. rewrite Nat2Z.id, drop_app_length. reflexivity.
Qed.

Lemma index_last {A} (a : list A) (x : A) (n : Z) :
  n = len (a ++ [x]) - 1 -> index (a ++ [x]) n = Some x.
Proof.
  intros ->. unfold index, len. rewrite length_app. cbn [length].
  replace (Z.of_nat (length a + 1) - 1) with (Z.of_nat (length a)) by lia.
  destruct (Z.leb_spec 0 (Z.of_nat (length a))); [|lia].
  destruct (Z.ltb_spec (Z.of_nat (length a)) (Z.of_nat (length a + 1))); [|lia].
  cbn [andb]. rewrite Nat2Z.id. apply list_lookup_middle. reflexivity.
Qed.

(** With a unit letter in it, the size is cut into a number and a unit, and
    no slice expression of [ParseVolume] is out of range. *)
Lemma volume_unit (s : list byte) :
  has_unit s = true ->
  volume s = Some (wrap64 (fst (strconv.Atoi (number_part s)) * unit_switch (unit_part s))).
Proof.
  intros Hu. unfold volume. rewrite Hu. cbn [negb].
  rewrite has_unit_existsb in Hu.
  destruct s as [|l s' _] using rev_ind; [discriminate|].
  unfold number_part, unit_part. rewrite last_snoc.
  rewrite (slice_to_app s' [l] (len (s' ++ [l]) - 1)) by len_arith. cbn [mbind option_bind].
  rewrite (index_last s' l) by reflexivity. cbn [mbind option_bind].
  rewrite length_app. cbn [length].
  replace (length s' + 1 - 1)%nat with (length s') by lia.
  rewrite take_app_length.
  destruct (Byte.eqb l "B") eqn:HB.
  - apply Byte.byte_dec_bl in HB. subst l.
    rewrite existsb_app in Hu. cbn in Hu. rewrite orb_false_r in Hu.
    destruct s' as [|l2 s2 _] using rev_ind; [discriminate|].
    rewrite <- app_assoc. cbn [app].
    rewrite (slice_to_app s2 [l2; "B"%byte]) by len_arith.
    cbn [mbind option_bind].
    rewrite (slice_from_app s2 [l2; "B"%byte]) by len_arith.
    cbn [mbind option_bind fst snd].
    rewrite length_app. cbn [length].
    replace (length s2 + 1 + 1 - 2)%nat with (length s2) by lia.
    rewrite take_app_length, drop_app_length. reflexivity.
  - cbn [mbind option_bind fst snd].
    assert (Hl : match l with "B"%byte => false | _ => true end = true)
      by (destruct l; try reflexivity; discriminate HB).
    destruct l; try reflexivity; discriminate Hl.
Qed.

Lemma volume_no_unit (s : list byte) :
  has_unit s = false -> volume s = Some 1073741824.
Proof. intros Hu. unfold volume. rewrite Hu. reflexivity. Qed.

(** [ParseVolume] never panics. *)
Lemma ParseVolume_total (m : manager) (c : Config) : is_Some (ParseVolume m c).
Proof.
  rewrite ParseVolume_volume.
  destruct (has_unit (map strings.upper_byte (bytes_of (RollingVolumeSize c)))) eqn:Hu.
  - rewrite (volume_unit _ Hu). eexists. reflexivity.
  - rewrite (volume_no_unit _ Hu). eexists. reflexivity.
Qed.


Lemma wrap64_small (z : Z) : - 2 ^ 63 <= z < 2 ^ 63 -> wrap64 z = z.
Proof. intros H. unfold wrap64. rewrite Z.mod_small; lia. Qed.

Lemma digits_val_nonneg (ds : list byte) (n : Z) :
  forallb is_digit ds = true -> 0 <= n ->
  0 <= fold_left (fun n c => n * 10 + (byte_val c - 48)) ds n.
Proof.
  revert n. induction ds as [|d ds IH]; intros n Hd Hn; [exact Hn|].
  cbn [fold_left]. cbn [forallb] in Hd. apply andb_true_iff in Hd as [Hc Hds].
  apply IH; [exact Hds|]. unfold is_digit in Hc.
  apply andb_true_iff in Hc as [H1 _]. apply Z.leb_le in H1. lia.
Qed.

Lemma ParseVolume_number (m : manager) (c : Config) (ds suffix : list byte) (u : byte) (k : Z) :
  forallb is_digit ds = true -> (0 < length ds < 19)%nat ->
  unit_letter u = Some k ->
  (suffix = [] \/ exists b, is_B b = true /\ suffix = [b]) ->
  bytes_of (RollingVolumeSize c) = ds ++ u :: suffix ->
  ParseVolume m c = Some (set_thresholdSize m (wrap64 (digits_val ds * 1024 ^ k))).
Proof.
  intros Hd Hl Hu Hs Hc.
  rewrite ParseVolume_volume, Hc, map_app, (upper_digits _ Hd). cbn [map].
  assert (Hsuf : map strings.upper_byte suffix = [] \/ map strings.upper_byte suffix = ["B"%byte]).
  { destruct Hs as [->|(b & Hb & ->)]; [left; reflexivity|right].
    cbn [map]. unfold is_B in Hb. apply Byte.byte_dec_bl in Hb. rewrite Hb. reflexivity. }
  assert (HU : is_unit_byte (strings.upper_byte u) = true).
  { rewrite unit_letter_upper, Hu. reflexivity. }
  rewrite volume_unit.
  2:{ rewrite has_unit_existsb, existsb_app. cbn [existsb]. rewrite HU.
      cbn. apply orb_true_r. }
  unfold number_part, unit_part.
  destruct Hsuf as [-> | ->].
  - rewrite last_snoc, length_app. cbn [length].
    replace (length ds + 1 - 1)%nat with (length ds) by lia.
    rewrite take_app_length.
    destruct (unit_letter_cases _ _ Hu) as [[-> ->]|[[-> ->]|[[-> ->]|[-> ->]]]];
      cbv iota; rewrite (Atoi_digits _ Hd Hl); reflexivity.
  - change (ds ++ [strings.upper_byte u; "B"%byte])
      with (ds ++ [strings.upper_byte u] ++ ["B"%byte]).
    rewrite app_assoc, last_snoc, <- app_assoc. cbn [app].
    rewrite length_app. cbn [length].
    replace (length ds + 2 - 2)%nat with (length ds) by lia.
    rewrite take_app_length, drop_app_length.
    destruct (unit_letter_cases _ _ Hu) as [[-> ->]|[[-> ->]|[[-> ->]|[-> ->]]]];
      rewrite (Atoi_digits _ Hd Hl); reflexivity.
Qed.

(** C4: [ParseVolume] is case-insensitive; a size without a unit letter
    gives the 1 GiB default; decimal digits followed by a unit letter K, M,
    G or T (in either case) and an optional B give the number times 1024,
    1024^2, 1024^3 or 1024^4 (in 64-bit arithmetic); and the sizes "1K",
    "2MB", "3GB" and "weird" give 1024, 2097152, 3221225472 and
    1073741824. *)
Theorem ParseVolume_sizes (m : manager) (c : Config) :
  (forall c' : Config,
      strings.ToUpper (RollingVolumeSize c') = strings.ToUpper (RollingVolumeSize c) ->
      ParseVolume m c' = ParseVolume m c) /\
  (has_unit_letter (RollingVolumeSize c) = false ->
   ParseVolume m c = Some (set_thresholdSize m 1073741824)) /\
  (forall (ds suffix : list byte) (u : byte) (k : Z),
      forallb is_digit ds = true -> (0 < length ds < 19)%nat ->
      unit_letter u = Some k ->
      (suffix = [] \/ exists b, is_B b = true /\ suffix = [b]) ->
      bytes_of (RollingVolumeSize c) = ds ++ u :: suffix ->
      ParseVolume m c = Some (set_thresholdSize m (wrap64 (digits_val ds * 1024 ^ k))) /\
      (digits_val ds * 1024 ^ k < 2 ^ 63 -> 
       ParseVolume m c = Some (set_thresholdSize m (digits_val ds * 1024 ^ k)))) /\
  ParseVolume m (sized "1K") = Some (set_thresholdSize m 1024) /\
  ParseVolume m (sized "2MB") = Some (set_thresholdSize m 2097152) /\
  ParseVolume m (sized "3GB") = Some (set_thresholdSize m 3221225472) /\
  ParseVolume m (sized "weird") = Some (set_thresholdSize m 1073741824).
Proof.
  split; [|split; [|split]].
  - intros c' H. unfold ParseVolume. rewrite H. reflexivity.
  - intros H. rewrite ParseVolume_volume.
    unfold has_unit_letter in H. rewrite <- has_unit_upper in H.
    rewrite (volume_no_unit _ H). reflexivity.
  - intros ds suffix u k Hd Hl Hu Hs Hc.
    pose proof (ParseVolume_number m c ds suffix u k Hd Hl Hu Hs Hc) as H.
    split; [exact H|]. intros Hsmall. rewrite H, wrap64_small; [reflexivity|].
    split; [|exact Hsmall].
    pose proof (digits_val_nonneg ds 0 Hd (Z.le_refl 0)) as Hnn.
    fold (digits_val ds) in Hnn.
    assert (0 < 1024 ^ k).
    { unfold unit_letter in Hu.
      destruct (strings.upper_byte u); try discriminate; injection Hu as <-; lia. }
    nia.
  - repeat split; rewrite ParseVolume_volume;
      match goal with
      | |- _ <$> ?v = _ => let r := eval vm_compute in v in change v with r
      end; reflexivity.
Qed.

Lemma atoi_loop_error (s : list byte) (n : Z) (e : strconv.NumError) :
  snd (strconv.atoi_loop s n) = Some e -> e = strconv.ErrSyntax.
Proof.
  revert n. induction s as [|c s IH]; intros n; cbn [strconv.atoi_loop]; [discriminate|].
  destruct (9 <? _); [intros [= <-]; reflexivity|apply IH].
Qed.

(** On fewer than 19 bytes [Atoi] takes its fast path (or sees the empty
    string), where the only error is a syntax error. *)
Lemma Atoi_short_error (s : list byte) :
  (length s < 19)%nat -> snd (strconv.Atoi s) <> None ->
  snd (strconv.Atoi s) = Some strconv.ErrSyntax.
Proof.
  intros Hl. unfold strconv.Atoi, len.
  destruct (Z.ltb_spec 0 (Z.of_nat (length s))) as [Hpos|Hzero].
  - destruct (Z.ltb_spec (Z.of_nat (length s)) 19); [|lia]. cbn [andb].
    destruct s as [|c0 rest]; [reflexivity|].
    destruct (_ && _); [reflexivity|].
    pose proof (atoi_loop_error (if Byte.eqb c0 "-" || Byte.eqb c0 "+" then rest else c0 :: rest) 0) as He.
    destruct (strconv.atoi_loop _ 0) as [n [e|]]; cbn [fst snd] in *.
    + intros _. rewrite (He e eq_refl). reflexivity.
    + intros Hn. contradiction.
  - cbn [andb]. destruct s; [reflexivity|cbn in Hzero; lia].
Qed.

(** C10, as stated, fails on a number part that is too large: [Atoi] then
    reports a range error together with the largest [int], the error is
    dropped all the same, and the threshold is that number times the unit,
    wrapped around: -1024, not 0.  This holds with 20 digits before the
    unit, and also when a byte that is no digit follows them. *)
Lemma ParseVolume_range_error_not_zero :
  (has_unit_letter "99999999999999999999K" = true /\
   strconv.Atoi (number_part (upper_bytes "99999999999999999999K"))
     = (9223372036854775807, Some strconv.ErrRange) /\
   ParseVolume manager0 (sized "99999999999999999999K")
     = Some (set_thresholdSize manager0 (-1024)) /\
   ParseVolume manager0 (sized "99999999999999999999K")
     <> Some (set_thresholdSize manager0 0)) /\
  (has_unit_letter "99999999999999999999XK" = true /\
   forallb is_digit (number_part (upper_bytes "99999999999999999999XK")) = false /\
   strconv.Atoi (number_part (upper_bytes "99999999999999999999XK"))
     = (9223372036854775807, Some strconv.ErrRange) /\
   ParseVolume manager0 (sized "99999999999999999999XK")
     = Some (set_thresholdSize manager0 (-1024)) /\
   ParseVolume manager0 (sized "99999999999999999999XK")
     <> Some (set_thresholdSize manager0 0)).
Proof.
  assert (H1 : ParseVolume manager0 (sized "99999999999999999999K")
               = Some (set_thresholdSize manager0 (-1024))) by (vm_compute; reflexivity).
  assert (H2 : ParseVolume manager0 (sized "99999999999999999999XK")
               = Some (set_thresholdSize manager0 (-1024))) by (vm_compute; reflexivity).
  split; (split; [vm_compute; reflexivity|]).
  - split; [vm_compute; reflexivity|]. split; [exact H1|]. rewrite H1. discriminate.
  - split; [vm_compute; reflexivity|]. split; [vm_compute; reflexivity|].
    split; [exact H2|]. rewrite H2. discriminate.
Qed.

(** C10, amended: a size with a unit letter whose number part [Atoi]
    rejects with a syntax error (as it does every number part of fewer than
    19 bytes that it rejects at all) gets the threshold 0, not the 1 GiB
    default: the error is dropped, and any file that is not empty then
    exceeds the threshold. *)
Theorem ParseVolume_ignores_syntax_error (m : manager) (c : Config) :
  has_unit_letter (RollingVolumeSize c) = true ->
  snd (strconv.Atoi (number_part (upper_bytes (RollingVolumeSize c)))) = Some strconv.ErrSyntax \/
  ((length (number_part (upper_bytes (RollingVolumeSize c))) < 19)%nat /\
   snd (strconv.Atoi (number_part (upper_bytes (RollingVolumeSize c)))) <> None) ->
  ParseVolume m c = Some (set_thresholdSize m 0) /\
  ParseVolume m c <> Some (set_thresholdSize m 1073741824) /\
  (forall size : Z, 0 < size -> volume_exceeded (set_thresholdSize m 0) size = true).
Proof.
  intros Hu He.
  assert (He' : snd (strconv.Atoi (number_part (upper_bytes (RollingVolumeSize c))))
                = Some strconv.ErrSyntax).
  { destruct He as [He | [Hl Hn]]; [exact He|]. apply Atoi_short_error; assumption. }
  assert (H : ParseVolume m c = Some (set_thresholdSize m 0)).
  { rewrite ParseVolume_volume. unfold has_unit_letter in Hu.
    rewrite <- has_unit_upper in Hu. rewrite (volume_unit _ Hu).
    unfold upper_bytes in He'. rewrite (Atoi_syntax _ He'). reflexivity. }
  split; [exact H|]. split.
  - rewrite H. intros [= E].
  - intros size Hs. unfold volume_exceeded. cbn. apply Z.ltb_lt, Hs.
Qed.

Lemma ParseVolume_sizes_witness :
  ParseVolume manager0 (sized "100mb") = Some (set_thresholdSize manager0 104857600).
Proof.
  destruct (ParseVolume_sizes manager0 (sized "100mb")) as (_ & _ & H & _).
  destruct (H (bytes_of "100") ["b"%byte] "m"%byte 2) as [_ H2].
  - reflexivity.
  - cbn. lia.
  - reflexivity.
  - right. exists "b"%byte. split; reflexivity.
  - reflexivity.
  - apply H2. reflexivity.
Defined.

Lemma ParseVolume_ignores_syntax_error_witness :
  ParseVolume manager0 (sized "KIND") = Some (set_thresholdSize manager0 0) /\
  ParseVolume manager0 (sized "KIND") <> Some (set_thresholdSize manager0 1073741824) /\
  (forall size : Z, 0 < size -> volume_exceeded (set_thresholdSize manager0 0) size = true).
Proof.
  exact (ParseVolume_ignores_syntax_error manager0 (sized "KIND") eq_refl
           (or_introl eq_refl)).
Defined.

(** The other size the claim names: "MB". *)
Example ParseVolume_MB :
  has_unit_letter "MB" = true /\
  strconv.Atoi (number_part (upper_bytes "MB")) = (0, Some strconv.ErrSyntax) /\
  ParseVolume manager0 (sized "MB") = Some (set_thresholdSize manager0 0).
Proof. repeat split. Qed.


(** ** The rotation manager *)

(** C3: [Close] closes the termination channel and stops the cron schedule
    (a poller waiting at its [select] then returns); and on a manager that
    has been closed once, [Close] panics. *)
Theorem manager_Close_twice_panics (m : manager) :
  (chan.closed (context m) = false -> exists m1, manager_Close m = Done m1) /\
  (forall m1 : manager,
      manager_Close m = Done m1 ->
      chan.closed (context m1) = true /\
      cron.running (cr m1) = false /\
      (forall time_Format pick c now o,
          poller m1 = PollSelect ->
          poller_step time_Format pick false m1 c now o = (o, set_poller m1 PollReturned)) /\
      manager_Close m1 = Panic "close of closed channel").
Proof.
  unfold manager_Close, chan.close. split.
  - intros ->. eexists. reflexivity.
  - intros m1. destruct (chan.closed (context m)) eqn:Hc; [discriminate|].
    intros [= <-]. cbn. repeat split.
    intros tf pick c now o Hp. unfold poller_step. cbn [poller set_cr set_context].
    cbn in Hp. rewrite Hp. unfold chan.recv_ready. cbn.
    destruct (chan.items (context m)); reflexivity.
Qed.

Lemma manager_Close_twice_panics_witness :
  exists m1 m2,
    NewManager cron_any (sized "1K") 7 = Done (inl m1) /\
    poller m1 = PollSelect /\
    manager_Close m1 = Done m2 /\
    poller_step format0 0 false m2 (sized "1K") 8 (mkWorld ∅ [] [] [] [] [] [] [])
      = (mkWorld ∅ [] [] [] [] [] [] [], set_poller m2 PollReturned) /\
    manager_Close m2 = Panic "close of closed channel".
Proof.
  eexists. eexists. split; [reflexivity|]. split; [reflexivity|].
  split; [reflexivity|].
  pose proof (proj2 (manager_Close_twice_panics
                       (mkManager 1024 7 (chan.make 0) cron.New (chan.make 0) PollSelect))
                _ eq_refl) as (_ & _ & Hp & Hc).
  split; [apply Hp; reflexivity | exact Hc].
Defined.

Lemma bytes_of_app (a b : string) : bytes_of (a ++ b) = bytes_of a ++ bytes_of b.
Proof.
  unfold bytes_of, list_byte_of_string.
  induction a as [|ch a IH]; [reflexivity|].
  change (String ch a +:+ b) with (String ch (a +:+ b)).
  cbn [list_ascii_of_string map app]. f_equal. exact IH.
Qed.

Lemma bytes_of_nil (a : string) : bytes_of a = [] -> a = EmptyString.
Proof. destruct a; [reflexivity|discriminate]. Qed.

(** [path.Join] of a directory and a base name, when the directory is not
    empty: the cleaned form of [dir/base]. *)
Lemma Join_two (dir base : string) :
  dir <> EmptyString ->
  path.Join [dir; base] = string_of (path.Clean (bytes_of (dir ++ "/" ++ base))).
Proof.
  intros Hd. unfold path.Join. cbn [map concat].
  destruct (bytes_of dir) as [|d0 dr] eqn:Hb; [apply bytes_of_nil in Hb; contradiction|].
  cbn [app length Nat.eqb path.join_loop].
  rewrite !bytes_of_app, Hb.
  destruct (bytes_of base); reflexivity.
Qed.

(** With an empty directory [path.Join] cleans the base name alone. *)
Lemma Join_empty_dir (base : string) :
  base <> EmptyString ->
  path.Join [EmptyString; base] = string_of (path.Clean (bytes_of base)).
Proof.
  intros Hb. unfold path.Join. cbn [map concat bytes_of list_byte_of_string].
  change (list_byte_of_string base) with (bytes_of base).
  destruct (bytes_of base) as [|b0 br] eqn:E; [apply bytes_of_nil in E; contradiction|].
  reflexivity.
Qed.

Lemma clean_loop_copy (rooted : bool) (e rest out : list byte) (dd : nat) :
  forallb (fun c => negb (Byte.eqb c path.slash)) e = true ->
  path.clean_loop rooted (e ++ rest) true out dd =
  path.clean_loop rooted rest true (rev e ++ out) dd.
Proof.
  revert out. induction e as [|c e IH]; intros out H; [reflexivity|].
  cbn [forallb] in H. apply andb_true_iff in H as [Hc He].
  apply negb_true_iff in Hc.
  cbn [app path.clean_loop]. rewrite Hc, (IH _ He).
  cbn [rev]. rewrite <- app_assoc. reflexivity.
Qed.

Lemma clean_loop_elem (rooted : bool) (e rest out : list byte) (dd : nat) :
  plain_elem e = true ->
  path.clean_loop rooted (e ++ rest) false out dd =
  path.clean_loop rooted rest true (rev e ++ sep_before rooted out ++ out) dd.
Proof.
  intros Hp. destruct e as [|c e]; [discriminate|].
  unfold plain_elem in Hp.
  apply andb_true_iff in Hp as [Hp Hdd]. apply andb_true_iff in Hp as [Hs Hd].
  assert (Hreal :
    path.clean_loop rooted (e ++ rest) true
      (c :: (if (rooted && negb (length out =? 1)%nat)
                || (negb rooted && negb (length out =? 0)%nat)
             then path.slash :: out else out)) dd =
    path.clean_loop rooted rest true (rev (c :: e) ++ sep_before rooted out ++ out) dd).
  { cbn [forallb] in Hs. apply andb_true_iff in Hs as [_ He].
    rewrite (clean_loop_copy _ _ _ _ _ He). cbn [rev]. rewrite <- app_assoc.
    unfold sep_before. destruct (_ || _); reflexivity. }
  pose proof Hs as Hs0. cbn [forallb] in Hs0. apply andb_true_iff in Hs0 as [Hc He].
  apply negb_true_iff in Hc.
  cbn [app path.clean_loop]. rewrite Hc.
  destruct (Byte.eqb c path.dot) eqn:Hcd.
  - apply Byte.byte_dec_bl in Hcd. subst c.
    destruct e as [|c1 e1]; [discriminate Hd|].
    cbn [forallb] in He. apply andb_true_iff in He as [Hc1 He1].
    apply negb_true_iff in Hc1.
    cbn [app path.elem_end andb]. rewrite Hc1.
    destruct (Byte.eqb c1 path.dot) eqn:Hc1d.
    + apply Byte.byte_dec_bl in Hc1d. subst c1.
      destruct e1 as [|c2 e2]; [discriminate Hdd|].
      cbn [forallb] in He1. apply andb_true_iff in He1 as [Hc2 _].
      apply negb_true_iff in Hc2.
      cbn [app path.elem_end andb]. rewrite Hc2. exact Hreal.
    + cbn [andb]. exact Hreal.
  - cbn [andb]. destruct (e ++ rest) eqn:E; exact Hreal.
Qed.

Lemma plain_elem_length (e : list byte) : plain_elem e = true -> (0 < length e)%nat.
Proof. destruct e; [discriminate|cbn; lia]. Qed.

Lemma clean_loop_elems (rooted : bool) (elems : list (list byte)) (out : list byte) (dd : nat) :
  elems <> [] -> forallb plain_elem elems = true ->
  (rooted = true -> out <> []) ->
  path.clean_loop rooted (slash_join elems) false out dd =
  rev (slash_join elems) ++ sep_before rooted out ++ out.
Proof.
  revert out. induction elems as [|e es IH]; intros out Hne Hp Hout; [contradiction|].
  cbn [forallb] in Hp. apply andb_true_iff in Hp as [He Hes].
  destruct es as [|e2 es'].
  - cbn [slash_join]. rewrite <- (app_nil_r e) at 1.
    rewrite (clean_loop_elem _ _ _ _ _ He). reflexivity.
  - change (slash_join (e :: e2 :: es')) with (e ++ path.slash :: slash_join (e2 :: es')).
    rewrite (clean_loop_elem _ _ _ _ _ He).
    cbn [path.clean_loop]. change (Byte.eqb path.slash path.slash) with true. cbn match.
    rewrite IH; [|discriminate|exact Hes|].
    + assert (Hsep : sep_before rooted (rev e ++ sep_before rooted out ++ out) = [path.slash]).
      { pose proof (plain_elem_length _ He) as Hl.
        unfold sep_before at 1. rewrite !length_app, length_rev.
        destruct rooted; cbn [andb orb negb].
        - destruct out; [exfalso; apply Hout; reflexivity|].
          cbn [length].
          destruct (Nat.eqb_spec (length e + (length (sep_before true (b :: out)) + S (length out))) 1);
            [lia|reflexivity].
        - destruct (Nat.eqb_spec (length e + (length (sep_before false out) + length out)) 0);
            [lia|reflexivity]. }
      rewrite Hsep, rev_app_distr. cbn [rev]. rewrite <- !app_assoc. reflexivity.
    + intros _ E. apply (f_equal (@length byte)) in E.
      rewrite length_app, length_rev in E. pose proof (plain_elem_length _ He). cbn in E. lia.
Qed.

(** [path.Clean] leaves a clean path as it is. *)
Lemma Clean_clean_path (rooted : bool) (elems : list (list byte)) :
  elems <> [] -> forallb plain_elem elems = true ->
  path.Clean (clean_path rooted elems) = clean_path rooted elems.
Proof.
  intros Hne Hp. unfold clean_path, path.Clean.
  destruct rooted; cbn [app].
  - change (Byte.eqb path.slash path.slash) with true. cbn match.
    rewrite (clean_loop_elems true elems [path.slash] 1 Hne Hp) by discriminate.
    cbn [sep_before length Nat.eqb andb orb negb app].
    destruct (rev (slash_join elems) ++ [path.slash]) eqn:E.
    + apply (f_equal (@length byte)) in E. rewrite length_app in E. cbn in E. lia.
    + rewrite <- E, rev_app_distr, rev_involutive. reflexivity.
  - destruct elems as [|e es]; [contradiction|].
    pose proof Hp as Hp0. cbn [forallb] in Hp0. apply andb_true_iff in Hp0 as [He _].
    destruct e as [|c e]; [discriminate He|].
    assert (Hc : Byte.eqb c path.slash = false).
    { unfold plain_elem in He. apply andb_true_iff in He as [He _].
      apply andb_true_iff in He as [He _]. cbn [forallb] in He.
      apply andb_true_iff in He as [He _]. apply negb_true_iff in He. exact He. }
    assert (Hj : slash_join ((c :: e) :: es) = c :: (match es with [] => e | _ => e ++ path.slash :: slash_join es end)).
    { destruct es; reflexivity. }
    rewrite Hj, Hc, <- Hj.
    rewrite (clean_loop_elems false _ [] 0 Hne Hp) by discriminate.
    cbn [sep_before length Nat.eqb andb orb negb app]. rewrite app_nil_r.
    destruct (rev (slash_join ((c :: e) :: es))) eqn:E.
    + rewrite Hj in E. apply (f_equal (@length byte)) in E. rewrite length_rev in E.
      cbn in E. lia.
    + rewrite <- E, rev_involutive. reflexivity.
Qed.

Lemma string_of_bytes_of (s : string) : string_of (bytes_of s) = s.
Proof. apply string_of_list_byte_of_string. Qed.

(** C5, as stated, fails: with the default configuration, whose [LogPath]
    is [./log], the name comes back cleaned, without the leading [./]; and
    with an empty [LogPath] it is the file name alone, a relative path,
    where the claim puts it under the root. *)
Lemma GenLogFileName_not_literal :
  (fst (GenLogFileName format0 manager0 NewDefaultConfig 1) = "log/log.log.202001010000"%string /\
   historical_name NewDefaultConfig (format0 (startAt manager0) (TimeTagFormat NewDefaultConfig))
     = "./log/log.log.202001010000"%string /\
   fst (GenLogFileName format0 manager0 NewDefaultConfig 1) <>
   historical_name NewDefaultConfig (format0 (startAt manager0) (TimeTagFormat NewDefaultConfig))) /\
  (fst (GenLogFileName format0 manager0 config_no_dir 1) = "app.log.202001010000"%string /\
   historical_name config_no_dir (format0 (startAt manager0) (TimeTagFormat config_no_dir))
     = "/app.log.202001010000"%string /\
   fst (GenLogFileName format0 manager0 config_no_dir 1) <>
   historical_name config_no_dir (format0 (startAt manager0) (TimeTagFormat config_no_dir))).
Proof.
  assert (H1 : fst (GenLogFileName format0 manager0 NewDefaultConfig 1)
               = "log/log.log.202001010000"%string) by (vm_compute; reflexivity).
  assert (H2 : historical_name NewDefaultConfig
                 (format0 (startAt manager0) (TimeTagFormat NewDefaultConfig))
               = "./log/log.log.202001010000"%string) by (vm_compute; reflexivity).
  assert (H3 : fst (GenLogFileName format0 manager0 config_no_dir 1)
               = "app.log.202001010000"%string) by (vm_compute; reflexivity).
  assert (H4 : historical_name config_no_dir
                 (format0 (startAt manager0) (TimeTagFormat config_no_dir))
               = "/app.log.202001010000"%string) by (vm_compute; reflexivity).
  split.
  - split; [exact H1|]. split; [exact H2|]. rewrite H1, H2. discriminate.
  - split; [exact H3|]. split; [exact H4|]. rewrite H3, H4. discriminate.
Qed.

(** C5, amended: [GenLogFileName] returns [path.Join] of [LogPath] and
    [<FileName>.log.gz.<tag>] (with [Compress]) or [<FileName>.log.<tag>]
    (without), that is, for a [LogPath] that is not empty, the cleaned form
    of [<LogPath>/<FileName>.log[.gz].<tag>], which is that very string when
    it is a clean path, and for an empty [LogPath] the cleaned form of
    [<FileName>.log[.gz].<tag>]; [<tag>] is the stored segment start in the format
    [TimeTagFormat]; and the segment start of the manager is then set to the
    current time, nothing else of it changing. *)
Theorem GenLogFileName_cleaned (time_Format : Time -> string -> string)
    (m : manager) (c : Config) (now : Time) :
  let tag := time_Format (startAt m) (TimeTagFormat c) in
  let name := fst (GenLogFileName time_Format m c now) in
  let m1 := snd (GenLogFileName time_Format m c now) in
  name = path.Join [LogPath c; historical_base c tag] /\
  (LogPath c <> EmptyString ->
   name = string_of (path.Clean (bytes_of (historical_name c tag)))) /\
  (LogPath c = EmptyString ->
   name = string_of (path.Clean (bytes_of (historical_base c tag)))) /\
  (forall (rooted : bool) (elems : list (list byte)),
      LogPath c <> EmptyString ->
      elems <> [] -> forallb plain_elem elems = true ->
      bytes_of (historical_name c tag) = clean_path rooted elems ->
      name = historical_name c tag) /\
  m1 = set_startAt m now /\ startAt m1 = now.
Proof.
  intros tag name m1.
  assert (Hn : name = path.Join [LogPath c; historical_base c tag]).
  { unfold name, GenLogFileName, historical_base. destruct (Compress c); reflexivity. }
  assert (Hc : LogPath c <> EmptyString ->
               name = string_of (path.Clean (bytes_of (historical_name c tag)))).
  { intros Hd. rewrite Hn, (Join_two _ _ Hd). reflexivity. }
  split; [exact Hn|]. split; [exact Hc|]. split; [|split; [|split; reflexivity]].
  { intros He. rewrite Hn, He. apply Join_empty_dir.
    unfold historical_base. destruct (FileName c); [|discriminate].
    destruct (Compress c); discriminate. }
  intros rooted elems Hd Hne Hp Hb.
  rewrite (Hc Hd), Hb, (Clean_clean_path _ _ Hne Hp), <- Hb.
  apply string_of_bytes_of.
Qed.

Lemma GenLogFileName_cleaned_witness :
  fst (GenLogFileName format0 manager0 config_var_log 42)
    = "/var/log/app.log.gz.202001010000"%string /\
  startAt (snd (GenLogFileName format0 manager0 config_var_log 42)) = 42.
Proof.
  destruct (GenLogFileName_cleaned format0 manager0 config_var_log 42)
    as (_ & _ & _ & Hlit & _ & Hs).
  split; [|exact Hs].
  apply (Hlit true [bytes_of "var"; bytes_of "log"; bytes_of "app.log.gz.202001010000"]).
  - discriminate.
  - discriminate.
  - reflexivity.
  - reflexivity.
Defined.

(** ** The model of the operating system *)

(** Case analysis on the innermost [match] of the goal. *)
Ltac destruct_inner :=
  match goal with
  | |- context [match ?x with _ => _ end] =>
      lazymatch x with
      | context [match _ with _ => _ end] => fail
      | _ => destruct x eqn:?
      end
  end.

Ltac sys_cases :=
  unfold sys.Rename, sys.OpenFile, sys.Open, sys.Write, sys.Close, sys.Remove,
    sys.MkdirAll, sys.Seek, sys.ReadAll, sys.Stat, sys.ReadDir, sys.fault, sys.emit;
  repeat (destruct_inner; cbv beta iota zeta);
  intros; cbn [fst snd] in *; simplify_eq; try reflexivity.

Lemma Rename_trace (o : World) (a b : string) :
  trace (fst (sys.Rename o a b)) = trace o ++ [(os.CRename a b, snd (sys.Rename o a b))].
Proof. sys_cases. Qed.

Lemma OpenFile_trace (o : World) (a : string) :
  trace (fst (sys.OpenFile o a)) =
  trace o ++ [(os.COpenFile a, match snd (sys.OpenFile o a) with inl _ => None | inr e => Some e end)].
Proof. sys_cases. Qed.

Lemma Write_trace (o : World) (fd : nat) (b : list byte) :
  trace (fst (sys.Write o fd b)) = trace o ++ [(os.CWrite fd b, snd (snd (sys.Write o fd b)))].
Proof. sys_cases. Qed.

Lemma Close_trace (o : World) (fd : nat) :
  trace (fst (sys.Close o fd)) = trace o ++ [(os.CClose fd, snd (sys.Close o fd))].
Proof. sys_cases. Qed.

Lemma Remove_trace (o : World) (a : string) :
  trace (fst (sys.Remove o a)) = trace o ++ [(os.CRemove a, snd (sys.Remove o a))].
Proof. sys_cases. Qed.

Lemma Rename_inodes (o : World) (a b : string) :
  inodes (fst (sys.Rename o a b)) = inodes o.
Proof. sys_cases. Qed.

Lemma OpenFile_error_inodes (o : World) (a : string) (e : error) :
  snd (sys.OpenFile o a) = inr e -> inodes (fst (sys.OpenFile o a)) = inodes o.
Proof. sys_cases. Qed.

Lemma Rename_logs (o : World) (a b : string) : logs (fst (sys.Rename o a b)) = logs o.
Proof. sys_cases. Qed.

Lemma OpenFile_logs (o : World) (a : string) : logs (fst (sys.OpenFile o a)) = logs o.
Proof. sys_cases. Qed.

Lemma Write_logs (o : World) (fd : nat) (b : list byte) : logs (fst (sys.Write o fd b)) = logs o.
Proof. sys_cases. Qed.

Lemma Close_logs (o : World) (fd : nat) : logs (fst (sys.Close o fd)) = logs o.
Proof. sys_cases. Qed.

Lemma Rename_goroutines (o : World) (a b : string) :
  goroutines (fst (sys.Rename o a b)) = goroutines o.
Proof. sys_cases. Qed.

Lemma OpenFile_goroutines (o : World) (a : string) :
  goroutines (fst (sys.OpenFile o a)) = goroutines o.
Proof. sys_cases. Qed.

(** ** The writers: check, rotate, write *)

(** The three ways [Reopen] can go. *)
Lemma Reopen_cases (w : Writer) (file_ : string) (o : World) :
  (exists e, snd (sys.Rename o (absPath w) file_) = Some e /\
             Reopen w file_ o = (fst (sys.Rename o (absPath w) file_), w, Some e)) \/
  (snd (sys.Rename o (absPath w) file_) = None /\
   exists e,
     snd (sys.OpenFile (fst (sys.Rename o (absPath w) file_)) (absPath w)) = inr e /\
     Reopen w file_ o =
       (fst (sys.OpenFile (fst (sys.Rename o (absPath w) file_)) (absPath w)), w, Some e)) \/
  (snd (sys.Rename o (absPath w) file_) = None /\
   exists fd,
     snd (sys.OpenFile (fst (sys.Rename o (absPath w) file_)) (absPath w)) = inl fd /\
     Reopen w file_ o =
       (go (fst (sys.OpenFile (fst (sys.Rename o (absPath w) file_)) (absPath w)))
           (GoReopen (file w) file_), set_file w fd, None)).
Proof.
  unfold Reopen.
  destruct (sys.Rename o (absPath w) file_) as [o1 [e|]]; cbn [fst snd].
  - left. eauto.
  - right. destruct (sys.OpenFile o1 (absPath w)) as [o2 [fd|e]]; cbn [fst snd]; eauto.
Qed.

Lemma Reopen_cf (w : Writer) (file_ : string) (o : World) :
  cf (snd (fst (Reopen w file_ o))) = cf w.
Proof.
  destruct (Reopen_cases w file_ o)
    as [(e1 & He & ->) | [(Hn & e1 & He & ->) | (Hn & fd & Hfd & ->)]]; reflexivity.
Qed.

Lemma calls_since_app (o o1 : World) (l : list (os.call * option error)) :
  trace o1 = trace o ++ l -> calls_since o o1 = l.
Proof. intros H. unfold calls_since. rewrite H. apply drop_app_length. Qed.

(** [BufferWriter.Write] is the check for a rotation followed by the
    buffered write step, for a writer whose buffers have a capacity that is
    not negative. *)
Lemma BufferWriter_Write_steps (w : BufferWriter) (b : list byte) (o : World) :
  0 <= wrap64 (BufferWriterThreshold (cf (bw_Writer w)) * 2) ->
  BufferWriter_Write w b o =
  Done match check_and_rotate (bw_Writer w) o with
       | (o1, w1, Some err) => (o1, mkBufferWriter w1 (buf w) (swaping w), (0, Some err))
       | (o1, w1, None) => append_to_buffer w1 (buf w) (swaping w) b o1
       end.
Proof.
  intros Hcap. unfold BufferWriter_Write, check_and_rotate, append_to_buffer.
  assert (Hmk : make_bytes (wrap64 (BufferWriterThreshold (cf (bw_Writer w)) * 2)) = Done []).
  { unfold make_bytes.
    destruct (Z.ltb_spec (wrap64 (BufferWriterThreshold (cf (bw_Writer w)) * 2)) 0);
      [lia|reflexivity]. }
  destruct (chan.try_recv _ _) as [[filename ch]|].
  - pose proof (Reopen_cf (set_w_fire (bw_Writer w) ch) filename o) as Hcf.
    destruct (Reopen _ _ _) as [[o1 w1] [err|]]; [reflexivity|].
    cbn [fst snd] in Hcf. rewrite Hcf. cbn [cf set_w_fire]. rewrite Hmk.
    destruct (_ && _); [|reflexivity]. destruct (sys.Write _ _ _); reflexivity.
  - rewrite Hmk. destruct (_ && _); [|reflexivity]. destruct (sys.Write _ _ _); reflexivity.
Qed.

(** C1, as stated, fails for the buffered variant: with no file name
    pending and a buffer below the threshold, [Write] makes no call at all;
    the bytes stay in the buffer and the active file is as it was. *)
Lemma BufferWriter_Write_does_not_reach_file :
  let w := mkBufferWriter writer1 [] 0 in
  chan.try_recv EmptyString (w_fire (bw_Writer w)) = None /\
  inodes world1 !! 0%nat = Some [] /\
  match BufferWriter_Write w (bytes_of "abc") world1 with
  | Done (o1, w1, r) =>
      r = (3, None) /\
      calls_since world1 o1 = [] /\
      inodes o1 = inodes world1 /\
      buf w1 = bytes_of "abc"
  | _ => False
  end.
Proof. vm_compute. repeat split. Qed.

(** C1, amended: each of [Writer.Write], [LockedWriter.Write] and
    [BufferWriter.Write] first polls the fire channel without waiting and,
    with a file name pending, calls [Reopen] under that name (whose first
    call renames the active file) before its write step; with none pending
    it makes no call before its write step.  The write step of [Writer] and
    [LockedWriter] writes the bytes to the active file; the write step of
    [BufferWriter] appends them to its buffer, and writes the buffer to the
    active file only when it has grown beyond the threshold. *)
Theorem Write_checks_then_writes (b : list byte) (o : World) :
  (forall w : Writer,
      Writer_Write w b o =
      match check_and_rotate w o with
      | (o1, w1, Some err) => (o1, w1, (0, Some err))
      | (o1, w1, None) => write_to_file w1 b o1
      end) /\
  (forall w : LockedWriter,
      lw_locked w = false ->
      LockedWriter_Write w b o =
      match check_and_rotate (lw_Writer w) o with
      | (o1, w1, Some err) => Done (o1, mkLockedWriter w1 false, (0, Some err))
      | (o1, w1, None) =>
          let '(o2, w2, r) := write_to_file w1 b o1 in Done (o2, mkLockedWriter w2 false, r)
      end) /\
  (forall w : BufferWriter,
      0 <= wrap64 (BufferWriterThreshold (cf (bw_Writer w)) * 2) ->
      BufferWriter_Write w b o =
      Done match check_and_rotate (bw_Writer w) o with
           | (o1, w1, Some err) => (o1, mkBufferWriter w1 (buf w) (swaping w), (0, Some err))
           | (o1, w1, None) => append_to_buffer w1 (buf w) (swaping w) b o1
           end) /\
  (forall w : Writer,
      (chan.try_recv EmptyString (w_fire w) = None -> check_and_rotate w o = (o, w, None)) /\
      (forall filename ch,
          chan.try_recv EmptyString (w_fire w) = Some (filename, ch) ->
          check_and_rotate w o = Reopen (set_w_fire w ch) filename o /\
          exists r rest,
            calls_since o (fst (fst (check_and_rotate w o)))
              = (os.CRename (absPath w) filename, r) :: rest)) /\
  (forall (w : Writer) (o1 : World),
      calls_since o1 (fst (fst (write_to_file w b o1)))
        = [(os.CWrite (file w) b, snd (snd (write_to_file w b o1)))]) /\
  (forall (w : Writer) (buffer : list byte) (swaping_ : Z) (o1 : World),
      (len (buffer ++ b) <= BufferWriterThreshold (cf w) \/ swaping_ <> 0 ->
       append_to_buffer w buffer swaping_ b o1
         = (o1, mkBufferWriter w (buffer ++ b) swaping_, (len b, None))) /\
      (BufferWriterThreshold (cf w) < len (buffer ++ b) -> swaping_ = 0 ->
       exists r,
         calls_since o1 (fst (fst (append_to_buffer w buffer swaping_ b o1)))
           = [(os.CWrite (file w) (buffer ++ b), r)] /\
         snd (fst (append_to_buffer w buffer swaping_ b o1)) = mkBufferWriter w [] 0 /\
         snd (append_to_buffer w buffer swaping_ b o1) = (len b, None))).
Proof.
  split; [|split; [|split; [|split; [|split]]]].
  - intros w. unfold Writer_Write, check_and_rotate, write_to_file.
    destruct (chan.try_recv _ _) as [[filename ch]|]; [|reflexivity].
    destruct (Reopen _ _ _) as [[o1 w1] [err|]]; reflexivity.
  - intros w Hl. unfold LockedWriter_Write, check_and_rotate, write_to_file.
    rewrite Hl.
    destruct (chan.try_recv _ _) as [[filename ch]|].
    + destruct (Reopen _ _ _) as [[o1 w1] [err|]]; [reflexivity|].
      destruct (sys.Write _ _ _); reflexivity.
    + destruct (sys.Write _ _ _); reflexivity.
  - intros w Hcap. apply BufferWriter_Write_steps, Hcap.
  - intros w. split.
    + intros H. unfold check_and_rotate. rewrite H. reflexivity.
    + intros filename ch H. unfold check_and_rotate. rewrite H.
      split; [reflexivity|].
      pose proof (Rename_trace o (absPath w) filename) as Hr.
      destruct (Reopen_cases (set_w_fire w ch) filename o)
        as [(e & He & ->) | [(Hn & e & He & ->) | (Hn & fd & Hfd & ->)]];
        cbn [fst snd absPath set_w_fire] in *.
      * eexists _, []. apply calls_since_app. exact Hr.
      * eexists _, _. apply calls_since_app.
        rewrite OpenFile_trace, Hr, <- app_assoc. reflexivity.
      * eexists _, _. apply calls_since_app.
        change (trace (go ?x _)) with (trace x).
        rewrite OpenFile_trace, Hr, <- app_assoc. reflexivity.
  - intros w o1. unfold write_to_file.
    pose proof (Write_trace o1 (file w) b) as H.
    destruct (sys.Write o1 (file w) b) as [o2 r]. cbn [fst snd] in *.
    apply calls_since_app. exact H.
  - intros w buffer sw o1. unfold append_to_buffer. split.
    + intros [Hle | Hsw].
      * destruct (Z.ltb_spec (BufferWriterThreshold (cf w)) (len (buffer ++ b))); [lia|].
        reflexivity.
      * destruct (Z.eqb_spec sw 0); [contradiction|].
        rewrite andb_false_r. reflexivity.
    + intros Hlt ->.
      destruct (Z.ltb_spec (BufferWriterThreshold (cf w)) (len (buffer ++ b))); [|lia].
      cbn [andb Z.eqb fst snd]. eexists. split; [|split; reflexivity].
      apply calls_since_app, Write_trace.
Qed.

Lemma Write_checks_then_writes_witness :
  let w := mkLockedWriter writer1_fired false in
  exists o2 w2,
    LockedWriter_Write w (bytes_of "abc") world1 = Done (o2, w2, (3, None)) /\
    calls_since world1 o2 =
      [(os.CRename "log/log.log" "log/log.log.202001010000", None);
       (os.COpenFile "log/log.log", None);
       (os.CWrite 1 (bytes_of "abc"), None)].
Proof.
  intros w.
  rewrite (proj1 (proj2 (Write_checks_then_writes (bytes_of "abc") world1)) w eq_refl).
  vm_compute. eexists _, _. split; reflexivity.
Defined.

(** ** Errors of a rotation *)

Lemma fault_two (o : World) (f1 f2 : option error) (rest : list (option error)) :
  sys.fault (set_faults o (f1 :: f2 :: rest)) = (f1, set_faults o (f2 :: rest)).
Proof. reflexivity. Qed.

(** What [Reopen] returns does not depend on what the environment does to
    the calls that come after its rename and its open. *)
Lemma Reopen_ignores_later_faults (w : Writer) (file_ : string) (o : World)
    (f1 f2 : option error) (later later' : list (option error)) :
  snd (Reopen w file_ (set_faults o (f1 :: f2 :: later))) =
  snd (Reopen w file_ (set_faults o (f1 :: f2 :: later'))).
Proof.
  unfold Reopen, sys.Rename, sys.OpenFile. rewrite !fault_two.
  destruct f1 as [e1|]; [reflexivity|].
  cbn [names set_faults].
  destruct (names o !! sys.key (absPath w)) as [n|]; [|reflexivity].
  cbv beta iota zeta. unfold sys.emit, sys.fault. cbn [faults set_trace set_names set_faults names].
  destruct f2 as [e2|]; [reflexivity|].
  cbv beta iota zeta. cbn [names set_faults].
  destruct (<[sys.key file_:=n]> (delete (sys.key (absPath w)) (names o)) !! sys.key (absPath w))
    as [[ino|]|]; reflexivity.
Qed.

Lemma Reopen_error_world (w : Writer) (file_ : string) (o : World) (e : error) :
  snd (Reopen w file_ o) = Some e ->
  snd (fst (Reopen w file_ o)) = w /\
  inodes (fst (fst (Reopen w file_ o))) = inodes o /\
  forallb (fun ev => negb (is_write ev)) (calls_since o (fst (fst (Reopen w file_ o)))) = true.
Proof.
  pose proof (Rename_trace o (absPath w) file_) as Hr.
  pose proof (Rename_inodes o (absPath w) file_) as Hi.
  destruct (Reopen_cases w file_ o)
    as [(e1 & He & ->) | [(Hn & e1 & He & ->) | (Hn & fd & Hfd & ->)]];
    cbn [fst snd]; intros H; [| |discriminate].
  - split; [reflexivity|]. split; [exact Hi|].
    rewrite (calls_since_app _ _ _ Hr). reflexivity.
  - split; [reflexivity|]. split.
    + rewrite (OpenFile_error_inodes _ _ _ He). exact Hi.
    + erewrite calls_since_app; [|rewrite OpenFile_trace, Hr, <- app_assoc; reflexivity].
      reflexivity.
Qed.

(** C2: [Reopen] returns an error exactly when its rename fails or, the
    rename done, its open fails, whatever happens to later calls; when it
    returns none it has made just these two calls and started the goroutine
    of step 4, whose own failures end in the log; and a [Write] whose
    [Reopen] returns an error returns 0 and that error without having
    written anything. *)
Theorem Reopen_error_sources (w : Writer) (file_ : string) (o : World) :
  let rn := sys.Rename o (absPath w) file_ in
  let op := sys.OpenFile (fst rn) (absPath w) in
  let o1 := fst (fst (Reopen w file_ o)) in
  (forall e : error,
      snd (Reopen w file_ o) = Some e <->
      snd rn = Some e \/ (snd rn = None /\ snd op = inr e)) /\
  (snd (Reopen w file_ o) = None ->
   calls_since o o1 =
     [(os.CRename (absPath w) file_, None); (os.COpenFile (absPath w), None)] /\
   goroutines o1 = goroutines o ++ [GoReopen (file w) file_] /\
   logs o1 = logs o) /\
  (forall f1 f2 later later',
      snd (Reopen w file_ (set_faults o (f1 :: f2 :: later))) =
      snd (Reopen w file_ (set_faults o (f1 :: f2 :: later')))) /\
  (forall gzip fuel (wg : Writer) (og : World) (err : error),
      Compress (cf wg) = true ->
      snd (sys.Rename og file_ (file_ ++ ".tmp")) = Some err ->
      exists og',
        Reopen_go gzip fuel wg (file w) file_ og = Done (og', wg) /\
        logs og' = logs og ++ [("error in compress rename tempfile"%string, err)]) /\
  (forall (e : error) (b : list byte),
      snd (Reopen w file_ o) = Some e ->
      inodes o1 = inodes o /\
      forallb (fun ev => negb (is_write ev)) (calls_since o o1) = true /\
      (forall w0 ch,
          chan.try_recv EmptyString (w_fire w0) = Some (file_, ch) ->
          set_w_fire w0 ch = w ->
          Writer_Write w0 b o = (o1, w, (0, Some e))) /\
      (forall w0 ch,
          chan.try_recv EmptyString (w_fire (lw_Writer w0)) = Some (file_, ch) ->
          set_w_fire (lw_Writer w0) ch = w -> lw_locked w0 = false ->
          LockedWriter_Write w0 b o = Done (o1, mkLockedWriter w false, (0, Some e))) /\
      (forall w0 ch,
          chan.try_recv EmptyString (w_fire (bw_Writer w0)) = Some (file_, ch) ->
          set_w_fire (bw_Writer w0) ch = w ->
          BufferWriter_Write w0 b o
            = Done (o1, mkBufferWriter w (buf w0) (swaping w0), (0, Some e))) /\
      (forall fuel pick w0 ch,
          chan.try_recv EmptyString (w_fire (aw_Writer w0)) = Some (file_, ch) ->
          set_w_fire (aw_Writer w0) ch = w ->
          closed w0 = 0 -> chan.try_recv ErrInternal (errChan w0) = None ->
          AsynchronousWriter_Write fuel pick w0 b o = Done (o1, set_aw_Writer w0 w, (0, Some e)))).
Proof.
  cbv zeta.
  split; [|split; [|split; [|split]]].
  - intros e.
    destruct (Reopen_cases w file_ o)
      as [(e1 & He & ->) | [(Hn & e1 & He & ->) | (Hn & fd & Hfd & ->)]];
      cbn [fst snd]; split.
    + intros [= <-]. left. exact He.
    + intros [H | [H _]]; congruence.
    + intros [= <-]. right. split; assumption.
    + intros [H | [_ H]]; congruence.
    + discriminate.
    + intros [H | [_ H]]; congruence.
  - pose proof (Rename_trace o (absPath w) file_) as Hr.
    destruct (Reopen_cases w file_ o)
      as [(e1 & He & ->) | [(Hn & e1 & He & ->) | (Hn & fd & Hfd & ->)]];
      cbn [fst snd]; intros H; try discriminate.
    split; [|split].
    + apply calls_since_app. change (trace (go ?x _)) with (trace x).
      rewrite OpenFile_trace, Hr, Hn, Hfd, <- app_assoc. reflexivity.
    + change (goroutines (go ?x ?g)) with (goroutines x ++ [g]).
      rewrite OpenFile_goroutines, Rename_goroutines. reflexivity.
    + change (logs (go ?x ?g)) with (logs x).
      rewrite OpenFile_logs, Rename_logs. reflexivity.
  - intros. apply Reopen_ignores_later_faults.
  - intros gzip fuel wg og err Hc Hr. unfold Reopen_go. rewrite Hc.
    pose proof (Rename_logs og file_ (file_ ++ ".tmp")) as Hl.
    destruct (sys.Rename og file_ (file_ ++ ".tmp")) as [og1 r]. cbn [fst snd] in *.
    subst r. eexists. split; [reflexivity|]. cbn [fst snd].
    rewrite Close_logs. cbn [logs log_Println set_logs]. rewrite Hl. reflexivity.
  - intros e b He.
    destruct (Reopen_error_world w file_ o e He) as (Hw & Hi & Hc).
    split; [exact Hi|]. split; [exact Hc|].
    destruct (Reopen w file_ o) as [[o1 w1] r] eqn:HR. cbn [fst snd] in *. subst w1 r.
    split; [|split; [|split]].
    + intros w0 ch Hrecv <-. unfold Writer_Write. rewrite Hrecv, HR. reflexivity.
    + intros w0 ch Hrecv <- Hl. unfold LockedWriter_Write. rewrite Hl, Hrecv, HR. reflexivity.
    + intros w0 ch Hrecv <-. unfold BufferWriter_Write. rewrite Hrecv, HR. reflexivity.
    + intros fuel pick w0 ch Hrecv <- Hcl Herr. unfold AsynchronousWriter_Write.
      rewrite Hcl, Herr, Hrecv. cbn [Z.eqb]. rewrite HR. reflexivity.
Qed.

Lemma Reopen_error_sources_witness :
  Reopen writer1 "log/log.log.202001010000" world1_failing
    = (fst (sys.Rename world1_failing "log/log.log" "log/log.log.202001010000"),
       writer1, Some ENOSPC) /\
  Writer_Write writer1_fired (bytes_of "abc") world1_failing
    = (fst (sys.Rename world1_failing "log/log.log" "log/log.log.202001010000"),
       writer1, (0, Some ENOSPC)) /\
  inodes (fst (sys.Rename world1_failing "log/log.log" "log/log.log.202001010000"))
    = inodes world1_failing.
Proof.
  assert (He : snd (Reopen writer1 "log/log.log.202001010000" world1_failing) = Some ENOSPC)
    by (vm_compute; reflexivity).
  destruct (Reopen_error_sources writer1 "log/log.log.202001010000" world1_failing)
    as (_ & _ & _ & _ & H).
  destruct (H ENOSPC (bytes_of "abc") He) as (Hi & _ & Hw & _).
  split; [vm_compute; reflexivity|]. split.
  - rewrite (Hw writer1_fired (chan.make 0)); [|reflexivity|reflexivity].
    vm_compute. reflexivity.
  - vm_compute. reflexivity.
Defined.

(** ** The retention queue *)

Lemma try_send_bounded {A} (ch ch' : chan.t A) (v : A) :
  chan.try_send ch v = Some ch' ->
  chan.cap ch' = chan.cap ch /\ chan.items ch' = chan.items ch ++ [v] /\ chan.bounded ch'.
Proof.
  unfold chan.try_send, chan.bounded.
  destruct (Z.ltb_spec (Z.of_nat (length (chan.items ch))) (chan.cap ch)); [|discriminate].
  intros [= <-]. cbn. rewrite length_app. cbn. repeat split. lia.
Qed.

Lemma try_send_full {A} (ch : chan.t A) (v : A) :
  chan.try_send ch v = None <-> chan.cap ch <= Z.of_nat (length (chan.items ch)).
Proof.
  unfold chan.try_send.
  destruct (Z.ltb_spec (Z.of_nat (length (chan.items ch))) (chan.cap ch)); split;
    try discriminate; try lia; reflexivity.
Qed.


Lemma Remove_names_only (o : World) (a : string) :
  logs (fst (sys.Remove o a)) = logs o /\
  goroutines (fst (sys.Remove o a)) = goroutines o /\
  inodes (fst (sys.Remove o a)) = inodes o.
Proof. repeat split; sys_cases. Qed.


Lemma keep_last_snoc (n : Z) (l : list string) (f : string) :
  0 < n -> keep_last n (keep_last n l ++ [f]) = keep_last n (l ++ [f]).
Proof.
  intros Hn. unfold keep_last. set (k := Z.to_nat n). assert (1 <= k)%nat by lia.
  rewrite !length_app, length_drop. cbn [length].
  destruct (Nat.le_gt_cases (length l) k) as [Hle|Hgt].
  - replace (length l - k)%nat with 0%nat by lia. cbn [drop].
    replace (length l - 0 + 1 - k)%nat with (length l + 1 - k)%nat by lia. reflexivity.
  - replace (length l - (length l - k) + 1 - k)%nat with 1%nat by lia.
    rewrite (drop_app_le l [f] (length l + 1 - k)) by lia.
    rewrite drop_app_le by (rewrite length_drop; lia).
    rewrite drop_drop. f_equal. f_equal. lia.
Qed.

Lemma keep_last_app (n : Z) (l fs : list string) :
  0 < n -> keep_last n (keep_last n l ++ fs) = keep_last n (l ++ fs).
Proof.
  intros Hn. induction fs as [|x fs IH] using rev_ind.
  - rewrite !app_nil_r. unfold keep_last at 1.
    assert (Hle : (length (keep_last n l) <= Z.to_nat n)%nat).
    { unfold keep_last. rewrite length_drop. lia. }
    replace (length (keep_last n l) - Z.to_nat n)%nat with 0%nat by lia.
    reflexivity.
  - rewrite !app_assoc.
    rewrite <- (keep_last_snoc n (keep_last n l ++ fs) x Hn), IH.
    apply keep_last_snoc, Hn.
Qed.



Lemma NewManager_Done (cron_parse : string -> option error) (c : Config) (now : Time) :
  exists r, NewManager cron_parse c now = Done r.
Proof.
  unfold NewManager.
  destruct (RollingPolicy c =? TimeRolling).
  - destruct (cron_parse _); eexists; reflexivity.
  - destruct (RollingPolicy c =? VolumeRolling); [|eexists; reflexivity].
    destruct (ParseVolume_total
                (mkManager 0 now (chan.make 0) cron.New (chan.make 0) PollNone) c) as [m1 ->].
    eexists; reflexivity.
Qed.





(** The loops of the retention queue touch nothing of the writer but the
    queue. *)
Lemma enqueue_cf (fuel : nat) (w : Writer) (file_ : string) (o o1 : World) (w1 : Writer) :
  enqueue fuel w file_ o = Done (o1, w1) -> cf w1 = cf w.
Proof.
  revert w o. induction fuel as [|fuel IH]; intros w o; cbn [enqueue]; [discriminate|].
  destruct (rollingfilech w ≫= _) as [ch'|]; [intros [= <- <-]; reflexivity|].
  unfold DoRemove. destruct (rollingfilech w) as [ch|]; [|discriminate].
  destruct (chan.try_recv EmptyString ch) as [[f ch']|]; [|discriminate].
  destruct (sys.Remove o f) as [o' [err|]]; intros H; apply IH in H; exact H.
Qed.

Lemma trim_cf (fuel : nat) (c : Config) (files : list string) (w : Writer) (o o1 : World)
    (w1 : Writer) :
  trim fuel c files w o = Done (o1, w1) -> cf w1 = cf w.
Proof.
  revert w o. induction files as [|f files IH]; intros w o; cbn [trim].
  - intros [= <- <-]. reflexivity.
  - destruct (enqueue fuel w _ o) as [[o2 w2]| | |] eqn:He; try discriminate.
    intros H. apply IH in H. rewrite H. apply (enqueue_cf _ _ _ _ _ _ He).
Qed.

(** A buffered writer that the constructor hands out has a buffer capacity
    that is not negative: with a negative one [make] panics there. *)
Lemma NewWriterFromConfig_buffer_cap (cron_parse : string -> option error)
    (time_Parse : string -> string -> option Time)
    (fuel : nat) (c : Config) (now : Time) (o o1 : World) (w : BufferWriter) :
  NewWriterFromConfig cron_parse time_Parse fuel c now o = Done (o1, inl (RW_buffer w)) ->
  cf (bw_Writer w) = c /\ 0 <= wrap64 (BufferWriterThreshold (cf (bw_Writer w)) * 2) /\
  buf w = [] /\ swaping w = 0.
Proof.
  unfold NewWriterFromConfig.
  destruct (_ || _); [discriminate|].
  destruct (sys.MkdirAll o (LogPath c)) as [o2 [err|]]; [discriminate|].
  destruct (sys.OpenFile o2 (LogFilePath c)) as [o3 [fd|err]]; [|discriminate].
  destruct (NewManager cron_parse c now) as [[mng|err]| | |]; try discriminate.
  assert (Hmodes : forall (o5 : World) (writer : Writer),
             cf writer = c ->
             (if String.eqb (WriterMode c) "none" then Done (o5, inl (RW_none writer))
              else if String.eqb (WriterMode c) "lock"
              then Done (o5, inl (RW_lock (mkLockedWriter writer false)))
              else if String.eqb (WriterMode c) "async"
              then Done (o5, inl (RW_async
                     (mkAsynchronousWriter writer (chan.make 0) (chan.make QueueSize)
                        (chan.make 0) 0 AtSelect)))
              else if String.eqb (WriterMode c) "buffer"
              then match make_bytes (wrap64 (BufferWriterThreshold c * 2)) with
                   | Done bf => Done (o5, inl (RW_buffer (mkBufferWriter writer bf 0)))
                   | Parked => Parked
                   | Fuel => Fuel
                   | Panic msg => Panic msg
                   end
              else Done (o5, inr ErrInvalidArgument)) = Done (o1, inl (RW_buffer w)) ->
             cf (bw_Writer w) = c /\ 0 <= wrap64 (BufferWriterThreshold (cf (bw_Writer w)) * 2) /\
             buf w = [] /\ swaping w = 0).
  { intros o5 writer Hcf.
    repeat (destruct (String.eqb (WriterMode c) _); [discriminate|]).
    destruct (String.eqb (WriterMode c) "buffer"); [|discriminate].
    unfold make_bytes.
    destruct (Z.ltb_spec (wrap64 (BufferWriterThreshold c * 2)) 0); [discriminate|].
    intros [= <- <-]. cbn. rewrite Hcf. auto. }
  destruct (0 <? MaxRemain c).
  - destruct (sys.ReadDir o3 (LogPath c)) as [o4 [dir|err]]; [|discriminate].
    destruct (trim fuel c _ _ o4) as [[o5 w5]| | |] eqn:Ht; try discriminate.
    apply Hmodes. apply trim_cf in Ht. exact Ht.
  - apply Hmodes. reflexivity.
Qed.

(** The constructor at work: of three historical files it removes the
    oldest and keeps the names of the two newest, oldest first. *)
Example NewWriterFromConfig_trims :
  match NewWriterFromConfig cron_any parse0 2 config_keep2 5 world_history with
  | Done (o, inl rw) =>
      rollingfilech (core rw)
        = Some (chan.mk 2 ["log/a.log.202001010002"; "log/a.log.202001010003"]%string false) /\
      trace o =
        [(os.CMkdirAll "log", None); (os.COpenFile "log/a.log", None);
         (os.CReadDir "log", None); (os.CRemove "log/a.log.202001010001", None)] /\
      names o !! "log/a.log.202001010001"%string = None
  | _ => False
  end.
Proof. vm_compute. repeat split. Qed.

(** ** The buffered variant *)

Lemma check_and_rotate_logs (w : Writer) (o : World) :
  logs (fst (fst (check_and_rotate w o))) = logs o.
Proof.
  unfold check_and_rotate.
  destruct (chan.try_recv _ _) as [[filename ch]|]; [|reflexivity].
  destruct (Reopen_cases (set_w_fire w ch) filename o)
    as [(e1 & He & ->) | [(Hn & e1 & He & ->) | (Hn & fd & Hfd & ->)]]; cbn [fst snd].
  - apply Rename_logs.
  - rewrite OpenFile_logs. apply Rename_logs.
  - change (logs (go ?x ?g)) with (logs x). rewrite OpenFile_logs. apply Rename_logs.
Qed.

(** C9: in [BufferWriter.Write] what the flush's [w.file.Write] returns is
    dropped: unless a pending rotation fails, [Write] returns [len(b)] and no
    error, and nothing is logged, also when the buffer is written out and
    that write fails; the buffer is then gone all the same.  (The writer is
    one the constructor can have made: the capacity [2 * threshold] of its
    buffers is not negative.) *)
Theorem BufferWriter_flush_error_lost (w : BufferWriter) (b : list byte) (o : World) :
  snd (check_and_rotate (bw_Writer w) o) = None ->
  0 <= wrap64 (BufferWriterThreshold (cf (bw_Writer w)) * 2) ->
  exists o2 w2,
    BufferWriter_Write w b o = Done (o2, w2, (len b, None)) /\
    logs o2 = logs o /\
    (forall o1 w1,
        check_and_rotate (bw_Writer w) o = (o1, w1, None) ->
        BufferWriterThreshold (cf w1) < len (buf w ++ b) -> swaping w = 0 ->
        o2 = fst (sys.Write o1 (file w1) (buf w ++ b)) /\
        calls_since o1 o2 =
          [(os.CWrite (file w1) (buf w ++ b),
            snd (snd (sys.Write o1 (file w1) (buf w ++ b))))] /\
        w2 = mkBufferWriter w1 [] 0).
Proof.
  intros Hok Hcap.
  pose proof (BufferWriter_Write_steps w b o Hcap) as HW.
  pose proof (check_and_rotate_logs (bw_Writer w) o) as HL.
  destruct (check_and_rotate (bw_Writer w) o) as [[o1 w1] r]. cbn [fst snd] in *. subst r.
  rewrite HW. unfold append_to_buffer.
  destruct ((BufferWriterThreshold (cf w1) <? len (buf w ++ b)) && (swaping w =? 0)) eqn:Hfl.
  - eexists _, _. split; [reflexivity|]. split; [rewrite Write_logs; exact HL|].
    intros o1' w1' [= <- <-] _ _. split; [reflexivity|]. split; [|reflexivity].
    apply calls_since_app, Write_trace.
  - eexists _, _. split; [reflexivity|]. split; [exact HL|].
    intros o1' w1' [= <- <-] Hth Hsw. exfalso.
    destruct (Z.ltb_spec (BufferWriterThreshold (cf w1)) (len (buf w ++ b))); [|lia].
    rewrite Hsw in Hfl. discriminate.
Qed.

Lemma BufferWriter_flush_error_lost_witness :
  exists o2 w2,
    BufferWriter_Write buffer_writer1 (bytes_of "de") world1_failing
      = Done (o2, w2, (2, None)) /\
    logs o2 = [] /\
    calls_since world1_failing o2 = [(os.CWrite 0 (bytes_of "abcde"), Some ENOSPC)] /\
    w2 = mkBufferWriter (bw_Writer buffer_writer1) [] 0.
Proof.
  destruct (BufferWriter_flush_error_lost buffer_writer1 (bytes_of "de") world1_failing
              eq_refl ltac:(vm_compute; discriminate))
    as (o2 & w2 & Hrun & Hl & Hf).
  exists o2, w2. split; [exact Hrun|]. split; [exact Hl|].
  destruct (Hf world1_failing (bw_Writer buffer_writer1) eq_refl eq_refl eq_refl)
    as (_ & Hc & Hw).
  split; [exact Hc|exact Hw].
Defined.

(** ** The asynchronous variant *)

(** What [onClose] does: it writes a prefix of the queue to the file, in
    order, and stops at the first write that fails (nobody takes the error
    from the unbuffered channel); it leaves everything but the queue and the
    buffer pool as it was. *)
Lemma onClose_loop_spec (pending : list (list byte)) (w : AsynchronousWriter) (o : World) :
  chan.cap (errChan w) = 0 -> chan.items (queue w) = pending ->
  exists (o1 : World) (w1 : AsynchronousWriter) (n : nat) (l : list (os.call * option error)),
    onClose_loop pending w o = (o1, w1) /\
    closed w1 = closed w /\ ctx w1 = ctx w /\ aw_Writer w1 = aw_Writer w /\
    errChan w1 = errChan w /\ aw_consumer w1 = aw_consumer w /\
    logs o1 = logs o /\
    trace o1 = trace o ++ l /\
    map fst l = map (os.CWrite (file (aw_Writer w))) (take n pending) /\
    chan.items (queue w1) = drop n pending /\
    (forallb no_error l = true -> n = length pending).
Proof.
  revert w o. induction pending as [|b rest IH]; intros w o Hcap Hq.
  - exists o, w, 0%nat, []. cbn [onClose_loop]. rewrite app_nil_r.
    repeat (split; [reflexivity|]). split; [exact Hq|]. reflexivity.
  - cbn [onClose_loop].
    set (w0 := set_queue w _).
    pose proof (Write_trace o (file (aw_Writer w0)) b) as Ht.
    pose proof (Write_logs o (file (aw_Writer w0)) b) as Hl.
    destruct (sys.Write o (file (aw_Writer w0)) b) as [o1 [k [err|]]]; cbn [fst snd] in Ht, Hl.
    + assert (Hns : chan.try_send (errChan w0) err = None).
      { apply try_send_full. change (errChan w0) with (errChan w). rewrite Hcap. lia. }
      rewrite Hns.
      exists (pool_Put o1 b), w0, 1%nat, [(os.CWrite (file (aw_Writer w0)) b, Some err)].
      repeat (split; [first [reflexivity | exact Hl | exact Ht]|]).
      discriminate.
    + destruct (IH w0 (pool_Put o1 b) Hcap eq_refl)
        as (o2 & w2 & n & l & Hrun & H1 & H2 & H3 & H4 & H5 & H6 & Htr & Hcalls & Hq2 & Hall).
      exists o2, w2, (S n), ((os.CWrite (file (aw_Writer w0)) b, None) :: l).
      split; [exact Hrun|].
      repeat (split; [assumption|]).
      split; [rewrite H6; exact Hl|]. split.
      { rewrite Htr. change (trace (pool_Put o1 b)) with (trace o1).
        rewrite Ht, <- app_assoc. reflexivity. }
      split; [cbn [map take]; f_equal; exact Hcalls|].
      split; [exact Hq2|].
      cbn [forallb no_error snd andb length]. intros Hok. f_equal. apply Hall, Hok.
Qed.

(** With the flag [closed] set, [Close] and [Write] do nothing but return
    the Closed error. *)
Lemma AsynchronousWriter_closed (w : AsynchronousWriter) (o : World) :
  closed w <> 0 ->
  AsynchronousWriter_Close w o = Done (o, w, Some ErrClosed) /\
  (forall fuel pick b,
      AsynchronousWriter_Write fuel pick w b o = Done (o, w, (0, Some ErrClosed))).
Proof.
  intros Hne. unfold AsynchronousWriter_Close, AsynchronousWriter_Write.
  destruct (Z.eqb_spec (closed w) 0); [contradiction|]. split; reflexivity.
Qed.

(** C7: [AsynchronousWriter.Close] runs its shutdown once: with [closed]
    at 0 it sets the flag, closes [ctx] (so that the consumer waiting at its
    [select] returns), writes the queue out (all of it when no write fails)
    and closes the file; with the flag set, [Close] does nothing and returns
    the Closed error, and every [Write] returns 0 and the Closed error at
    once, leaving everything as it is. *)
Theorem AsynchronousWriter_Close_once (w : AsynchronousWriter) (o : World) :
  (closed w = 0 -> chan.closed (ctx w) = false -> chan.cap (errChan w) = 0 ->
   exists o1 w1 r l n,
     AsynchronousWriter_Close w o = Done (o1, w1, r) /\
     closed w1 = 1 /\ chan.closed (ctx w1) = true /\
     calls_since o o1 = l ++ [(os.CClose (file (aw_Writer w)), r)] /\
     map fst l = map (os.CWrite (file (aw_Writer w))) (take n (chan.items (queue w))) /\
     chan.items (queue w1) = drop n (chan.items (queue w)) /\
     (forallb no_error l = true -> chan.items (queue w1) = []) /\
     (forall pick, aw_consumer w1 = AtSelect -> chan.try_recv [] (queue w1) = None ->
                   writer_step pick w1 o1 = (o1, set_aw_consumer w1 Returned)) /\
     AsynchronousWriter_Close w1 o1 = Done (o1, w1, Some ErrClosed) /\
     (forall fuel pick b,
         AsynchronousWriter_Write fuel pick w1 b o1 = Done (o1, w1, (0, Some ErrClosed)))) /\
  (closed w <> 0 ->
   AsynchronousWriter_Close w o = Done (o, w, Some ErrClosed) /\
   (forall fuel pick b,
       AsynchronousWriter_Write fuel pick w b o = Done (o, w, (0, Some ErrClosed)))).
Proof.
  pose proof AsynchronousWriter_closed as Hclosed.
  split; [|apply Hclosed].
  intros H0 Hctx Hcap.
  unfold AsynchronousWriter_Close. rewrite H0. cbn [Z.eqb].
  unfold chan.close. cbn [ctx set_closed]. rewrite Hctx.
  set (w0 := set_ctx (set_closed w 1) _). unfold onClose.
  destruct (onClose_loop_spec (chan.items (queue w0)) w0 o Hcap eq_refl)
    as (o2 & w2 & n & l & Hrun & H1 & H2 & H3 & H4 & H5 & H6 & Htr & Hcalls & Hq2 & Hall).
  rewrite Hrun.
  pose proof (Close_trace o2 (file (aw_Writer w2))) as Hct.
  destruct (sys.Close o2 (file (aw_Writer w2))) as [o3 r] eqn:Hcl. cbn [fst snd] in Hct.
  assert (Hc1 : closed w2 = 1) by (rewrite H1; reflexivity).
  exists o3, w2, r, l, n. split; [reflexivity|]. split; [exact Hc1|].
  split; [rewrite H2; reflexivity|].
  split; [apply calls_since_app; rewrite Hct, Htr, H3, <- app_assoc; reflexivity|].
  split; [exact Hcalls|]. split; [exact Hq2|].
  split; [intros Hok; rewrite Hq2, (Hall Hok); apply drop_all|].
  split.
  { intros pick Hcons Hq. unfold writer_step. rewrite Hcons, Hq.
    unfold chan.recv_ready. rewrite H2. cbn.
    destruct (chan.items (ctx w)); reflexivity. }
  apply Hclosed. rewrite Hc1. discriminate.
Qed.

Lemma AsynchronousWriter_Close_once_witness :
  exists o1 w1 r l n,
    AsynchronousWriter_Close async_writer_queued world1 = Done (o1, w1, r) /\
    closed w1 = 1 /\ chan.closed (ctx w1) = true /\
    calls_since world1 o1 = l ++ [(os.CClose (file (aw_Writer async_writer_queued)), r)] /\
    map fst l = map (os.CWrite (file (aw_Writer async_writer_queued)))
                  (take n (chan.items (queue async_writer_queued))) /\
    chan.items (queue w1) = drop n (chan.items (queue async_writer_queued)) /\
    (forallb no_error l = true -> chan.items (queue w1) = []) /\
    (forall pick, aw_consumer w1 = AtSelect -> chan.try_recv [] (queue w1) = None ->
                  writer_step pick w1 o1 = (o1, set_aw_consumer w1 Returned)) /\
    AsynchronousWriter_Close w1 o1 = Done (o1, w1, Some ErrClosed) /\
    (forall fuel pick b,
        AsynchronousWriter_Write fuel pick w1 b o1 = Done (o1, w1, (0, Some ErrClosed))).
Proof.
  exact (proj1 (AsynchronousWriter_Close_once async_writer_queued world1)
           eq_refl eq_refl eq_refl).
Defined.

(** The calls of that [Close]: the two queued buffers, then the file. *)
Example AsynchronousWriter_Close_drains :
  match AsynchronousWriter_Close async_writer_queued world1 with
  | Done (o1, w1, r) =>
      r = None /\ closed w1 = 1 /\ chan.items (queue w1) = [] /\
      calls_since world1 o1 =
        [(os.CWrite 0 (bytes_of "ab"), None); (os.CWrite 0 (bytes_of "cd"), None);
         (os.CClose 0, None)] /\
      inodes o1 !! 0%nat = Some (bytes_of "abcd")
  | _ => False
  end.
Proof. vm_compute. repeat split. Qed.

(** C8, as stated, fails: with the consumer's error waiting on [errChan]
    and a historical name waiting on the fire channel, the [select] of the
    next [Write] may take the rotation case; that [Write] then returns
    [len(b)] and no error, and the error is still waiting afterwards. *)
Lemma AsynchronousWriter_Write_may_skip_error :
  closed async_writer_failed = 0 /\
  chan.items (errChan async_writer_failed) = [ENOSPC] /\
  match AsynchronousWriter_Write 2 1 async_writer_failed (bytes_of "xyz") world1 with
  | Done (o1, w1, r) =>
      r = (3, None) /\ chan.items (errChan w1) = [ENOSPC] /\
      chan.items (queue w1) = [bytes_of "xyz"]
  | _ => False
  end.
Proof. vm_compute. repeat split. Qed.

Lemma onClose_spec (w : AsynchronousWriter) (o : World) :
  chan.cap (errChan w) = 0 ->
  errChan (snd (onClose w o)) = errChan w /\
  closed (snd (onClose w o)) = closed w /\
  aw_Writer (snd (onClose w o)) = aw_Writer w /\
  logs (fst (onClose w o)) = logs o.
Proof.
  intros Hcap. unfold onClose.
  destruct (onClose_loop_spec (chan.items (queue w)) w o Hcap eq_refl)
    as (o2 & w2 & n & l & Hrun & H1 & H2 & H3 & H4 & H5 & H6 & _).
  rewrite Hrun. cbn [fst snd]. auto.
Qed.

(** C8, amended: a failed write of the consumer leaves it blocked offering
    the error on the unbuffered [errChan]; the next [Write] whose [select]
    takes the error case returns 0 and that error and does nothing else, and
    takes the error off the channel; the [select] takes that case whenever no
    file name is pending on the fire channel, and otherwise when the runtime
    picks it; and [Close] neither returns nor logs a waiting error, which
    stays on the channel while every later [Write] returns the Closed
    error. *)
Theorem AsynchronousWriter_error_relay (w : AsynchronousWriter) (o : World) :
  (forall pick b q e,
      aw_consumer w = AtSelect ->
      chan.try_recv [] (queue w) = Some (b, q) ->
      chan.recv_ready (ctx w) = false \/ Nat.even pick = true ->
      snd (snd (sys.Write o (file (aw_Writer w)) b)) = Some e ->
      exists w1,
        writer_step pick w o = (fst (sys.Write o (file (aw_Writer w)) b), w1) /\
        errChan w1 = chan.offer (errChan w) e /\
        aw_consumer w1 = Sending b) /\
  (forall fuel pick b e rest,
      closed w = 0 -> chan.items (errChan w) = e :: rest ->
      chan.try_recv EmptyString (w_fire (aw_Writer w)) = None \/ Nat.even pick = true ->
      exists w1,
        AsynchronousWriter_Write fuel pick w b o = Done (o, w1, (0, Some e)) /\
        chan.items (errChan w1) = rest /\
        aw_Writer w1 = aw_Writer w /\ queue w1 = queue w) /\
  (forall e rest,
      closed w = 0 -> chan.closed (ctx w) = false -> chan.cap (errChan w) = 0 ->
      chan.items (errChan w) = e :: rest ->
      exists o1 w1 r,
        AsynchronousWriter_Close w o = Done (o1, w1, r) /\
        r = snd (sys.Close (fst (onClose (set_ctx (set_closed w 1)
                                     (chan.mk (chan.cap (ctx w)) (chan.items (ctx w)) true)) o))
                           (file (aw_Writer w))) /\
        logs o1 = logs o /\
        chan.items (errChan w1) = e :: rest /\
        (forall fuel pick b,
            AsynchronousWriter_Write fuel pick w1 b o1 = Done (o1, w1, (0, Some ErrClosed)))).
Proof.
  split; [|split].
  - intros pick b q e Hcons Hrecv Hpick He.
    unfold writer_step. rewrite Hcons, Hrecv.
    assert (Hgo : (if chan.recv_ready (ctx w)
                   then if Nat.even pick then true else false else true) = true).
    { destruct Hpick as [-> | ->]; [reflexivity|]. destruct (chan.recv_ready _); reflexivity. }
    destruct (sys.Write o (file (aw_Writer w)) b) as [o1 [k r]] eqn:HW.
    cbn [fst snd] in He. subst r.
    eexists. split.
    + destruct (chan.recv_ready (ctx w)); [destruct (Nat.even pick); [|discriminate]|];
        cbn [aw_Writer set_queue]; rewrite HW; reflexivity.
    + split; reflexivity.
  - intros fuel pick b e rest H0 Hitems Hpick.
    unfold AsynchronousWriter_Write. rewrite H0. cbn [Z.eqb].
    unfold chan.try_recv at 1. rewrite Hitems.
    eexists. split.
    + destruct Hpick as [-> | Hp]; [reflexivity|].
      destruct (chan.try_recv EmptyString _) as [[f ch]|]; [rewrite Hp|]; reflexivity.
    + repeat split.
  - intros e rest H0 Hctx Hcap Hitems.
    unfold AsynchronousWriter_Close. rewrite H0. cbn [Z.eqb].
    unfold chan.close. cbn [ctx set_closed]. rewrite Hctx.
    set (w0 := set_ctx (set_closed w 1) _).
    destruct (onClose_spec w0 o Hcap) as (He & Hc & Hwr & Hl).
    destruct (onClose w0 o) as [o2 w2] eqn:Hon. cbn [fst snd] in *.
    pose proof (Close_logs o2 (file (aw_Writer w2))) as Hcl.
    destruct (sys.Close o2 (file (aw_Writer w2))) as [o3 r3] eqn:Hclo. cbn [fst] in Hcl.
    exists o3, w2, r3. split; [reflexivity|].
    split; [rewrite Hwr in Hclo; change (aw_Writer w0) with (aw_Writer w) in Hclo;
            rewrite Hclo; reflexivity|].
    split; [rewrite Hcl; exact Hl|].
    split; [rewrite He; exact Hitems|].
    apply AsynchronousWriter_closed. rewrite Hc. discriminate.
Qed.

Lemma AsynchronousWriter_error_relay_witness :
  (exists w1,
      writer_step 0 async_writer_queued world1_failing
        = (fst (sys.Write world1_failing (file (aw_Writer async_writer_queued)) (bytes_of "ab")), w1) /\
      errChan w1 = chan.offer (errChan async_writer_queued) ENOSPC /\
      aw_consumer w1 = Sending (bytes_of "ab")) /\
  (exists w1,
      AsynchronousWriter_Write 2 0 async_writer_failed (bytes_of "xyz") world1
        = Done (world1, w1, (0, Some ENOSPC)) /\
      chan.items (errChan w1) = [] /\
      aw_Writer w1 = aw_Writer async_writer_failed /\ queue w1 = queue async_writer_failed).
Proof.
  split.
  - apply (proj1 (AsynchronousWriter_error_relay async_writer_queued world1_failing)
             0%nat (bytes_of "ab") (chan.mk QueueSize [bytes_of "cd"] false) ENOSPC
             eq_refl eq_refl (or_introl eq_refl) eq_refl).
  - apply (proj1 (proj2 (AsynchronousWriter_error_relay async_writer_failed world1))
             2%nat 0%nat (bytes_of "xyz") ENOSPC [] eq_refl eq_refl (or_intror eq_refl)).
Defined.

(** * Properties beyond the claims *)

(** ** Writing to a file *)

Lemma idle_try_recv {A} (zero : A) (ch : chan.t A) :
  idle ch -> chan.try_recv zero ch = None.
Proof. intros [Hi Hc]. unfold chan.try_recv. rewrite Hi, Hc. reflexivity. Qed.

(** A write to an open file, in a quiet world, appends the bytes. *)
Lemma Write_appends (o : World) (fd : nat) (b old : list byte) :
  quiet o -> is_open o fd = true -> data o fd = Some old ->
  exists o1,
    sys.Write o fd b = (o1, (len b, None)) /\
    data o1 fd = Some (old ++ b) /\
    quiet o1 /\ names o1 = names o /\ fds o1 = fds o /\
    logs o1 = logs o /\ goroutines o1 = goroutines o /\
    asyncBufferPool o1 = asyncBufferPool o /\
    trace o1 = trace o ++ [(os.CWrite fd b, None)].
Proof.
  unfold quiet, is_open, data, sys.Write, sys.fault. intros Hq Ho Hd. rewrite Hq.
  cbv beta iota zeta.
  destruct (fds o !! fd) as [[ino [|]]|] eqn:Hfd; try discriminate.
  rewrite Hd. eexists. split; [reflexivity|].
  cbn [fds inodes sys.emit set_trace set_inodes names faults logs goroutines
       asyncBufferPool trace].
  rewrite Hfd.
  split; [apply list_lookup_insert_eq; apply lookup_lt_Some in Hd; exact Hd|].
  repeat split; assumption.
Qed.

(** A failed write leaves the files as they are. *)
Lemma Write_error_inodes (o : World) (fd : nat) (b : list byte) (e : error) :
  snd (snd (sys.Write o fd b)) = Some e ->
  inodes (fst (sys.Write o fd b)) = inodes o /\
  names (fst (sys.Write o fd b)) = names o /\
  fds (fst (sys.Write o fd b)) = fds o.
Proof. repeat split; revert H; sys_cases. Qed.

Lemma Writer_writes_spec (w : Writer) (bs : list (list byte)) (o : World)
    (old : list byte) :
  idle (w_fire w) -> quiet o -> is_open o (file w) = true ->
  data o (file w) = Some old ->
  exists o1,
    Writer_writes w bs o = (o1, w, map (fun b => (len b, None)) bs) /\
    data o1 (file w) = Some (old ++ concat bs) /\
    trace o1 = trace o ++ map (fun b => (os.CWrite (file w) b, None)) bs /\
    names o1 = names o /\ quiet o1 /\ fds o1 = fds o.
Proof.
  intros Hidle. revert o old.
  induction bs as [|b bs IH]; intros o old Hq Hopen Hd.
  - exists o. cbn [Writer_writes map concat]. rewrite !app_nil_r.
    repeat split; assumption.
  - cbn [Writer_writes]. unfold Writer_Write at 1.
    rewrite (idle_try_recv _ _ Hidle).
    destruct (Write_appends o (file w) b old Hq Hopen Hd)
      as (o1 & HW & Hd1 & Hq1 & Hn1 & Hf1 & _ & _ & _ & Ht1).
    rewrite HW.
    assert (Hopen1 : is_open o1 (file w) = true) by (unfold is_open; rewrite Hf1; exact Hopen).
    destruct (IH o1 (old ++ b) Hq1 Hopen1 Hd1) as (o2 & Hrun & Hd2 & Ht2 & Hn2 & Hq2 & Hf2).
    rewrite Hrun. exists o2. cbn [map concat]. rewrite app_assoc.
    split; [reflexivity|]. split; [exact Hd2|].
    split; [rewrite Ht2, Ht1, <- app_assoc; reflexivity|].
    split; [congruence|]. split; [exact Hq2|congruence].
Qed.

(** X1: with no rotation pending and a quiet world, the payloads of
    successive calls of [Writer.Write] reach the active file in the order
    of the calls, one write call each, and each call returns the length of
    its payload and no error. *)
Theorem Writer_writes_in_order (w : Writer) (bs : list (list byte)) (o : World)
    (old : list byte) :
  idle (w_fire w) -> quiet o -> is_open o (file w) = true ->
  data o (file w) = Some old ->
  exists o1,
    Writer_writes w bs o = (o1, w, map (fun b => (len b, None)) bs) /\
    data o1 (file w) = Some (old ++ concat bs) /\
    calls_since o o1 = map (fun b => (os.CWrite (file w) b, None)) bs.
Proof.
  intros Hidle Hq Hopen Hd.
  destruct (Writer_writes_spec w bs o old Hidle Hq Hopen Hd)
    as (o1 & Hrun & Hd1 & Ht & _).
  exists o1. split; [exact Hrun|]. split; [exact Hd1|].
  apply calls_since_app, Ht.
Qed.

Lemma Writer_writes_in_order_witness :
  exists o1,
    Writer_writes writer1 [bytes_of "ab"; bytes_of "cd"; bytes_of "e"] world1
      = (o1, writer1, [(2, None); (2, None); (1, None)]) /\
    data o1 0%nat = Some (bytes_of "abcde") /\
    calls_since world1 o1 =
      [(os.CWrite 0 (bytes_of "ab"), None); (os.CWrite 0 (bytes_of "cd"), None);
       (os.CWrite 0 (bytes_of "e"), None)].
Proof.
  apply (Writer_writes_in_order writer1 [bytes_of "ab"; bytes_of "cd"; bytes_of "e"]
           world1 [] (conj eq_refl eq_refl) eq_refl eq_refl eq_refl).
Defined.

(** ** Rotation *)

Lemma Rename_ok (o : World) (a b : string) (n : os.node) :
  quiet o -> names o !! sys.key a = Some n ->
  exists o1,
    sys.Rename o a b = (o1, None) /\
    names o1 = <[sys.key b := n]> (delete (sys.key a) (names o)) /\
    inodes o1 = inodes o /\ fds o1 = fds o /\ quiet o1 /\
    logs o1 = logs o /\ goroutines o1 = goroutines o /\
    trace o1 = trace o ++ [(os.CRename a b, None)].
Proof.
  unfold quiet, sys.Rename, sys.fault. intros Hq Hn. rewrite Hq. cbv beta iota zeta.
  rewrite Hn. eexists. split; [reflexivity|]. repeat split. exact Hq.
Qed.

Lemma OpenFile_fresh (o : World) (a : string) :
  quiet o -> names o !! sys.key a = None ->
  exists o1,
    sys.OpenFile o a = (o1, inl (length (fds o))) /\
    names o1 = <[sys.key a := os.File (length (inodes o))]> (names o) /\
    inodes o1 = inodes o ++ [[]] /\
    fds o1 = fds o ++ [(length (inodes o), true)] /\ quiet o1 /\
    logs o1 = logs o /\ goroutines o1 = goroutines o /\
    trace o1 = trace o ++ [(os.COpenFile a, None)].
Proof.
  unfold quiet, sys.OpenFile, sys.fault. intros Hq Hn. rewrite Hq. cbv beta iota zeta.
  rewrite Hn. eexists. split; [reflexivity|]. repeat split. exact Hq.
Qed.

(** A rotation in a quiet world, in full. *)
Lemma Reopen_ok (w : Writer) (file_ : string) (o : World) (ino : nat) :
  quiet o ->
  names o !! sys.key (absPath w) = Some (os.File ino) ->
  sys.key file_ <> sys.key (absPath w) ->
  exists o1,
    Reopen w file_ o = (o1, set_file w (length (fds o)), None) /\
    names o1 = <[sys.key (absPath w) := os.File (length (inodes o))]>
                 (<[sys.key file_ := os.File ino]> (delete (sys.key (absPath w)) (names o))) /\
    inodes o1 = inodes o ++ [[]] /\
    fds o1 = fds o ++ [(length (inodes o), true)] /\
    trace o1 = trace o ++ [(os.CRename (absPath w) file_, None);
                           (os.COpenFile (absPath w), None)] /\
    goroutines o1 = goroutines o ++ [GoReopen (file w) file_] /\
    logs o1 = logs o /\
    quiet o1.
Proof.
  intros Hq Hn Hne. unfold Reopen.
  destruct (Rename_ok o (absPath w) file_ _ Hq Hn)
    as (o1 & -> & Hn1 & Hi1 & Hf1 & Hq1 & Hl1 & Hg1 & Ht1).
  assert (Habs : names o1 !! sys.key (absPath w) = None).
  { rewrite Hn1, lookup_insert_ne by exact Hne. apply lookup_delete_eq. }
  destruct (OpenFile_fresh o1 (absPath w) Hq1 Habs)
    as (o2 & -> & Hn2 & Hi2 & Hf2 & Hq2 & Hl2 & Hg2 & Ht2).
  rewrite Hf1. eexists. split; [reflexivity|].
  unfold go. cbn [names inodes fds goroutines set_goroutines trace logs].
  rewrite Hn2, Hi2, Hf2, Ht2, Hg2, Hl2, Hn1, Hi1, Hf1, Ht1, Hg1, Hl1, <- app_assoc.
  repeat split. exact Hq2.
Qed.



Lemma Write_appends_at (o : World) (fd ino : nat) (b old : list byte) :
  quiet o -> fds o !! fd = Some (ino, true) -> inodes o !! ino = Some old ->
  exists o1,
    sys.Write o fd b = (o1, (len b, None)) /\
    inodes o1 = <[ino := old ++ b]> (inodes o) /\
    quiet o1 /\ names o1 = names o /\ fds o1 = fds o /\
    trace o1 = trace o ++ [(os.CWrite fd b, None)].
Proof.
  unfold quiet, sys.Write, sys.fault. intros Hq Hfd Hd. rewrite Hq.
  cbv beta iota zeta. rewrite Hfd, Hd. eexists. split; [reflexivity|].
  repeat split. exact Hq.
Qed.

(** X3: a [Write] that finds a historical name pending rotates first, and
    its payload goes to the new file alone: afterwards the historical name
    holds exactly the bytes written before the call, the active path holds
    exactly the payload, and the calls made were the rename, the open and
    one write, in this order. *)
Theorem Writer_Write_rotates (w : Writer) (b : list byte) (o : World)
    (file_ : string) (rest : list string) (ino : nat) (old : list byte) :
  chan.items (w_fire w) = file_ :: rest ->
  quiet o ->
  names o !! sys.key (absPath w) = Some (os.File ino) ->
  inodes o !! ino = Some old ->
  sys.key file_ <> sys.key (absPath w) ->
  exists o2 w2,
    Writer_Write w b o = (o2, w2, (len b, None)) /\
    file w2 = length (fds o) /\
    chan.items (w_fire w2) = rest /\
    names o2 !! sys.key file_ = Some (os.File ino) /\
    inodes o2 !! ino = Some old /\
    names o2 !! sys.key (absPath w) = Some (os.File (length (inodes o))) /\
    inodes o2 !! length (inodes o) = Some b /\
    calls_since o o2 =
      [(os.CRename (absPath w) file_, None); (os.COpenFile (absPath w), None);
       (os.CWrite (length (fds o)) b, None)].
Proof.
  intros Hitems Hq Hn Hi Hne. unfold Writer_Write, chan.try_recv. rewrite Hitems.
  set (w0 := set_w_fire w _).
  destruct (Reopen_ok w0 file_ o ino Hq Hn Hne)
    as (o1 & -> & Hn1 & Hi1 & Hf1 & Ht1 & _ & _ & Hq1).
  change (absPath w0) with (absPath w) in *.
  cbn [file set_file].
  assert (Hfd : fds o1 !! length (fds o) = Some (length (inodes o), true))
    by (rewrite Hf1; apply list_lookup_middle; reflexivity).
  assert (Hd : inodes o1 !! length (inodes o) = Some [])
    by (rewrite Hi1; apply list_lookup_middle; reflexivity).
  destruct (Write_appends_at o1 _ _ b [] Hq1 Hfd Hd)
    as (o2 & -> & Hi2 & Hq2 & Hn2 & Hf2 & Ht2).
  exists o2, (set_file w0 (length (fds o))).
  split; [reflexivity|]. split; [reflexivity|]. split; [reflexivity|].
  rewrite Hn2, Hi2, Hn1, Hi1.
  assert (Hlt : (ino < length (inodes o))%nat) by (apply lookup_lt_Some in Hi; exact Hi).
  split; [rewrite lookup_insert_ne by congruence; apply lookup_insert_eq|].
  split; [rewrite list_lookup_insert_ne by lia; apply lookup_app_l_Some; exact Hi|].
  split; [apply lookup_insert_eq|].
  split; [apply list_lookup_insert_eq; rewrite length_app; cbn; lia|].
  apply calls_since_app. rewrite Ht2, Ht1, <- app_assoc. reflexivity.
Qed.

Lemma Writer_Write_rotates_witness :
  exists o2 w2,
    Writer_Write writer1_fired (bytes_of "new") world1_written = (o2, w2, (3, None)) /\
    file w2 = 1%nat /\
    chan.items (w_fire w2) = [] /\
    names o2 !! "log/log.log.202001010000"%string = Some (os.File 0) /\
    inodes o2 !! 0%nat = Some (bytes_of "old") /\
    names o2 !! "log/log.log"%string = Some (os.File 1) /\
    inodes o2 !! 1%nat = Some (bytes_of "new") /\
    calls_since world1_written o2 =
      [(os.CRename "log/log.log" "log/log.log.202001010000", None);
       (os.COpenFile "log/log.log", None);
       (os.CWrite 1 (bytes_of "new"), None)].
Proof.
  exact (Writer_Write_rotates writer1_fired (bytes_of "new") world1_written
           "log/log.log.202001010000" [] 0%nat (bytes_of "old")
           eq_refl eq_refl ltac:(vm_compute; reflexivity) ltac:(vm_compute; reflexivity)
           ltac:(vm_compute; discriminate)).
Defined.

(** ** The buffered writer *)

Lemma make_bytes_Done (n : Z) : 0 <= n -> make_bytes n = Done [].
Proof. intros H. unfold make_bytes. destruct (Z.ltb_spec n 0); [lia|reflexivity]. Qed.

(** One buffered write with no rotation pending: the bytes of the file and
    of the buffer, taken together, grow by the payload. *)
Lemma BufferWriter_Write_conserves (w : BufferWriter) (b : list byte) (o : World)
    (old : list byte) :
  idle (w_fire (bw_Writer w)) -> quiet o ->
  is_open o (file (bw_Writer w)) = true ->
  data o (file (bw_Writer w)) = Some old ->
  swaping w = 0 ->
  0 <= wrap64 (BufferWriterThreshold (cf (bw_Writer w)) * 2) ->
  exists o1 w1 written,
    BufferWriter_Write w b o = Done (o1, w1, (len b, None)) /\
    data o1 (file (bw_Writer w)) = Some written /\
    written ++ buf w1 = old ++ buf w ++ b /\
    (buf w1 = [] \/ len (buf w1) <= BufferWriterThreshold (cf (bw_Writer w))) /\
    bw_Writer w1 = bw_Writer w /\ swaping w1 = 0 /\
    quiet o1 /\ is_open o1 (file (bw_Writer w)) = true.
Proof.
  intros Hidle Hq Hopen Hd Hsw Hcap. unfold BufferWriter_Write.
  rewrite (idle_try_recv _ _ Hidle), (make_bytes_Done _ Hcap), Hsw.
  change (0 =? 0) with true. rewrite andb_true_r.
  destruct (Z.ltb_spec (BufferWriterThreshold (cf (bw_Writer w))) (len (buf w ++ b)))
    as [Hlt|Hle].
  - destruct (Write_appends o (file (bw_Writer w)) (buf w ++ b) old Hq Hopen Hd)
      as (o1 & -> & Hd1 & Hq1 & _ & Hf1 & _).
    exists o1, (mkBufferWriter (bw_Writer w) [] 0), (old ++ buf w ++ b).
    cbn [buf bw_Writer swaping]. rewrite app_nil_r.
    repeat split; try assumption; [left; reflexivity|].
    unfold is_open. rewrite Hf1. exact Hopen.
  - exists o, (mkBufferWriter (bw_Writer w) (buf w ++ b) 0), old.
    cbn [buf bw_Writer swaping].
    repeat split; try assumption. right. exact Hle.
Qed.

Lemma BufferWriter_writes_spec (w : BufferWriter) (bs : list (list byte))
    (o : World) (old : list byte) :
  idle (w_fire (bw_Writer w)) -> quiet o ->
  is_open o (file (bw_Writer w)) = true ->
  data o (file (bw_Writer w)) = Some old ->
  swaping w = 0 ->
  0 <= wrap64 (BufferWriterThreshold (cf (bw_Writer w)) * 2) ->
  exists o1 w1 written,
    BufferWriter_writes w bs o = Done (o1, w1, map (fun b => (len b, None)) bs) /\
    data o1 (file (bw_Writer w)) = Some written /\
    written ++ buf w1 = old ++ buf w ++ concat bs /\
    (bs <> [] ->
     buf w1 = [] \/ len (buf w1) <= BufferWriterThreshold (cf (bw_Writer w))) /\
    bw_Writer w1 = bw_Writer w /\ quiet o1 /\
    is_open o1 (file (bw_Writer w)) = true.
Proof.
  revert w o old. induction bs as [|b bs IH]; intros w o old Hidle Hq Hopen Hd Hsw Hcap.
  - exists o, w, old. cbn [BufferWriter_writes map concat]. rewrite app_nil_r.
    repeat split; try assumption. intros H; contradiction H; reflexivity.
  - cbn [BufferWriter_writes].
    destruct (BufferWriter_Write_conserves w b o old Hidle Hq Hopen Hd Hsw Hcap)
      as (o1 & w1 & wr1 & -> & Hd1 & Hsum1 & Hb1 & Hw1 & Hsw1 & Hq1 & Hopen1).
    rewrite <- Hw1 in *.
    destruct bs as [|b' bs'].
    + exists o1, w1, wr1. cbn [BufferWriter_writes map concat]. rewrite app_nil_r.
      split; [reflexivity|]. split; [exact Hd1|]. split; [exact Hsum1|].
      split; [intros _; exact Hb1|]. repeat split; assumption.
    + destruct (IH w1 o1 wr1 Hidle Hq1 Hopen1 Hd1 Hsw1 Hcap)
        as (o2 & w2 & wr2 & -> & Hd2 & Hsum2 & Hb2 & Hw2 & Hq2 & Hopen2).
      exists o2, w2, wr2.
      split; [reflexivity|]. split; [exact Hd2|].
      split; [rewrite Hsum2, app_assoc, Hsum1, <- !app_assoc; reflexivity|].
      split; [intros _; apply Hb2; discriminate|]. repeat split; assumption.
Qed.

(** X4: the buffered writer loses no byte and reorders none while no
    rotation is pending and the world is quiet: after any sequence of
    [BufferWriter.Write] calls, the bytes of the active file followed by
    the bytes still in the buffer are the earlier ones followed by the
    payloads in the order of the calls; every call returns the length of
    its payload and no error; and after a call the buffer is empty or no
    longer than [BufferWriterThreshold]. *)
Theorem BufferWriter_conserves_bytes (w : BufferWriter) (bs : list (list byte))
    (o : World) (old : list byte) :
  idle (w_fire (bw_Writer w)) -> quiet o ->
  is_open o (file (bw_Writer w)) = true ->
  data o (file (bw_Writer w)) = Some old ->
  swaping w = 0 ->
  0 <= wrap64 (BufferWriterThreshold (cf (bw_Writer w)) * 2) ->
  exists o1 w1 written,
    BufferWriter_writes w bs o = Done (o1, w1, map (fun b => (len b, None)) bs) /\
    data o1 (file (bw_Writer w)) = Some written /\
    written ++ buf w1 = old ++ buf w ++ concat bs /\
    (bs <> [] ->
     buf w1 = [] \/ len (buf w1) <= BufferWriterThreshold (cf (bw_Writer w))).
Proof.
  intros Hidle Hq Hopen Hd Hsw Hcap.
  destruct (BufferWriter_writes_spec w bs o old Hidle Hq Hopen Hd Hsw Hcap)
    as (o1 & w1 & wr & H1 & H2 & H3 & H4 & _).
  exists o1, w1, wr. repeat split; assumption.
Qed.

Lemma BufferWriter_conserves_bytes_witness :
  exists o1 w1 written,
    BufferWriter_writes buffer_writer1 [bytes_of "de"; bytes_of "fg"] world1
      = Done (o1, w1, [(2, None); (2, None)]) /\
    data o1 0%nat = Some written /\
    written ++ buf w1 = bytes_of "abcdefg" /\
    ([bytes_of "de"; bytes_of "fg"] <> [] -> buf w1 = [] \/ len (buf w1) <= 4).
Proof.
  apply (BufferWriter_conserves_bytes buffer_writer1 [bytes_of "de"; bytes_of "fg"]
           world1 [] (conj eq_refl eq_refl) eq_refl eq_refl eq_refl eq_refl).
  vm_compute. discriminate.
Defined.

(** Closing an open file, in a quiet world. *)
Lemma Close_ok (o : World) (fd : nat) :
  quiet o -> is_open o fd = true ->
  exists o1,
    sys.Close o fd = (o1, None) /\
    is_open o1 fd = false /\ data o1 fd = data o fd /\
    inodes o1 = inodes o /\ names o1 = names o /\ quiet o1 /\
    trace o1 = trace o ++ [(os.CClose fd, None)].
Proof.
  unfold quiet, is_open, data, sys.Close, sys.fault. intros Hq Ho. rewrite Hq.
  cbv beta iota zeta.
  destruct (fds o !! fd) as [[ino [|]]|] eqn:Hfd; try discriminate.
  eexists. split; [reflexivity|].
  cbn [fds inodes sys.emit set_trace set_fds names faults trace].
  rewrite list_lookup_insert_eq by (apply lookup_lt_Some in Hfd; exact Hfd).
  repeat split. exact Hq.
Qed.

(** X5: buffered writes followed by [Close] put every byte into the file:
    with no rotation pending and a quiet world, after any sequence of
    [BufferWriter.Write] calls and a [BufferWriter.Close] the file holds the
    earlier bytes, the bytes that were in the buffer and the payloads, in
    this order; [Close] returns no error and leaves the file closed. *)
Theorem BufferWriter_Close_completes (w : BufferWriter) (bs : list (list byte))
    (o : World) (old : list byte) :
  idle (w_fire (bw_Writer w)) -> quiet o ->
  is_open o (file (bw_Writer w)) = true ->
  data o (file (bw_Writer w)) = Some old ->
  swaping w = 0 ->
  0 <= wrap64 (BufferWriterThreshold (cf (bw_Writer w)) * 2) ->
  exists o1 w1 rs o2,
    BufferWriter_writes w bs o = Done (o1, w1, rs) /\
    BufferWriter_Close w1 o1 = (o2, None) /\
    data o2 (file (bw_Writer w)) = Some (old ++ buf w ++ concat bs) /\
    is_open o2 (file (bw_Writer w)) = false.
Proof.
  intros Hidle Hq Hopen Hd Hsw Hcap.
  destruct (BufferWriter_writes_spec w bs o old Hidle Hq Hopen Hd Hsw Hcap)
    as (o1 & w1 & wr & Hrun & Hd1 & Hsum & _ & Hw1 & Hq1 & Hopen1).
  destruct (Write_appends o1 _ (buf w1) wr Hq1 Hopen1 Hd1)
    as (o2 & HW & Hd2 & Hq2 & _ & Hf2 & _).
  assert (Hopen2 : is_open o2 (file (bw_Writer w)) = true)
    by (unfold is_open; rewrite Hf2; exact Hopen1).
  destruct (Close_ok o2 _ Hq2 Hopen2) as (o3 & HC & Hc3 & Hd3 & _).
  eexists o1, w1, _, o3. split; [exact Hrun|].
  unfold BufferWriter_Close. rewrite Hw1, HW.
  split; [exact HC|]. split; [|exact Hc3]. rewrite Hd3, Hd2, Hsum. reflexivity.
Qed.

Lemma BufferWriter_Close_completes_witness :
  exists o1 w1 rs o2,
    BufferWriter_writes buffer_writer1 [bytes_of "de"; bytes_of "fg"] world1
      = Done (o1, w1, rs) /\
    BufferWriter_Close w1 o1 = (o2, None) /\
    data o2 0%nat = Some (bytes_of "abcdefg") /\
    is_open o2 0%nat = false.
Proof.
  apply (BufferWriter_Close_completes buffer_writer1 [bytes_of "de"; bytes_of "fg"]
           world1 [] (conj eq_refl eq_refl) eq_refl eq_refl eq_refl eq_refl).
  vm_compute. discriminate.
Defined.

(** X6: when the last flush fails, [BufferWriter.Close] returns the error
    of the write and goes no further: the file is not closed, its bytes
    are as before, and the only call made is the failed write. *)
Theorem BufferWriter_Close_write_error (w : BufferWriter) (o : World) (e : error) :
  snd (snd (sys.Write o (file (bw_Writer w)) (buf w))) = Some e ->
  exists o1,
    BufferWriter_Close w o = (o1, Some e) /\
    fds o1 = fds o /\ inodes o1 = inodes o /\ names o1 = names o /\
    calls_since o o1 = [(os.CWrite (file (bw_Writer w)) (buf w), Some e)].
Proof.
  intros He. unfold BufferWriter_Close.
  destruct (Write_error_inodes o _ _ e He) as (Hi & Hn & Hf).
  pose proof (Write_trace o (file (bw_Writer w)) (buf w)) as Ht.
  destruct (sys.Write o _ _) as [o1 [n r]]. cbn [fst snd] in *. subst r.
  exists o1. repeat split; try assumption. apply calls_since_app, Ht.
Qed.

Lemma BufferWriter_Close_write_error_witness :
  exists o1,
    BufferWriter_Close buffer_writer1 world1_failing = (o1, Some ENOSPC) /\
    fds o1 = fds world1_failing /\ inodes o1 = inodes world1_failing /\
    names o1 = names world1_failing /\
    calls_since world1_failing o1 = [(os.CWrite 0 (bytes_of "abc"), Some ENOSPC)].
Proof. apply (BufferWriter_Close_write_error buffer_writer1 world1_failing ENOSPC eq_refl). Defined.

(** ** The asynchronous writer *)




(** [onClose] in a quiet world writes the whole queue to the file. *)
Lemma onClose_loop_quiet (pending : list (list byte)) (w : AsynchronousWriter) (o : World)
    (wr : list byte) :
  chan.items (queue w) = pending ->
  quiet o -> is_open o (file (aw_Writer w)) = true ->
  data o (file (aw_Writer w)) = Some wr ->
  exists o1 w1,
    onClose_loop pending w o = (o1, w1) /\
    data o1 (file (aw_Writer w)) = Some (wr ++ concat pending) /\
    quiet o1 /\ is_open o1 (file (aw_Writer w)) = true /\
    chan.items (queue w1) = [] /\
    aw_Writer w1 = aw_Writer w /\ closed w1 = closed w /\ ctx w1 = ctx w /\
    trace o1 = trace o ++ map (fun b => (os.CWrite (file (aw_Writer w)) b, None)) pending.
Proof.
  revert w o wr. induction pending as [|b rest IH]; intros w o wr Hitems Hq Hop Hd.
  - exists o, w. cbn [onClose_loop concat map]. rewrite !app_nil_r. repeat split; assumption.
  - cbn [onClose_loop]. set (w0 := set_queue w _).
    change (file (aw_Writer w0)) with (file (aw_Writer w)).
    destruct (Write_appends o _ b wr Hq Hop Hd)
      as (o1 & -> & Hd1 & Hq1 & _ & Hf1 & _ & _ & _ & Ht1).
    assert (Hop1 : is_open (pool_Put o1 b) (file (aw_Writer w0)) = true).
    { unfold is_open, pool_Put. cbn [fds set_asyncBufferPool]. rewrite Hf1. exact Hop. }
    destruct (IH w0 (pool_Put o1 b) (wr ++ b) eq_refl Hq1 Hop1 Hd1)
      as (o2 & w2 & -> & Hd2 & Hq2 & Hop2 & Hi2 & Hw2 & Hc2 & Hx2 & Ht2).
    exists o2, w2. split; [reflexivity|]. cbn [concat map]. rewrite app_assoc.
    repeat (split; [assumption|]).
    change (trace (pool_Put o1 b)) with (trace o1) in Ht2.
    rewrite Ht2, Ht1, <- app_assoc. reflexivity.
Qed.

(** [Close] on a steady asynchronous writer. *)
Lemma AsynchronousWriter_Close_steady (w : AsynchronousWriter) (o : World) (fd : nat)
    (total : list byte) :
  async_steady w o fd total ->
  exists o2 w2,
    AsynchronousWriter_Close w o = Done (o2, w2, None) /\
    data o2 fd = Some total /\ is_open o2 fd = false /\
    chan.items (queue w2) = [] /\ closed w2 = 1.
Proof.
  intros (Hc & He & Hec & Hf & [Hxi Hxc] & Hqc & Hco & Hfd & Hq & Hop & wr & Hd & Hsum).
  unfold AsynchronousWriter_Close, chan.close.
  cbn [ctx set_closed]. rewrite Hc, Hxc. change (0 =? 0) with true. cbv beta iota zeta.
  unfold onClose. set (w0 := set_ctx _ _).
  change (chan.items (queue w0)) with (chan.items (queue w)).
  assert (Hfd0 : file (aw_Writer w0) = fd) by exact Hfd.
  rewrite <- Hfd0 in Hop, Hd.
  destruct (onClose_loop_quiet (chan.items (queue w)) w0 o wr eq_refl Hq Hop Hd)
    as (o2 & w2 & Hrun2 & Hd2 & Hq2 & Hop2 & Hi2 & Hw2 & Hc2 & _).
  rewrite Hrun2, Hw2.
  destruct (Close_ok o2 _ Hq2 Hop2) as (o3 & HC & Hc3 & Hd3 & _).
  rewrite HC. exists o3, w2. rewrite Hfd0 in *.
  split; [reflexivity|].
  split; [rewrite Hd3, Hd2, Hsum; reflexivity|].
  split; [exact Hc3|]. split; [exact Hi2|]. rewrite Hc2. reflexivity.
Qed.



(** X8: one failed write costs two payloads.  When the environment fails
    the write of the first buffer [b] of the queue, the goroutine
    [writer()] drops [b] and blocks with the error; the next [Write]
    returns that error with 0 and does not queue its own payload [b'];
    then the goroutine resumes, and a [Close] puts the rest of the queue
    into the file: neither [b] nor [b'] is in it, and [Close] reports no
    error. *)
Theorem AsynchronousWriter_failure_loses_two (fuel p1 p2 p3 : nat)
    (w : AsynchronousWriter) (o : World) (fd : nat) (e : error)
    (b b' : list byte) (rest : list (list byte)) (written : list byte) :
  faults o = [Some e] ->
  async_steady w (set_faults o []) fd (written ++ concat (b :: rest)) ->
  data o fd = Some written ->
  chan.items (queue w) = b :: rest ->
  exists o1 w1 w2 o3 w3 o4 w4,
    writer_step p1 w o = (o1, w1) /\
    AsynchronousWriter_Write fuel p2 w1 b' o1 = Done (o1, w2, (0, Some e)) /\
    writer_step p3 w2 o1 = (o3, w3) /\
    AsynchronousWriter_Close w3 o3 = Done (o4, w4, None) /\
    data o4 fd = Some (written ++ concat rest) /\
    is_open o4 fd = false /\ chan.items (queue w4) = [].
Proof.
  intros Hfl (Hc & [Hei Hecl] & Hec & Hf & Hx & Hqc & Hco & Hfd & _ & Hop & _) Hd Hitems.
  assert (Hrr : chan.recv_ready (ctx w) = false).
  { destruct Hx as [Hxi Hxc]. unfold chan.recv_ready. rewrite Hxi. exact Hxc. }
  set (o1 := sys.emit (set_faults o []) (os.CWrite fd b) (Some e)).
  set (w1 := set_aw_consumer
               (set_errChan (set_queue w (chan.mk (chan.cap (queue w)) rest
                                            (chan.closed (queue w))))
                  (chan.offer (errChan w) e)) (Sending b)).
  set (w2 := set_errChan w1 (chan.mk (chan.cap (errChan w)) [] (chan.closed (errChan w)))).
  set (w3 := set_aw_consumer w2 AtSelect).
  assert (H1 : writer_step p1 w o = (o1, w1)).
  { unfold writer_step. rewrite Hco, Hrr. unfold chan.try_recv. rewrite Hitems.
    cbv beta iota zeta. unfold sys.Write, sys.fault. rewrite Hfl. cbv beta iota zeta.
    cbn [snd aw_Writer set_queue]. rewrite Hfd. reflexivity. }
  assert (H2 : AsynchronousWriter_Write fuel p2 w1 b' o1 = Done (o1, w2, (0, Some e))).
  { unfold AsynchronousWriter_Write.
    change (closed w1) with (closed w). rewrite Hc. change (0 =? 0) with true.
    cbv beta iota zeta.
    change (w_fire (aw_Writer w1)) with (w_fire (aw_Writer w)).
    rewrite (idle_try_recv _ _ Hf).
    unfold chan.try_recv.
    change (chan.items (errChan w1)) with (chan.items (errChan w) ++ [e]).
    rewrite Hei. reflexivity. }
  assert (H3 : writer_step p3 w2 o1 = (pool_Put o1 b, w3)) by reflexivity.
  assert (Hs3 : async_steady w3 (pool_Put o1 b) fd (written ++ concat rest)).
  { unfold async_steady, idle, quiet.
    unfold w3, w2, w1.
    cbn [closed errChan aw_Writer ctx queue aw_consumer set_aw_consumer set_errChan
         set_queue chan.items chan.closed chan.cap].
    repeat match goal with |- _ /\ _ => split end;
      try first [assumption | reflexivity | apply Hx | apply Hf | exact Hop].
    exists written. split; [exact Hd|reflexivity]. }
  destruct (AsynchronousWriter_Close_steady w3 _ fd _ Hs3) as (o4 & w4 & HC & Hd4 & Hop4 & Hi4 & _).
  exists o1, w1, w2, (pool_Put o1 b), w3, o4, w4. repeat split; assumption.
Qed.

Lemma AsynchronousWriter_failure_loses_two_witness :
  exists o1 w1 w2 o3 w3 o4 w4,
    writer_step 0 async_writer_queued world1_failing = (o1, w1) /\
    AsynchronousWriter_Write 0 0 w1 (bytes_of "xy") o1 = Done (o1, w2, (0, Some ENOSPC)) /\
    writer_step 0 w2 o1 = (o3, w3) /\
    AsynchronousWriter_Close w3 o3 = Done (o4, w4, None) /\
    data o4 0%nat = Some ([] ++ concat [bytes_of "cd"]) /\
    is_open o4 0%nat = false /\ chan.items (queue w4) = [].
Proof.
  apply (AsynchronousWriter_failure_loses_two 0 0 0 0 async_writer_queued world1_failing
           0%nat ENOSPC (bytes_of "ab") (bytes_of "xy") [bytes_of "cd"] [] eq_refl);
    [|reflexivity|reflexivity].
  unfold async_steady, idle, quiet.
  repeat match goal with |- _ /\ _ => split end; try reflexivity.
  exists []. split; reflexivity.
Defined.

(** The loop of [AsynchronousWriter.Write] that cuts the payload into
    buffers: when it completes, the buffers it has queued make up the
    payload; it touches the pool and the queue alone. *)
Lemma write_chunks_spec (fuel : nat) (w : AsynchronousWriter) (b : list byte) (o : World)
    (o1 : World) (w1 : AsynchronousWriter) :
  write_chunks fuel w b o = Done (o1, w1) ->
  exists chunks,
    chan.items (queue w1) = chan.items (queue w) ++ chunks /\
    concat chunks = b /\
    aw_Writer w1 = aw_Writer w /\ errChan w1 = errChan w /\
    inodes o1 = inodes o /\ names o1 = names o /\ fds o1 = fds o /\
    trace o1 = trace o.
Proof.
  revert w b o. induction fuel as [|fuel IH]; intros w b o Hrun; [discriminate|].
  cbn [write_chunks] in Hrun.
  destruct (Z.ltb_spec 0 (len b)) as [Hpos|Hzero].
  - destruct (pool_Get o) as [buflen og] eqn:Hg.
    assert (Hog : inodes og = inodes o /\ names og = names o /\ fds og = fds o /\
                  trace og = trace o).
    { unfold pool_Get in Hg. destruct (asyncBufferPool o); injection Hg as <- <-;
        repeat split. }
    unfold chan.try_send in Hrun.
    destruct (_ <? _); [|discriminate].
    apply IH in Hrun. destruct Hrun as (chunks & Hi & Hc & Hw & He & Hin & Hn & Hf & Ht).
    cbn [queue set_queue chan.items aw_Writer errChan] in *.
    exists (take (Z.to_nat (Z.min buflen (len b))) b :: chunks).
    split; [rewrite Hi, <- app_assoc; reflexivity|].
    split; [cbn [concat]; rewrite Hc; apply take_drop|].
    destruct Hog as (E1 & E2 & E3 & E4). repeat split; congruence.
  - injection Hrun as <- <-. exists []. rewrite app_nil_r.
    split; [reflexivity|]. split; [|repeat split].
    destruct b; [reflexivity|]. unfold len in Hzero. cbn [length] in Hzero. lia.
Qed.

(** X9: what [AsynchronousWriter.Write] returns tells what it has queued.
    When it returns no error, the count is the length of the payload and
    the queue has grown by buffers that, put together in order, are the
    payload; when it returns an error, the count is 0 and the queue is as
    before. *)
Theorem AsynchronousWriter_Write_queues_payload (fuel pick : nat)
    (w : AsynchronousWriter) (b : list byte) (o : World)
    (o1 : World) (w1 : AsynchronousWriter) (n : Z) (r : option error) :
  AsynchronousWriter_Write fuel pick w b o = Done (o1, w1, (n, r)) ->
  match r with
  | None =>
      n = len b /\
      exists chunks,
        chan.items (queue w1) = chan.items (queue w) ++ chunks /\ concat chunks = b
  | Some _ => n = 0 /\ queue w1 = queue w
  end.
Proof.
  unfold AsynchronousWriter_Write. destruct (closed w =? 0).
  2: { intros H. injection H as <- <- <- <-. split; reflexivity. }
  cbv beta iota zeta.
  assert (Hfire : forall filename ch,
    match Reopen (set_w_fire (aw_Writer w) ch) filename o with
    | (o1', w1', Some err) => Done (o1', set_aw_Writer w w1', (0, Some err))
    | (o1', w1', None) =>
        match write_chunks fuel (set_aw_Writer w w1') b o1' with
        | Done (o2, w2) => Done (o2, w2, (len b, None))
        | Parked => Parked
        | Fuel => Fuel
        | Panic msg => Panic msg
        end
    end = Done (o1, w1, (n, r)) ->
    match r with
    | None =>
        n = len b /\
        exists chunks,
          chan.items (queue w1) = chan.items (queue w) ++ chunks /\ concat chunks = b
    | Some _ => n = 0 /\ queue w1 = queue w
    end).
  { intros filename ch H.
    destruct (Reopen _ _ _) as [[o1' w1'] [err|]].
    - injection H as <- <- <- <-. split; reflexivity.
    - destruct (write_chunks _ _ _ _) as [[o2 w2]| | |] eqn:Hch; try discriminate.
      injection H as <- <- <- <-. split; [reflexivity|].
      destruct (write_chunks_spec _ _ _ _ _ _ Hch) as (chunks & Hi & Hc & _).
      exists chunks. split; assumption. }
  assert (Herr : forall (err : error) (ch : chan.t error),
    Done (o, set_errChan w ch, (0, Some err)) = Done (o1, w1, (n, r)) ->
    match r with
    | None =>
        n = len b /\
        exists chunks,
          chan.items (queue w1) = chan.items (queue w) ++ chunks /\ concat chunks = b
    | Some _ => n = 0 /\ queue w1 = queue w
    end).
  { intros err ch H. injection H as <- <- <- <-. split; reflexivity. }
  destruct (chan.try_recv ErrInternal (errChan w)) as [[err ch]|];
    destruct (chan.try_recv EmptyString (w_fire (aw_Writer w))) as [[filename ch']|].
  - destruct (Nat.even pick); [apply Herr|apply Hfire].
  - apply Herr.
  - apply Hfire.
  - destruct (pool_Get o) as [k og]. unfold chan.try_send.
    destruct (_ <? _); [|discriminate].
    intros H. injection H as <- <- <- <-. split; [reflexivity|].
    exists [b]. cbn [queue set_queue chan.items concat]. rewrite app_nil_r.
    split; reflexivity.
Qed.

Lemma AsynchronousWriter_Write_queues_payload_witness :
  exists o1 w1,
    AsynchronousWriter_Write 9 0 async_writer_fired (bytes_of "abcde") world1_pooled
      = Done (o1, w1, (5, None)) /\
    5 = len (bytes_of "abcde") /\
    exists chunks,
      chan.items (queue w1) = chan.items (queue async_writer_fired) ++ chunks /\
      concat chunks = bytes_of "abcde".
Proof.
  eexists _, _. split; [vm_compute; reflexivity|].
  refine (AsynchronousWriter_Write_queues_payload 9 0 async_writer_fired (bytes_of "abcde")
            world1_pooled _ _ 5 None _).
  vm_compute. reflexivity.
Defined.

(** ** Retention *)

Lemma dropped_keep_last (n : Z) (l : list string) : dropped n l ++ keep_last n l = l.
Proof. apply take_drop. Qed.

Lemma dropped_app (n : Z) (l fs : list string) :
  dropped n (l ++ fs) = dropped n l ++ dropped n (keep_last n l ++ fs).
Proof.
  unfold dropped, keep_last. set (k := Z.to_nat n).
  rewrite !length_app, length_drop.
  destruct (Nat.le_gt_cases (length l) k) as [Hle|Hgt].
  - replace (length l - k)%nat with 0%nat by lia.
    rewrite take_0, drop_0, Nat.sub_0_r. reflexivity.
  - rewrite !take_app, length_drop, app_assoc, take_take_drop.
    f_equal; f_equal; lia.
Qed.

(** The retry loop: the name goes into the queue; when the queue is full,
    one call of [os.Remove], on the oldest name, makes room first. *)
Lemma enqueue_removes (fuel : nat) (w : Writer) (file_ : string) (o : World)
    (ch : chan.t string) :
  rollingfilech w = Some ch -> 0 < chan.cap ch -> chan.bounded ch ->
  (2 <= fuel)%nat ->
  exists o1 ch1 l,
    enqueue fuel w file_ o = Done (o1, set_rollingfilech w (Some ch1)) /\
    chan.cap ch1 = chan.cap ch /\ chan.bounded ch1 /\
    chan.items ch1 = keep_last (chan.cap ch) (chan.items ch ++ [file_]) /\
    trace o1 = trace o ++ l /\
    map fst l = map os.CRemove (dropped (chan.cap ch) (chan.items ch ++ [file_])).
Proof.
  intros Hch Hcap Hb Hfuel.
  destruct fuel as [|[|fuel]]; [lia|lia|].
  cbn [enqueue]. rewrite Hch. cbn [mbind option_bind].
  unfold dropped, keep_last. rewrite length_app. cbn [length].
  destruct (chan.try_send ch file_) as [ch1|] eqn:Hs.
  - destruct (try_send_bounded _ _ _ Hs) as (Hc1 & Hi1 & Hb1).
    assert (Hlt : Z.of_nat (length (chan.items ch)) < chan.cap ch).
    { unfold chan.try_send in Hs.
      destruct (Z.ltb_spec (Z.of_nat (length (chan.items ch))) (chan.cap ch));
        [lia|discriminate]. }
    exists o, ch1, []. rewrite app_nil_r.
    replace (length (chan.items ch) + 1 - Z.to_nat (chan.cap ch))%nat with 0%nat by lia.
    repeat split; assumption.
  - apply try_send_full in Hs.
    assert (Hfull : Z.of_nat (length (chan.items ch)) = chan.cap ch)
      by (unfold chan.bounded in Hb; lia).
    unfold DoRemove. rewrite Hch. unfold chan.try_recv.
    destruct (chan.items ch) as [|oldest rest] eqn:Hitems; [cbn in Hfull; lia|].
    set (ch' := chan.mk (chan.cap ch) rest (chan.closed ch)).
    assert (Hs' : chan.try_send ch' file_
                  = Some (chan.mk (chan.cap ch) (rest ++ [file_]) (chan.closed ch))).
    { unfold chan.try_send. subst ch'. cbn [chan.items chan.cap chan.closed].
      cbn [length] in Hfull.
      destruct (Z.ltb_spec (Z.of_nat (length rest)) (chan.cap ch)); [reflexivity|lia]. }
    pose proof (Remove_trace o oldest) as Ht.
    exists (match sys.Remove o oldest with
            | (o', Some err) => log_Println o' ("error in remove log file " ++ oldest) err
            | (o', None) => o'
            end), (chan.mk (chan.cap ch) (rest ++ [file_]) (chan.closed ch)),
           [(os.CRemove oldest, snd (sys.Remove o oldest))].
    cbn [length] in *.
    replace (S (length rest) + 1 - Z.to_nat (chan.cap ch))%nat with 1%nat by lia.
    split.
    { destruct (sys.Remove o oldest) as [o' [err|]];
        cbn [enqueue rollingfilech set_rollingfilech];
        cbn [mbind option_bind]; rewrite Hs'; reflexivity. }
    split; [reflexivity|]. split.
    { unfold chan.bounded. cbn [chan.items chan.cap]. rewrite length_app.
      cbn [length] in *. lia. }
    split; [reflexivity|]. split; [|reflexivity].
    destruct (sys.Remove o oldest) as [o' [err|]]; cbn [fst snd] in *; exact Ht.
Qed.

(** X10: the constructor's loop over the historical files keeps the newest
    and asks for the removal of the rest, oldest first.  Whatever the world
    does, once the names (those already queued, then the files found, in
    their order) have gone through a retention queue of capacity [n > 0],
    the queue holds the last [n] of them, and the calls made are one
    [os.Remove] for each of the others, in order; a removal that fails is
    not tried again. *)
Theorem trim_removes_oldest (fuel : nat) (c : Config) (files : list string) (w : Writer)
    (o : World) (ch : chan.t string) :
  rollingfilech w = Some ch -> 0 < chan.cap ch -> chan.bounded ch ->
  (2 <= fuel)%nat ->
  exists o1 ch1,
    trim fuel c files w o = Done (o1, set_rollingfilech w (Some ch1)) /\
    let all := chan.items ch ++ map (fun f => path.Join [LogPath c; f]) files in
    chan.items ch1 = keep_last (chan.cap ch) all /\
    map fst (calls_since o o1) = map os.CRemove (dropped (chan.cap ch) all) /\
    dropped (chan.cap ch) all ++ chan.items ch1 = all.
Proof.
  intros Hch Hcap Hb Hfuel.
  enough (exists o1 ch1 l,
    trim fuel c files w o = Done (o1, set_rollingfilech w (Some ch1)) /\
    chan.cap ch1 = chan.cap ch /\ chan.bounded ch1 /\
    chan.items ch1 = keep_last (chan.cap ch)
                       (chan.items ch ++ map (fun f => path.Join [LogPath c; f]) files) /\
    trace o1 = trace o ++ l /\
    map fst l = map os.CRemove
                  (dropped (chan.cap ch)
                     (chan.items ch ++ map (fun f => path.Join [LogPath c; f]) files)))
    as (o1 & ch1 & l & Hrun & _ & _ & Hi & Ht & Hl).
  { exists o1, ch1. split; [exact Hrun|]. cbv zeta. split; [exact Hi|].
    split; [rewrite (calls_since_app _ _ _ Ht); exact Hl|].
    rewrite Hi. apply dropped_keep_last. }
  revert w o ch Hch Hcap Hb.
  induction files as [|f files IH]; intros w o ch Hch Hcap Hb.
  - exists o, ch, []. cbn [trim map]. rewrite !app_nil_r.
    unfold keep_last, dropped. unfold chan.bounded in Hb.
    replace (length (chan.items ch) - Z.to_nat (chan.cap ch))%nat with 0%nat by lia.
    repeat split; try assumption.
    destruct w; cbn in *. subst. reflexivity.
  - cbn [trim map].
    destruct (enqueue_removes fuel w (path.Join [LogPath c; f]) o ch Hch Hcap Hb Hfuel)
      as (o1 & ch1 & l1 & He & Hc1 & Hb1 & Hi1 & Ht1 & Hl1).
    rewrite He.
    destruct (IH (set_rollingfilech w (Some ch1)) o1 ch1 eq_refl ltac:(lia) Hb1)
      as (o2 & ch2 & l2 & Ht & Hc2 & Hb2 & Hi2 & Ht2 & Hl2).
    exists o2, ch2, (l1 ++ l2). split; [rewrite Ht; reflexivity|].
    split; [lia|]. split; [exact Hb2|].
    change (chan.items ch ++ ?x :: ?y) with (chan.items ch ++ [x] ++ y).
    rewrite app_assoc.
    split; [rewrite Hi2, Hi1, Hc1, (keep_last_app _ _ _ Hcap); reflexivity|].
    split; [rewrite Ht2, Ht1, app_assoc; reflexivity|].
    rewrite map_app, Hl1, Hl2, Hi1, Hc1, <- map_app, <- dropped_app. reflexivity.
Qed.

Lemma trim_removes_oldest_witness :
  exists o1 ch1,
    trim 2 config_var_log ["c"; "d"]%string writer_full world1
      = Done (o1, set_rollingfilech writer_full (Some ch1)) /\
    let all := ["log/a.log.1"%string; "log/a.log.2"%string]
               ++ map (fun f => path.Join [LogPath config_var_log; f])
                    ["c"%string; "d"%string] in
    chan.items ch1 = keep_last 2 all /\
    map fst (calls_since world1 o1) = map os.CRemove (dropped 2 all) /\
    dropped 2 all ++ chan.items ch1 = all.
Proof.
  apply (trim_removes_oldest 2 config_var_log ["c"; "d"]%string writer_full world1
           (chan.mk 2 ["log/a.log.1"; "log/a.log.2"]%string false) eq_refl);
    [reflexivity | unfold chan.bounded; cbn; lia | lia].
Defined.

(** ** The historical files found at construction *)

Lemma HasPrefix_app (a b : list byte) : strings.HasPrefix (a ++ b) a = true.
Proof.
  induction a as [|x a IH]; [reflexivity|].
  cbn [app strings.HasPrefix]. rewrite IH, andb_true_r.
  apply Byte.byte_dec_lb. reflexivity.
Qed.

Lemma Contains_app (a b d : list byte) : strings.Contains (a ++ b ++ d) b = true.
Proof.
  induction a as [|x a IH].
  - cbn [app]. destruct (b ++ d) eqn:E; cbn [strings.Contains]; rewrite <- ?E;
      rewrite HasPrefix_app; reflexivity.
  - cbn [app strings.Contains]. rewrite IH. apply orb_true_r.
Qed.

Lemma ext_loop_tag (r rest acc : list byte) :
  tag_plain r = true ->
  path.ext_loop (r ++ path.dot :: rest) acc = path.dot :: rev r ++ acc.
Proof.
  revert acc. induction r as [|c r IH]; intros acc Hp.
  - reflexivity.
  - cbn [tag_plain forallb] in Hp. apply andb_true_iff in Hp as [Hc Hr].
    apply andb_true_iff in Hc as [Hs Hd]. apply negb_true_iff in Hs, Hd.
    cbn [app path.ext_loop]. rewrite Hs, Hd, (IH _ Hr).
    cbn [rev]. rewrite <- app_assoc. reflexivity.
Qed.

Lemma tag_plain_rev (tag : list byte) : tag_plain (rev tag) = tag_plain tag.
Proof.
  unfold tag_plain. induction tag as [|c tag IH]; [reflexivity|].
  cbn [rev forallb]. rewrite forallb_app, IH. cbn [forallb].
  rewrite andb_true_r. apply andb_comm.
Qed.

Lemma bytes_of_string_of (b : list byte) : bytes_of (string_of b) = b.
Proof. apply list_byte_of_string_of_list_byte. Qed.

(** [path.Ext] of a name that ends in a dot and a plain tag. *)
Lemma Ext_tag (stem tag : string) :
  tag_plain (bytes_of tag) = true ->
  bytes_of (path.Ext (stem ++ "." ++ tag)) = path.dot :: bytes_of tag.
Proof.
  intros Hp. unfold path.Ext. rewrite bytes_of_string_of, !bytes_of_app.
  change (bytes_of ".") with [path.dot]. rewrite !rev_app_distr. cbn [rev app].
  rewrite <- app_assoc. cbn [app].
  rewrite ext_loop_tag by (rewrite tag_plain_rev; exact Hp).
  rewrite rev_involutive, app_nil_r. reflexivity.
Qed.

(** X11: which names the constructor takes for historical files.  An entry
    of the log directory that is not a directory, whose name contains
    [<FileName>.log] anywhere and ends in a dot and a tag that the time
    layout parses (the tag not empty, without dot or slash), is among the
    historical files, and the time it is sorted by is that of its tag.
    Names of this form are [<FileName>.log.<tag>] and
    [<FileName>.log.gz.<tag>], and also those of the files of another
    writer, such as [my<FileName>.log.<tag>]. *)
Theorem history_accepts (time_Parse : string -> string -> option Time) (c : Config)
    (pre mid tag : string) (t : Time) (dir : list (string * bool)) :
  tag <> EmptyString ->
  tag_plain (bytes_of tag) = true ->
  time_Parse (TimeTagFormat c) tag = Some t ->
  let name := (pre ++ (FileName c ++ ".log") ++ mid ++ "." ++ tag)%string in
  (name, false) ∈ dir ->
  name ∈ history time_Parse c dir /\ tag_time time_Parse c name = t.
Proof.
  intros Hne Hp Hparse name Hin.
  assert (Hext : bytes_of (path.Ext name) = path.dot :: bytes_of tag).
  { unfold name.
    replace (pre ++ (FileName c ++ ".log") ++ mid ++ "." ++ tag)%string
      with ((pre ++ (FileName c ++ ".log") ++ mid) ++ "." ++ tag)%string.
    - apply Ext_tag, Hp.
    - rewrite <- (string_of_bytes_of (_ ++ _ ++ _ ++ _)%string).
      rewrite <- (string_of_bytes_of ((_ ++ _ ++ _) ++ _)%string).
      rewrite !bytes_of_app, <- !app_assoc. reflexivity. }
  split.
  - unfold history. apply list_elem_of_omap. exists (name, false).
    split; [exact Hin|]. cbv beta iota zeta.
    assert (Hc : strings.Contains (bytes_of name) (bytes_of (FileName c ++ ".log")) = true).
    { unfold name. rewrite (bytes_of_app pre), (bytes_of_app (FileName c ++ ".log")).
      apply Contains_app. }
    rewrite Hc, Hext.
    assert (Hlen : (1 <? len (path.dot :: bytes_of tag)) = true).
    { apply Z.ltb_lt. unfold len. cbn [length].
      destruct (bytes_of tag) eqn:E; [apply bytes_of_nil in E; contradiction|].
      cbn [length]. lia. }
    rewrite Hlen. cbn [drop]. rewrite drop_0, string_of_bytes_of, Hparse. reflexivity.
  - unfold tag_time. rewrite Hext, string_of_bytes_of, Hparse. reflexivity.
Qed.

Lemma history_accepts_witness :
  let name := ("my" ++ ("a" ++ ".log") ++ ".gz" ++ "." ++ "202001010003")%string in
  let dir := [("b"%string, true); (name, false)] in
  (name, false) ∈ dir /\
  name ∈ history parse0 config_keep2 dir /\ tag_time parse0 config_keep2 name = 202001010003.
Proof.
  cbv zeta. split; [apply list_elem_of_further, list_elem_of_here|].
  apply (history_accepts parse0 config_keep2 "my" ".gz" "202001010003" 202001010003
           [("b"%string, true); ("mya.log.gz.202001010003"%string, false)]);
    [discriminate | reflexivity | reflexivity
    | apply list_elem_of_further, list_elem_of_here].
Defined.

(** ** Construction *)

Lemma MkdirAll_ok (o : World) (p : string) :
  quiet o -> (forall ino, names o !! sys.key p <> Some (os.File ino)) ->
  exists o1,
    sys.MkdirAll o p = (o1, None) /\
    names o1 = <[sys.key p := os.Dir]> (names o) /\
    inodes o1 = inodes o /\ fds o1 = fds o /\ quiet o1 /\
    logs o1 = logs o /\ goroutines o1 = goroutines o /\
    trace o1 = trace o ++ [(os.CMkdirAll p, None)].
Proof.
  unfold quiet, sys.MkdirAll, sys.fault. intros Hq Hn. rewrite Hq. cbv beta iota zeta.
  destruct (names o !! sys.key p) as [[ino|]|] eqn:E;
    [exfalso; exact (Hn ino eq_refl)| |];
    (eexists; split; [reflexivity|]; repeat split; exact Hq).
Qed.

(** X12: [NewWriterFromConfig] looks at [WriterMode] last.  With a mode
    that is none of [none], [lock], [async] and [buffer] it returns
    [ErrInvalidArgument], yet by then it has made the directory and has
    created and opened the log file, which it leaves open.  (Stated for a
    quiet world where the log file does not exist yet, no retention, and a
    rolling policy whose manager is made without error.) *)
Theorem NewWriterFromConfig_invalid_mode (cron_parse : string -> option error)
    (time_Parse : string -> string -> option Time)
    (fuel : nat) (c : Config) (now : Time) (o : World) (mng : manager) :
  LogPath c <> EmptyString -> FileName c <> EmptyString ->
  WriterMode c <> "none"%string -> WriterMode c <> "lock"%string ->
  WriterMode c <> "async"%string -> WriterMode c <> "buffer"%string ->
  MaxRemain c <= 0 ->
  NewManager cron_parse c now = Done (inl mng) ->
  quiet o ->
  (forall ino, names o !! sys.key (LogPath c) <> Some (os.File ino)) ->
  names o !! sys.key (LogFilePath c) = None ->
  sys.key (LogFilePath c) <> sys.key (LogPath c) ->
  exists o1,
    NewWriterFromConfig cron_parse time_Parse fuel c now o = Done (o1, inr ErrInvalidArgument) /\
    names o1 !! sys.key (LogPath c) = Some os.Dir /\
    names o1 !! sys.key (LogFilePath c) = Some (os.File (length (inodes o))) /\
    is_open o1 (length (fds o)) = true /\
    calls_since o o1 = [(os.CMkdirAll (LogPath c), None);
                        (os.COpenFile (LogFilePath c), None)].
Proof.
  intros HL HF Hm1 Hm2 Hm3 Hm4 Hmax Hmng Hq Hdir Hfresh Hne.
  unfold NewWriterFromConfig.
  apply String.eqb_neq in HL, HF, Hm1, Hm2, Hm3, Hm4.
  rewrite HL, HF. cbn [orb].
  destruct (MkdirAll_ok o (LogPath c) Hq Hdir)
    as (o1 & -> & Hn1 & Hi1 & Hf1 & Hq1 & _ & _ & Ht1).
  assert (Hfresh1 : names o1 !! sys.key (LogFilePath c) = None)
    by (rewrite Hn1, lookup_insert_ne by congruence; exact Hfresh).
  destruct (OpenFile_fresh o1 (LogFilePath c) Hq1 Hfresh1)
    as (o2 & -> & Hn2 & Hi2 & Hf2 & Hq2 & _ & _ & Ht2).
  rewrite Hmng.
  destruct (Z.ltb_spec 0 (MaxRemain c)) as [Hpos|_]; [lia|].
  rewrite Hm1, Hm2, Hm3, Hm4.
  exists o2. split; [reflexivity|].
  rewrite Hn2, Hn1, Hi1.
  split; [rewrite lookup_insert_ne by congruence; apply lookup_insert_eq|].
  split; [apply lookup_insert_eq|].
  split; [unfold is_open; rewrite Hf2, Hf1, list_lookup_middle by reflexivity; reflexivity|].
  apply calls_since_app. rewrite Ht2, Ht1, <- app_assoc. reflexivity.
Qed.

Lemma NewWriterFromConfig_invalid_mode_witness :
  exists o1,
    NewWriterFromConfig cron_any parse0 2 config_bad_mode 5 world0
      = Done (o1, inr ErrInvalidArgument) /\
    names o1 !! sys.key "./log" = Some os.Dir /\
    names o1 !! sys.key (LogFilePath config_bad_mode) = Some (os.File 0) /\
    is_open o1 0%nat = true /\
    calls_since world0 o1 = [(os.CMkdirAll "./log", None);
                             (os.COpenFile (LogFilePath config_bad_mode), None)].
Proof.
  refine (NewWriterFromConfig_invalid_mode cron_any parse0 2 config_bad_mode 5 world0 _
            _ _ _ _ _ _ _ eq_refl eq_refl _ _ _);
    try discriminate; try (intros ino); vm_compute; try discriminate; reflexivity.
Defined.

(** ** The manager *)

(** X13: [NewManager] always returns, and its only error is that of the
    cron parser under the time policy.  The manager it returns starts its
    segment at the instant of the call, has nothing on its fire channel and
    an open context, runs a cron schedule under the time policy alone and a
    size poller under the volume policy alone; any other policy value, known
    or not, gives a manager with no trigger at all. *)
Theorem NewManager_outcomes (cron_parse : string -> option error) (c : Config) (now : Time) :
  exists r,
    NewManager cron_parse c now = Done r /\
    match r with
    | inr err =>
        RollingPolicy c = TimeRolling /\ cron_parse (RollingTimePattern c) = Some err
    | inl m =>
        startAt m = now /\ idle (fire m) /\ idle (context m) /\
        (cron.running (cr m) = true <-> RollingPolicy c = TimeRolling) /\
        (cron.entries (cr m) =
           if RollingPolicy c =? TimeRolling then [RollingTimePattern c] else []) /\
        (poller m = PollSelect <-> RollingPolicy c = VolumeRolling) /\
        (poller m = PollNone <-> RollingPolicy c <> VolumeRolling) /\
        (RollingPolicy c = TimeRolling -> cron_parse (RollingTimePattern c) = None)
    end.
Proof.
  unfold NewManager.
  destruct (Z.eqb_spec (RollingPolicy c) TimeRolling) as [Ht|Ht].
  - destruct (cron_parse (RollingTimePattern c)) as [err|] eqn:Hp.
    + eexists. split; [reflexivity|]. split; [exact Ht|reflexivity].
    + eexists. split; [reflexivity|]. unfold idle.
      cbn [startAt fire context cr poller set_cr cron.Start cron.running cron.entries
           chan.make chan.items chan.closed cron.New app].
      rewrite Ht. unfold VolumeRolling, TimeRolling.
      repeat split; try reflexivity; try discriminate; intros; try lia.
  - destruct (Z.eqb_spec (RollingPolicy c) VolumeRolling) as [Hv|Hv].
    + rewrite ParseVolume_volume.
      destruct (ParseVolume_total
                  (mkManager 0 now (chan.make 0) cron.New (chan.make 0) PollNone) c)
        as [m1 Hm1].
      rewrite ParseVolume_volume in Hm1.
      destruct (volume _) as [v|]; [|discriminate]. cbn [fmap option_fmap option_map].
      eexists. split; [reflexivity|]. unfold idle.
      cbn [startAt fire context cr poller set_poller set_thresholdSize cron.running
           cron.entries chan.make chan.items chan.closed cron.New].
      repeat split; try reflexivity; try discriminate; try contradiction; intros;
        try assumption; try congruence.
    + eexists. split; [reflexivity|]. unfold idle.
      cbn [startAt fire context cr poller cron.running cron.entries chan.make
           chan.items chan.closed cron.New].
      repeat split; try reflexivity; try discriminate; try contradiction; intros;
        try assumption; try congruence.
Qed.

Lemma last_cons_default {A} (x : A) (l : list A) (d d' : A) :
  List.last (x :: l) d = List.last (x :: l) d'.
Proof.
  revert x. induction l as [|y l IH]; intros x; [reflexivity|].
  change (List.last (y :: l) d = List.last (y :: l) d'). apply IH.
Qed.

(** X14: each trigger names the segment that ends with it.  When triggers
    fire at the instants [ts] and nobody receives, the fire channel gets one
    name for each, in order, after what it held; the name of a trigger
    carries the start of the segment, which is the instant of the trigger
    before it (for the first one, the start held by the manager), never its
    own instant; and the manager's segment start ends up at the last
    instant.  Triggers do not wait for one another: the names pile up. *)
Theorem triggers_name_segments (time_Format : Time -> string -> string) (c : Config)
    (ts : list Time) (m : manager) :
  chan.items (fire (triggers time_Format m c ts)) =
    chan.items (fire m) ++
    map (fun t => fst (GenLogFileName time_Format (set_startAt m t) c t))
      (removelast (startAt m :: ts)) /\
  startAt (triggers time_Format m c ts) = List.last ts (startAt m).
Proof.
  revert m. induction ts as [|t ts IH]; intros m.
  - cbn. rewrite app_nil_r. split; reflexivity.
  - unfold triggers in *. cbn [foldl].
    destruct (IH (trigger time_Format m c t)) as [Hi Hs]. rewrite Hi, Hs.
    unfold trigger at 1 2 3. unfold GenLogFileName.
    cbn [fire set_fire set_startAt startAt chan.offer chan.items fst].
    split.
    + rewrite <- app_assoc. reflexivity.
    + destruct ts as [|t' ts]; [reflexivity|].
      change (List.last (t :: t' :: ts) (startAt m)) with (List.last (t' :: ts) (startAt m)).
      apply last_cons_default.
Qed.

Lemma Open_inl (o o1 : World) (p : string) (fd : nat) :
  sys.Open o p = (o1, inl fd) -> is_open o1 fd = true.
Proof.
  unfold sys.Open, sys.fault, sys.emit. intros H.
  destruct (faults o) as [|[e|] rest]; cbv beta iota zeta in H;
    cbn [names set_faults] in H;
    try (destruct (names o !! sys.key p) as [[ino|]|]); simplify_eq;
    unfold is_open; cbn [fds set_trace set_fds set_faults];
    rewrite list_lookup_middle by reflexivity; reflexivity.
Qed.

Lemma Stat_fds (o : World) (fd : nat) : fds (fst (sys.Stat o fd)) = fds o.
Proof. sys_cases. Qed.

Lemma poller_step_inv (time_Format : Time -> string -> string) (pick : nat) (tick : bool)
    (m : manager) (c : Config) (now : Time) (o : World) :
  poller_inv o m ->
  poller_inv (fst (poller_step time_Format pick tick m c now o))
             (snd (poller_step time_Format pick tick m c now o)).
Proof.
  intros [[Hi [Hp|Hp]] | (name & fd & Hi & Hp & Hop)]; unfold poller_step; rewrite Hp.
  - assert (Htick :
      poller_inv
        (fst match sys.Open o (LogFilePath c) with
             | (o1, inr _) => (o1, m)
             | (o1, inl fd) =>
                 match sys.Stat o1 fd with
                 | (o2, inl size) =>
                     if volume_exceeded m size
                     then (o2, set_poller (trigger time_Format m c now) (PollOffering fd))
                     else (fst (sys.Close o2 fd), m)
                 | (o2, inr _) => (fst (sys.Close o2 fd), m)
                 end
             end)
        (snd match sys.Open o (LogFilePath c) with
             | (o1, inr _) => (o1, m)
             | (o1, inl fd) =>
                 match sys.Stat o1 fd with
                 | (o2, inl size) =>
                     if volume_exceeded m size
                     then (o2, set_poller (trigger time_Format m c now) (PollOffering fd))
                     else (fst (sys.Close o2 fd), m)
                 | (o2, inr _) => (fst (sys.Close o2 fd), m)
                 end
             end)).
    { destruct (sys.Open o (LogFilePath c)) as [o1 [fd|e]] eqn:HO; cbn [fst snd];
        [|left; auto].
      pose proof (Stat_fds o1 fd) as HS.
      destruct (sys.Stat o1 fd) as [o2 [size|e]]; cbn [fst snd] in *; [|left; auto].
      destruct (volume_exceeded m size); cbn [fst snd]; [|left; auto].
      right. eexists _, fd. unfold trigger, GenLogFileName.
      cbn [fire set_fire set_startAt set_poller poller chan.offer chan.items].
      rewrite Hi. split; [reflexivity|]. split; [reflexivity|].
      apply Open_inl in HO. unfold is_open in *. rewrite HS. exact HO. }
    destruct (chan.recv_ready (context m)), tick; cbn [fst snd];
      try exact Htick; try (left; split; [exact Hi|auto]).
    destruct (Nat.even pick); [left; split; [exact Hi|right; reflexivity]|exact Htick].
  - left. cbn [fst snd]. auto.
  - rewrite Hi. right. exists name, fd. cbn [fst snd]. auto.
Qed.

(** X15: the poller of the volume policy never has more than one name on
    offer.  From a manager with an empty fire channel and its poller at the
    [select], after any turns of the poller (with nobody receiving, and
    whatever the world does) the fire channel holds no name, or it holds
    one, and then the poller is blocked in its send and the file it opened
    for the size check is still open. *)
Theorem poller_offers_one (time_Format : Time -> string -> string)
    (evs : list (nat * bool * Time)) (m : manager) (c : Config) (o : World) :
  chan.items (fire m) = [] -> poller m = PollSelect ->
  poller_inv (fst (poller_run time_Format evs m c o))
             (snd (poller_run time_Format evs m c o)).
Proof.
  intros Hi Hp.
  assert (Hinv : poller_inv o m) by (left; auto).
  clear Hi Hp. revert m o Hinv.
  induction evs as [|[[pick tick] now] evs IH]; intros m o Hinv; [exact Hinv|].
  cbn [poller_run].
  pose proof (poller_step_inv time_Format pick tick m c now o Hinv) as Hstep.
  destruct (poller_step time_Format pick tick m c now o) as [o1 m1].
  apply IH, Hstep.
Qed.

Lemma poller_offers_one_witness :
  poller_inv
    (fst (poller_run format0 [(0%nat, true, 7); (1%nat, true, 8); (0%nat, false, 9)]
            manager_polling NewDefaultConfig world1_written))
    (snd (poller_run format0 [(0%nat, true, 7); (1%nat, true, 8); (0%nat, false, 9)]
            manager_polling NewDefaultConfig world1_written)).
Proof.
  apply (poller_offers_one format0 [(0%nat, true, 7); (1%nat, true, 8); (0%nat, false, 9)]
           manager_polling NewDefaultConfig world1_written eq_refl eq_refl).
Defined.

(** ** Options *)

(** The variant that [NewWriterFromConfig] returns is the one of
    [WriterMode]. *)
Lemma NewWriterFromConfig_variant (cron_parse : string -> option error)
    (time_Parse : string -> string -> option Time)
    (fuel : nat) (c : Config) (now : Time) (o o1 : World) (rw : RollingWriter) :
  NewWriterFromConfig cron_parse time_Parse fuel c now o = Done (o1, inl rw) ->
  WriterMode c = match rw with
                 | RW_none _ => "none" | RW_lock _ => "lock"
                 | RW_async _ => "async" | RW_buffer _ => "buffer"
                 end%string.
Proof.
  unfold NewWriterFromConfig.
  destruct (_ || _); [discriminate|].
  destruct (sys.MkdirAll o (LogPath c)) as [o2 [err|]]; [discriminate|].
  destruct (sys.OpenFile o2 (LogFilePath c)) as [o3 [fd|err]]; [|discriminate].
  destruct (NewManager cron_parse c now) as [[mng|err]| | |]; try discriminate.
  assert (Hmodes : forall (o5 : World) (writer : Writer),
             (if String.eqb (WriterMode c) "none" then Done (o5, inl (RW_none writer))
              else if String.eqb (WriterMode c) "lock"
              then Done (o5, inl (RW_lock (mkLockedWriter writer false)))
              else if String.eqb (WriterMode c) "async"
              then Done (o5, inl (RW_async
                     (mkAsynchronousWriter writer (chan.make 0) (chan.make QueueSize)
                        (chan.make 0) 0 AtSelect)))
              else if String.eqb (WriterMode c) "buffer"
              then match make_bytes (wrap64 (BufferWriterThreshold c * 2)) with
                   | Done bf => Done (o5, inl (RW_buffer (mkBufferWriter writer bf 0)))
                   | Parked => Parked
                   | Fuel => Fuel
                   | Panic msg => Panic msg
                   end
              else Done (o5, inr ErrInvalidArgument)) = Done (o1, inl rw) ->
             WriterMode c = match rw with
                            | RW_none _ => "none" | RW_lock _ => "lock"
                            | RW_async _ => "async" | RW_buffer _ => "buffer"
                            end%string).
  { intros o5 writer.
    destruct (String.eqb_spec (WriterMode c) "none"); [intros [= <- <-]; assumption|].
    destruct (String.eqb_spec (WriterMode c) "lock"); [intros [= <- <-]; assumption|].
    destruct (String.eqb_spec (WriterMode c) "async"); [intros [= <- <-]; assumption|].
    destruct (String.eqb_spec (WriterMode c) "buffer"); [|discriminate].
    destruct (make_bytes _); try discriminate. intros [= <- <-]; assumption. }
  destruct (0 <? MaxRemain c).
  - destruct (sys.ReadDir o3 (LogPath c)) as [o4 [dir|err]]; [|discriminate].
    destruct (trim fuel c _ _ o4) as [[o5 w5]| | |] eqn:Ht; try discriminate.
    apply Hmodes.
  - apply Hmodes.
Qed.

(** What a configuration made by the options of the package looks like. *)
Lemma configure_options (calls : list option_call) (c : Config) :
  let cfg := configure c (map option_of calls) in
  (WriterMode cfg = WriterMode c \/
   WriterMode cfg = "lock"%string \/ WriterMode cfg = "async"%string \/
   WriterMode cfg = "buffer"%string) /\
  (RollingPolicy cfg = RollingPolicy c \/
   RollingPolicy cfg = WithoutRolling \/ RollingPolicy cfg = TimeRolling \/
   RollingPolicy cfg = VolumeRolling) /\
  (Compress cfg = Compress c || existsb is_WithCompress calls).
Proof.
  revert c. induction calls as [|k calls IH]; intros c.
  - cbn. rewrite orb_false_r. auto.
  - cbv zeta. cbn [map configure foldl].
    destruct (IH (option_of k c)) as (Hm & Hp & Hc). unfold configure in *.
    split; [|split].
    + destruct k; cbn [option_of] in *; unfold WithAsynchronous, WithLock, WithBuffer in *;
        cbn [WriterMode with_mode WithTimeTagFormat WithLogPath WithFileName
             WithBufferThreshold WithCompress WithMaxRemain WithoutRollingPolicy
             WithRollingTimePattern WithRollingVolumeSize] in Hm; tauto.
    + destruct k; cbn [option_of] in *; unfold WithAsynchronous, WithLock, WithBuffer in *;
        cbn [RollingPolicy with_mode WithTimeTagFormat WithLogPath WithFileName
             WithBufferThreshold WithCompress WithMaxRemain WithoutRollingPolicy
             WithRollingTimePattern WithRollingVolumeSize] in Hp; tauto.
    + rewrite Hc. cbn [existsb].
      destruct k; cbn [option_of is_WithCompress]; unfold WithAsynchronous, WithLock, WithBuffer;
        cbn [Compress with_mode WithTimeTagFormat WithLogPath WithFileName
             WithBufferThreshold WithCompress WithMaxRemain WithoutRollingPolicy
             WithRollingTimePattern WithRollingVolumeSize orb]; try reflexivity.
      destruct (Compress c); reflexivity.
Qed.

(** X16: the options of the package cannot ask for the unprotected writer.
    Whatever option constructors are called, in whatever order, the
    configuration that [NewWriter] builds from the default one has the
    writer mode [lock], [async] or [buffer], never [none], and a rolling
    policy among the three known ones; compression is on exactly when
    [WithCompress] was among the options (no option turns it off again).
    So [NewWriter] never returns a plain [Writer], and the variant it
    returns is that of the mode. *)
Theorem NewWriter_never_unprotected (cron_parse : string -> option error)
    (time_Parse : string -> string -> option Time)
    (fuel : nat) (calls : list option_call) (now : Time) (o : World) :
  let cfg := configure NewDefaultConfig (map option_of calls) in
  (WriterMode cfg = "lock"%string \/ WriterMode cfg = "async"%string \/
   WriterMode cfg = "buffer"%string) /\
  (RollingPolicy cfg = WithoutRolling \/ RollingPolicy cfg = TimeRolling \/
   RollingPolicy cfg = VolumeRolling) /\
  Compress cfg = existsb is_WithCompress calls /\
  match NewWriter cron_parse time_Parse fuel (map option_of calls) now o with
  | Done (_, inl (RW_none _)) => False
  | Done (_, inl (RW_lock _)) => WriterMode cfg = "lock"%string
  | Done (_, inl (RW_async _)) => WriterMode cfg = "async"%string
  | Done (_, inl (RW_buffer _)) => WriterMode cfg = "buffer"%string
  | _ => True
  end.
Proof.
  intros cfg.
  destruct (configure_options calls NewDefaultConfig) as (Hm & Hp & Hc).
  fold cfg in Hm, Hp, Hc. cbn [WriterMode RollingPolicy Compress NewDefaultConfig orb] in *.
  assert (Hmode : WriterMode cfg = "lock"%string \/ WriterMode cfg = "async"%string \/
                  WriterMode cfg = "buffer"%string) by tauto.
  split; [exact Hmode|]. split; [unfold WithoutRolling, TimeRolling, VolumeRolling in *; tauto|].
  split; [exact Hc|].
  unfold NewWriter. fold cfg.
  destruct (NewWriterFromConfig cron_parse time_Parse fuel cfg now o)
    as [[o1 [rw|err]]| | |] eqn:Hrun; try exact I.
  apply NewWriterFromConfig_variant in Hrun.
  destruct rw; try exact Hrun.
  rewrite Hrun in Hmode. destruct Hmode as [H|[H|H]]; discriminate.
Qed.

(** ** Compression of a historical file *)




Lemma Write_at (o : World) (fd ino : nat) (b old : list byte) :
  quiet o -> fds o !! fd = Some (ino, true) -> inodes o !! ino = Some old ->
  exists o1,
    sys.Write o fd b = (o1, (len b, None)) /\
    names o1 = names o /\ inodes o1 = <[ino := old ++ b]> (inodes o) /\
    fds o1 = fds o /\ quiet o1 /\
    logs o1 = logs o /\ trace o1 = trace o ++ [(os.CWrite fd b, None)].
Proof.
  unfold quiet, sys.Write, sys.fault. intros Hq Hfd Hd. rewrite Hq.
  cbv beta iota zeta. rewrite Hfd, Hd. eexists. split; [reflexivity|].
  repeat split. exact Hq.
Qed.

Lemma Close_at (o : World) (fd ino : nat) :
  quiet o -> fds o !! fd = Some (ino, true) ->
  exists o1,
    sys.Close o fd = (o1, None) /\
    names o1 = names o /\ inodes o1 = inodes o /\
    fds o1 = <[fd := (ino, false)]> (fds o) /\ quiet o1 /\
    logs o1 = logs o /\ trace o1 = trace o ++ [(os.CClose fd, None)].
Proof.
  unfold quiet, sys.Close, sys.fault. intros Hq Hfd. rewrite Hq. cbv beta iota zeta.
  rewrite Hfd. eexists. split; [reflexivity|]. repeat split. exact Hq.
Qed.








Lemma Remove_frame (o : World) (a : string) :
  (forall p, p <> sys.key a -> names (fst (sys.Remove o a)) !! p = names o !! p) /\
  inodes (fst (sys.Remove o a)) = inodes o /\ fds (fst (sys.Remove o a)) = fds o /\
  (forall e, snd (sys.Remove o a) = Some e -> names (fst (sys.Remove o a)) = names o).
Proof.
  unfold sys.Remove, sys.fault, sys.emit.
  destruct (faults o) as [|[e|] rest]; cbv beta iota zeta; cbn [names set_faults];
    try (destruct (names o !! sys.key a) as [n|]);
    cbn [fst snd names inodes fds set_trace set_names set_faults];
    repeat split; try discriminate; intros; rewrite ?lookup_delete_ne by congruence;
    reflexivity.
Qed.


Lemma Close_frame (o : World) (fd : nat) :
  names (fst (sys.Close o fd)) = names o /\ inodes (fst (sys.Close o fd)) = inodes o.
Proof. repeat split; sys_cases. Qed.





Lemma Remove_logs (o : World) (a : string) : logs (fst (sys.Remove o a)) = logs o.
Proof. apply Remove_names_only. Qed.





(** ** Failures of the retention queue, and writes after [Close] *)

(** X19: a historical file whose removal fails is forgotten.  When the
    retention queue is full and [os.Remove] of its oldest name fails, the
    retry loop logs the error, drops the name from the queue all the same
    and queues the new name; the directory is as it was, so the file stays
    and no later removal will name it. *)
Theorem enqueue_remove_failure (fuel : nat) (w : Writer) (file_ : string) (o : World)
    (ch : chan.t string) (oldest : string) (rest : list string) (e : error) :
  rollingfilech w = Some ch ->
  chan.items ch = oldest :: rest ->
  Z.of_nat (length (chan.items ch)) = chan.cap ch ->
  snd (sys.Remove o oldest) = Some e ->
  (2 <= fuel)%nat ->
  exists o1,
    enqueue fuel w file_ o
      = Done (o1, set_rollingfilech w
                    (Some (chan.mk (chan.cap ch) (rest ++ [file_]) (chan.closed ch)))) /\
    names o1 = names o /\
    logs o1 = logs o ++ [(("error in remove log file " ++ oldest)%string, e)] /\
    calls_since o o1 = [(os.CRemove oldest, Some e)].
Proof.
  intros Hch Hitems Hfull He Hfuel.
  destruct fuel as [|[|fuel]]; [lia|lia|].
  cbn [enqueue]. rewrite Hch. cbn [mbind option_bind].
  rewrite (proj2 (try_send_full ch file_)) by lia.
  unfold DoRemove. rewrite Hch. unfold chan.try_recv. rewrite Hitems.
  destruct (Remove_frame o oldest) as (_ & _ & _ & Hn).
  pose proof (Remove_logs o oldest) as Hl.
  pose proof (Remove_trace o oldest) as Ht.
  destruct (sys.Remove o oldest) as [o1 r]; cbn [fst snd] in *. subst r.
  cbn [rollingfilech set_rollingfilech mbind option_bind].
  unfold chan.try_send. cbn [chan.items chan.cap chan.closed].
  rewrite Hitems in Hfull. cbn [length] in Hfull.
  destruct (Z.ltb_spec (Z.of_nat (length rest)) (chan.cap ch)) as [_|?]; [|lia].
  eexists. split; [reflexivity|].
  cbn [names logs log_Println set_logs]. rewrite (Hn e eq_refl), Hl.
  repeat split. apply calls_since_app. exact Ht.
Qed.

Lemma enqueue_remove_failure_witness :
  exists o1,
    enqueue 2 writer_full "log/a.log.3" world1_failing
      = Done (o1, set_rollingfilech writer_full
                    (Some (chan.mk 2 ["log/a.log.2"; "log/a.log.3"]%string false))) /\
    names o1 = names world1_failing /\
    logs o1 = logs world1_failing
              ++ [("error in remove log file log/a.log.1"%string, ENOSPC)] /\
    calls_since world1_failing o1 = [(os.CRemove "log/a.log.1", Some ENOSPC)].
Proof.
  apply (enqueue_remove_failure 2 writer_full "log/a.log.3" world1_failing
           (chan.mk 2 ["log/a.log.1"; "log/a.log.2"]%string false)
           "log/a.log.1" ["log/a.log.2"%string] ENOSPC eq_refl eq_refl eq_refl eq_refl).
  lia.
Defined.



(** ** The locked writer *)

(** X21: [LockedWriter.Write] and [LockedWriter.Close] are [Writer.Write]
    and [Writer.Close] under the mutex: with the mutex free they do to the
    world and to the writer, and return, what the unprotected ones do, and
    leave the mutex free on every path, the failed rotation included; with
    the mutex held they wait. *)
Theorem LockedWriter_as_Writer (w : LockedWriter) (b : list byte) (o : World) :
  LockedWriter_Write w b o =
    (if lw_locked w then Parked
     else let '(o1, w1, r) := Writer_Write (lw_Writer w) b o in
          Done (o1, mkLockedWriter w1 false, r)) /\
  LockedWriter_Close w o =
    (if lw_locked w then Parked
     else let '(o1, r) := Writer_Close (lw_Writer w) o in Done (o1, w, r)).
Proof.
  unfold LockedWriter_Write, LockedWriter_Close, Writer_Write, Writer_Close.
  destruct (lw_locked w); [split; reflexivity|]. split; [|reflexivity].
  destruct (chan.try_recv _ _) as [[filename ch]|].
  - destruct (Reopen _ _ _) as [[o1 w1] [err|]]; [reflexivity|].
    destruct (sys.Write _ _ _); reflexivity.
  - destruct (sys.Write _ _ _); reflexivity.
Qed.

(** ** Bytes that cross a rotation *)

(** The loop of [AsynchronousWriter.Write] completes when the slices of the
    pool are not empty, the queue has room and the fuel suffices. *)
Lemma write_chunks_total (fuel : nat) (w : AsynchronousWriter) (b : list byte) (o : World) :
  Forall (fun n => 0 < n) (asyncBufferPool o) ->
  (length b < fuel)%nat ->
  Z.of_nat (length (chan.items (queue w)) + length b) <= chan.cap (queue w) ->
  exists o1 w1, write_chunks fuel w b o = Done (o1, w1).
Proof.
  revert w b o. induction fuel as [|fuel IH]; intros w b o Hpool Hfuel Hroom; [lia|].
  cbn [write_chunks].
  destruct (Z.ltb_spec 0 (len b)) as [Hpos|_]; [|eexists _, _; reflexivity].
  unfold len in Hpos.
  destruct (pool_Get o) as [buflen og] eqn:Hg.
  assert (Hbl : 0 < buflen /\ Forall (fun n => 0 < n) (asyncBufferPool og)).
  { unfold pool_Get in Hg. destruct (asyncBufferPool o) as [|n rest] eqn:E.
    - injection Hg as <- <-. rewrite E. split; [reflexivity|constructor].
    - injection Hg as <- <-. inversion Hpool; subst. split; assumption. }
  destruct Hbl as [Hbl Hpool'].
  unfold chan.try_send.
  destruct (Z.ltb_spec (Z.of_nat (length (chan.items (queue w)))) (chan.cap (queue w)))
    as [_|?]; [|lia].
  apply IH; [exact Hpool'| |].
  - rewrite length_drop. unfold len. lia.
  - cbn [queue set_queue chan.items chan.cap]. rewrite length_app, length_drop.
    unfold len. cbn [length]. lia.
Qed.

Lemma write_chunks_frame (fuel : nat) (w : AsynchronousWriter) (b : list byte) (o : World)
    (o1 : World) (w1 : AsynchronousWriter) :
  write_chunks fuel w b o = Done (o1, w1) ->
  closed w1 = closed w /\ ctx w1 = ctx w /\ faults o1 = faults o /\
  chan.cap (queue w1) = chan.cap (queue w).
Proof.
  revert w b o. induction fuel as [|fuel IH]; intros w b o Hrun; [discriminate|].
  cbn [write_chunks] in Hrun.
  destruct (0 <? len b).
  - destruct (pool_Get o) as [buflen og] eqn:Hg.
    assert (Hog : faults og = faults o)
      by (unfold pool_Get in Hg; destruct (asyncBufferPool o); injection Hg as <- <-;
          reflexivity).
    unfold chan.try_send in Hrun. destruct (_ <? _); [|discriminate].
    apply IH in Hrun. destruct Hrun as (H1 & H2 & H3 & H4).
    cbn [closed ctx queue set_queue chan.cap] in *. repeat split; congruence.
  - injection Hrun as <- <-. repeat split.
Qed.

Lemma Reopen_pool (w : Writer) (file_ : string) (o : World) :
  asyncBufferPool (fst (fst (Reopen w file_ o))) = asyncBufferPool o.
Proof.
  unfold Reopen, sys.Rename, sys.OpenFile, sys.fault, sys.emit.
  repeat (destruct_inner; cbv beta iota zeta); cbn [fst snd] in *; simplify_eq; reflexivity.
Qed.

(** [onClose] in a quiet world, in full. *)
Lemma onClose_loop_at (pending : list (list byte)) (w : AsynchronousWriter) (o : World)
    (j : nat) (wr : list byte) :
  chan.items (queue w) = pending ->
  quiet o -> fds o !! file (aw_Writer w) = Some (j, true) -> inodes o !! j = Some wr ->
  exists o1 w1,
    onClose_loop pending w o = (o1, w1) /\
    inodes o1 = <[j := wr ++ concat pending]> (inodes o) /\
    names o1 = names o /\ fds o1 = fds o /\ quiet o1 /\
    chan.items (queue w1) = [] /\ aw_Writer w1 = aw_Writer w.
Proof.
  revert w o wr. induction pending as [|b rest IH]; intros w o wr Hitems Hq Hfd Hd.
  - exists o, w. cbn [onClose_loop concat]. rewrite app_nil_r, list_insert_id by exact Hd.
    repeat split; assumption.
  - cbn [onClose_loop]. set (w0 := set_queue w _).
    change (file (aw_Writer w0)) with (file (aw_Writer w)).
    destruct (Write_at o _ _ b wr Hq Hfd Hd) as (o1 & -> & Hn1 & Hi1 & Hf1 & Hq1 & _).
    assert (Hd1 : inodes (pool_Put o1 b) !! j = Some (wr ++ b)).
    { change (inodes (pool_Put o1 b)) with (inodes o1). rewrite Hi1.
      apply list_lookup_insert_eq. apply lookup_lt_Some in Hd. exact Hd. }
    destruct (IH w0 (pool_Put o1 b) (wr ++ b) eq_refl Hq1
                ltac:(change (fds (pool_Put o1 b)) with (fds o1); rewrite Hf1; exact Hfd) Hd1)
      as (o2 & w2 & -> & Hi2 & Hn2 & Hf2 & Hq2 & Hit2 & Hw2).
    exists o2, w2. split; [reflexivity|].
    change (inodes (pool_Put o1 b)) with (inodes o1) in Hi2.
    change (names (pool_Put o1 b)) with (names o1) in Hn2.
    change (fds (pool_Put o1 b)) with (fds o1) in Hf2.
    cbn [concat]. rewrite Hi2, Hi1, list_insert_insert_eq, app_assoc.
    repeat split; try assumption; congruence.
Qed.

(** [AsynchronousWriter.Close] in a quiet world, in full. *)
Lemma AsynchronousWriter_Close_at (w : AsynchronousWriter) (o : World) (j : nat)
    (wr : list byte) :
  closed w = 0 -> chan.closed (ctx w) = false ->
  quiet o -> fds o !! file (aw_Writer w) = Some (j, true) -> inodes o !! j = Some wr ->
  exists o2 w2,
    AsynchronousWriter_Close w o = Done (o2, w2, None) /\
    inodes o2 = <[j := wr ++ concat (chan.items (queue w))]> (inodes o) /\
    names o2 = names o /\
    fds o2 = <[file (aw_Writer w) := (j, false)]> (fds o).
Proof.
  intros Hc Hxc Hq Hfd Hd.
  unfold AsynchronousWriter_Close, chan.close.
  cbn [ctx set_closed]. rewrite Hc, Hxc. change (0 =? 0) with true. cbv beta iota zeta.
  unfold onClose. set (w0 := set_ctx _ _).
  change (chan.items (queue w0)) with (chan.items (queue w)).
  destruct (onClose_loop_at (chan.items (queue w)) w0 o j wr eq_refl Hq Hfd Hd)
    as (o2 & w2 & -> & Hi2 & Hn2 & Hf2 & Hq2 & _ & Hw2).
  rewrite Hw2. change (aw_Writer w0) with (aw_Writer w).
  destruct (Close_at o2 (file (aw_Writer w)) j Hq2 ltac:(rewrite Hf2; exact Hfd))
    as (o3 & -> & Hn3 & Hi3 & Hf3 & _).
  exists o3, w2. split; [reflexivity|]. repeat split; congruence.
Qed.

(** X22: bytes queued before a rotation end up in the new file.  When an
    [AsynchronousWriter.Write] finds a historical name pending it rotates
    first and then queues its payload; the buffers that earlier calls had
    queued and that were not yet written are still in the queue.  After a
    [Close] the historical file holds only what had reached the file before
    the rotation, and the new active file holds the earlier buffers followed
    by the payload.  (Quiet world, slices of the pool not empty, room in
    the queue.) *)
Theorem AsynchronousWriter_rotation_moves_queue (fuel pick : nat)
    (w : AsynchronousWriter) (b : list byte) (o : World)
    (file_ : string) (rest : list string) (ino : nat) (old : list byte) :
  closed w = 0 -> idle (errChan w) -> chan.closed (ctx w) = false ->
  chan.items (w_fire (aw_Writer w)) = file_ :: rest ->
  quiet o ->
  names o !! sys.key (absPath (aw_Writer w)) = Some (os.File ino) ->
  inodes o !! ino = Some old ->
  sys.key file_ <> sys.key (absPath (aw_Writer w)) ->
  Forall (fun n => 0 < n) (asyncBufferPool o) ->
  (length b < fuel)%nat ->
  Z.of_nat (length (chan.items (queue w)) + length b) <= chan.cap (queue w) ->
  exists o1 w1 o2 w2,
    AsynchronousWriter_Write fuel pick w b o = Done (o1, w1, (len b, None)) /\
    AsynchronousWriter_Close w1 o1 = Done (o2, w2, None) /\
    names o2 !! sys.key file_ = Some (os.File ino) /\
    inodes o2 !! ino = Some old /\
    names o2 !! sys.key (absPath (aw_Writer w)) = Some (os.File (length (inodes o))) /\
    inodes o2 !! length (inodes o) = Some (concat (chan.items (queue w)) ++ b).
Proof.
  intros Hc He Hxc Hfire Hq Hn Hd Hne Hpool Hfuel Hroom.
  assert (Hilt : (ino < length (inodes o))%nat) by (apply lookup_lt_Some in Hd; exact Hd).
  unfold AsynchronousWriter_Write. rewrite Hc. change (0 =? 0) with true.
  cbv beta iota zeta. rewrite (idle_try_recv _ _ He).
  unfold chan.try_recv at 1. rewrite Hfire.
  set (w0 := set_w_fire (aw_Writer w) _).
  pose proof (Reopen_pool w0 file_ o) as Hp.
  destruct (Reopen_ok w0 file_ o ino Hq Hn Hne)
    as (o1 & HR & Hn1 & Hi1 & Hf1 & _ & _ & _ & Hq1).
  rewrite HR in *. cbn [fst] in Hp.
  change (absPath w0) with (absPath (aw_Writer w)) in *.
  set (wa := set_aw_Writer w (set_file w0 (length (fds o)))).
  destruct (write_chunks_total fuel wa b o1 ltac:(rewrite Hp; exact Hpool) Hfuel Hroom)
    as (o2 & w2 & Hch).
  rewrite Hch.
  destruct (write_chunks_spec _ _ _ _ _ _ Hch)
    as (chunks & Hit & Hcc & Hw2 & _ & Hi2 & Hn2 & Hf2 & _).
  destruct (write_chunks_frame _ _ _ _ _ _ Hch) as (Hc2 & Hx2 & Hq2 & _).
  assert (Hfd2 : fds o2 !! file (aw_Writer w2) = Some (length (inodes o), true)).
  { rewrite Hw2, Hf2, Hf1. apply list_lookup_middle. reflexivity. }
  assert (Hd2 : inodes o2 !! length (inodes o) = Some []).
  { rewrite Hi2, Hi1. apply list_lookup_middle. reflexivity. }
  destruct (AsynchronousWriter_Close_at w2 o2 _ [] ltac:(rewrite Hc2; exact Hc)
              ltac:(rewrite Hx2; exact Hxc) ltac:(unfold quiet; rewrite Hq2; exact Hq1)
              Hfd2 Hd2)
    as (o3 & w3 & HC & Hi3 & Hn3 & _).
  exists o2, w2, o3, w3. split; [reflexivity|]. split; [exact HC|].
  rewrite Hn3, Hn2, Hn1, Hi3, Hi2, Hi1, Hit.
  split; [rewrite lookup_insert_ne by congruence; apply lookup_insert_eq|].
  split; [rewrite list_lookup_insert_ne by lia; apply lookup_app_l_Some; exact Hd|].
  split; [apply lookup_insert_eq|].
  rewrite list_lookup_insert_eq by (rewrite length_app; cbn; lia).
  cbn [app]. rewrite concat_app, Hcc. reflexivity.
Qed.

Lemma AsynchronousWriter_rotation_moves_queue_witness :
  exists o1 w1 o2 w2,
    AsynchronousWriter_Write 6 0 (set_queue async_writer_fired (queue async_writer_queued))
      (bytes_of "abcde") world1_pooled = Done (o1, w1, (5, None)) /\
    AsynchronousWriter_Close w1 o1 = Done (o2, w2, None) /\
    names o2 !! "log/log.log.202001010000"%string = Some (os.File 0) /\
    inodes o2 !! 0%nat = Some (bytes_of "old") /\
    names o2 !! "log/log.log"%string = Some (os.File 1) /\
    inodes o2 !! 1%nat = Some (bytes_of "abcdabcde").
Proof.
  apply (AsynchronousWriter_rotation_moves_queue 6 0
           (set_queue async_writer_fired (queue async_writer_queued))
           (bytes_of "abcde") world1_pooled "log/log.log.202001010000" [] 0 (bytes_of "old")
           eq_refl (conj eq_refl eq_refl) eq_refl eq_refl eq_refl);
    try (vm_compute; reflexivity); try (vm_compute; discriminate);
    repeat constructor.
Defined.

(** X23: bytes buffered before a rotation never reach the rotated file.
    When a [BufferWriter.Write] finds a historical name pending it rotates
    first, with the buffer as it is: the historical file holds only what
    had been flushed before, and the bytes of the buffer and the payload are
    in the new active file or still in the buffer, in order. *)
Theorem BufferWriter_rotation_moves_buffer (w : BufferWriter) (b : list byte) (o : World)
    (file_ : string) (rest : list string) (ino : nat) (old : list byte) :
  chan.items (w_fire (bw_Writer w)) = file_ :: rest ->
  quiet o ->
  names o !! sys.key (absPath (bw_Writer w)) = Some (os.File ino) ->
  inodes o !! ino = Some old ->
  sys.key file_ <> sys.key (absPath (bw_Writer w)) ->
  swaping w = 0 ->
  0 <= wrap64 (BufferWriterThreshold (cf (bw_Writer w)) * 2) ->
  exists o1 w1 written,
    BufferWriter_Write w b o = Done (o1, w1, (len b, None)) /\
    names o1 !! sys.key file_ = Some (os.File ino) /\
    inodes o1 !! ino = Some old /\
    names o1 !! sys.key (absPath (bw_Writer w)) = Some (os.File (length (inodes o))) /\
    inodes o1 !! length (inodes o) = Some written /\
    written ++ buf w1 = buf w ++ b.
Proof.
  intros Hfire Hq Hn Hd Hne Hsw Hcap.
  assert (Hilt : (ino < length (inodes o))%nat) by (apply lookup_lt_Some in Hd; exact Hd).
  unfold BufferWriter_Write, chan.try_recv. rewrite Hfire.
  set (w0 := set_w_fire (bw_Writer w) _).
  destruct (Reopen_ok w0 file_ o ino Hq Hn Hne)
    as (o1 & -> & Hn1 & Hi1 & Hf1 & _ & _ & _ & Hq1).
  change (absPath w0) with (absPath (bw_Writer w)) in *.
  change (cf (set_file w0 (length (fds o)))) with (cf (bw_Writer w)).
  rewrite (make_bytes_Done _ Hcap), Hsw. change (0 =? 0) with true. rewrite andb_true_r.
  assert (Hfd1 : fds o1 !! length (fds o) = Some (length (inodes o), true))
    by (rewrite Hf1; apply list_lookup_middle; reflexivity).
  assert (Hd1 : inodes o1 !! length (inodes o) = Some [])
    by (rewrite Hi1; apply list_lookup_middle; reflexivity).
  assert (Hold : names o1 !! sys.key file_ = Some (os.File ino))
    by (rewrite Hn1, lookup_insert_ne by congruence; apply lookup_insert_eq).
  assert (Hnew : names o1 !! sys.key (absPath (bw_Writer w))
                 = Some (os.File (length (inodes o))))
    by (rewrite Hn1; apply lookup_insert_eq).
  destruct (_ <? _).
  - cbn [file set_file].
    destruct (Write_at o1 _ _ (buf w ++ b) [] Hq1 Hfd1 Hd1)
      as (o2 & -> & Hn2 & Hi2 & _).
    eexists o2, _, (buf w ++ b). split; [reflexivity|].
    rewrite Hn2, Hi2. split; [exact Hold|].
    split; [rewrite list_lookup_insert_ne by lia; rewrite Hi1;
            apply lookup_app_l_Some; exact Hd|].
    split; [exact Hnew|].
    split; [apply list_lookup_insert_eq; rewrite Hi1, length_app; cbn; lia|].
    cbn [buf]. apply app_nil_r.
  - eexists o1, _, []. split; [reflexivity|]. split; [exact Hold|].
    split; [rewrite Hi1; apply lookup_app_l_Some; exact Hd|].
    split; [exact Hnew|]. split; [exact Hd1|]. reflexivity.
Qed.

Lemma BufferWriter_rotation_moves_buffer_witness :
  exists o1 w1 written,
    BufferWriter_Write (mkBufferWriter writer1_fired (bytes_of "abc") 0) (bytes_of "de")
      world1_written = Done (o1, w1, (2, None)) /\
    names o1 !! "log/log.log.202001010000"%string = Some (os.File 0) /\
    inodes o1 !! 0%nat = Some (bytes_of "old") /\
    names o1 !! "log/log.log"%string = Some (os.File 1) /\
    inodes o1 !! 1%nat = Some written /\
    written ++ buf w1 = bytes_of "abcde".
Proof.
  apply (BufferWriter_rotation_moves_buffer (mkBufferWriter writer1_fired (bytes_of "abc") 0)
           (bytes_of "de") world1_written "log/log.log.202001010000" [] 0 (bytes_of "old")
           eq_refl eq_refl);
    try (vm_compute; reflexivity); try (vm_compute; discriminate).
Defined.

(** ** Without retention *)

Lemma MkdirAll_trace (o : World) (p : string) :
  trace (fst (sys.MkdirAll o p)) = trace o ++ [(os.CMkdirAll p, snd (sys.MkdirAll o p))].
Proof. sys_cases. Qed.

Lemma OpenFile_trace_call (o : World) (a : string) :
  exists r, trace (fst (sys.OpenFile o a)) = trace o ++ [(os.COpenFile a, r)].
Proof.
  unfold sys.OpenFile, sys.fault, sys.emit.
  repeat (destruct_inner; cbv beta iota zeta); cbn [fst snd trace set_trace];
    eexists; reflexivity.
Qed.

(** X24: with [MaxRemain] not positive nothing is ever removed.  Whatever
    the world does, [NewWriterFromConfig] then calls at most [os.MkdirAll]
    and [os.OpenFile] (no directory listing, no removal), the writer it
    returns has no retention queue, and the goroutine of a rotation of such
    a writer, compression off, makes one call, the close of the old
    file. *)
Theorem no_retention_no_removal (cron_parse : string -> option error)
    (time_Parse : string -> string -> option Time) (gzip : list byte -> list byte)
    (fuel : nat) (c : Config) (now : Time) (o : World) :
  MaxRemain c <= 0 ->
  (exists res,
     NewWriterFromConfig cron_parse time_Parse fuel c now o = res /\
     match res with
     | Done (o1, r) =>
         (exists l, l `prefix_of` [os.CMkdirAll (LogPath c); os.COpenFile (LogFilePath c)] /\
                    map fst (calls_since o o1) = l) /\
         match r with
         | inl rw => rollingfilech (core rw) = None /\ cf (core rw) = c
         | inr _ => True
         end
     | Parked | Fuel => False
     | Panic _ => WriterMode c = "buffer"%string
     end) /\
  (forall (w : Writer) (oldfile : nat) (file_ : string) (og : World),
      cf w = c -> Compress c = false ->
      exists og1,
        Reopen_go gzip fuel w oldfile file_ og = Done (og1, w) /\
        map fst (calls_since og og1) = [os.CClose oldfile] /\
        names og1 = names og).
Proof.
  intros Hmax. split.
  - eexists. split; [reflexivity|]. unfold NewWriterFromConfig.
    destruct (_ || _).
    { split; [|exact I]. exists []. split; [apply prefix_nil|].
      unfold calls_since. rewrite drop_all. reflexivity. }
    pose proof (MkdirAll_trace o (LogPath c)) as Ht1.
    destruct (sys.MkdirAll o (LogPath c)) as [o1 [err|]]; cbn [fst snd] in Ht1.
    { split; [|exact I]. exists [os.CMkdirAll (LogPath c)].
      split; [exists [os.COpenFile (LogFilePath c)]; reflexivity|].
      rewrite (calls_since_app _ _ _ Ht1). reflexivity. }
    destruct (OpenFile_trace_call o1 (LogFilePath c)) as [r2 Ht2].
    assert (Hboth : map fst (calls_since o (fst (sys.OpenFile o1 (LogFilePath c))))
                    = [os.CMkdirAll (LogPath c); os.COpenFile (LogFilePath c)]).
    { rewrite (calls_since_app o _ ([(os.CMkdirAll (LogPath c), None)]
                                     ++ [(os.COpenFile (LogFilePath c), r2)]));
        [reflexivity|]. rewrite Ht2, Ht1, <- app_assoc. reflexivity. }
    destruct (sys.OpenFile o1 (LogFilePath c)) as [o2 [fd|err]]; cbn [fst] in Hboth.
    2: { split; [|exact I]. eexists. split; [|exact Hboth]. reflexivity. }
    destruct (NewManager_Done cron_parse c now) as [[mng|err] ->].
    2: { split; [|exact I]. eexists. split; [|exact Hboth]. reflexivity. }
    destruct (Z.ltb_spec 0 (MaxRemain c)) as [?|_]; [lia|].
    destruct (String.eqb (WriterMode c) "none").
    { split; [eexists; split; [|exact Hboth]; reflexivity|]. split; reflexivity. }
    destruct (String.eqb (WriterMode c) "lock").
    { split; [eexists; split; [|exact Hboth]; reflexivity|]. split; reflexivity. }
    destruct (String.eqb (WriterMode c) "async").
    { split; [eexists; split; [|exact Hboth]; reflexivity|]. split; reflexivity. }
    destruct (String.eqb_spec (WriterMode c) "buffer") as [Hb|_].
    + unfold make_bytes. destruct (_ <? 0); [exact Hb|].
      split; [eexists; split; [|exact Hboth]; reflexivity|]. split; reflexivity.
    + split; [eexists; split; [|exact Hboth]; reflexivity|exact I].
  - intros w oldfile file_ og Hcf Hcomp. unfold Reopen_go. rewrite Hcf, Hcomp.
    destruct (Z.ltb_spec 0 (MaxRemain c)) as [?|_]; [lia|].
    cbn [fst snd]. eexists. split; [reflexivity|].
    pose proof (Close_trace og oldfile) as Ht.
    rewrite (calls_since_app _ _ _ Ht).
    split; [reflexivity|]. apply Close_frame.
Qed.

Lemma no_retention_no_removal_witness :
  exists res,
    NewWriterFromConfig cron_any parse0 0 NewDefaultConfig 5 world_history = res /\
    match res with
    | Done (o1, r) =>
        (exists l, l `prefix_of` [os.CMkdirAll "./log"; os.COpenFile "log/log.log"] /\
                   map fst (calls_since world_history o1) = l) /\
        match r with
        | inl rw => rollingfilech (core rw) = None /\ cf (core rw) = NewDefaultConfig
        | inr _ => True
        end
    | Parked | Fuel => False
    | Panic _ => WriterMode NewDefaultConfig = "buffer"%string
    end.
Proof.
  apply (no_retention_no_removal cron_any parse0 gzip0 0 NewDefaultConfig 5 world_history).
  discriminate.
Defined.

(** ** One rotation under the volume policy *)

Lemma Open_at (o : World) (p : string) (ino : nat) :
  quiet o -> names o !! sys.key p = Some (os.File ino) ->
  exists o1,
    sys.Open o p = (o1, inl (length (fds o))) /\
    names o1 = names o /\ inodes o1 = inodes o /\
    fds o1 = fds o ++ [(ino, true)] /\ quiet o1.
Proof.
  unfold quiet, sys.Open, sys.fault. intros Hq Hn. rewrite Hq. cbv beta iota zeta.
  rewrite Hn. eexists. split; [reflexivity|]. repeat split. exact Hq.
Qed.

Lemma Stat_at (o : World) (fd ino : nat) (d : list byte) :
  quiet o -> fds o !! fd = Some (ino, true) -> inodes o !! ino = Some d ->
  exists o1,
    sys.Stat o fd = (o1, inl (len d)) /\
    names o1 = names o /\ inodes o1 = inodes o /\ fds o1 = fds o /\ quiet o1.
Proof.
  unfold quiet, sys.Stat, sys.fault. intros Hq Hfd Hd. rewrite Hq. cbv beta iota zeta.
  rewrite Hfd, Hd. eexists. split; [reflexivity|]. repeat split. exact Hq.
Qed.

(** X25: one rotation under the volume policy, from the tick to the new
    file.  The active file is larger than the threshold.  On a tick the
    poller opens it, takes its size and offers the name of the segment, made
    from the start of the segment; the next [Writer.Write] receives the
    name, rotates and writes its payload to the new file; the poller then
    closes the file it had opened and is back at its [select].  At the end
    the old bytes are under the name of the segment, the new active file
    holds the payload, the fire channel is empty and the segment start is
    the instant of the tick. *)
Theorem volume_rotation_cycle (time_Format : Time -> string -> string)
    (p1 p2 : nat) (tick2 : bool) (w : Writer) (c : Config) (now now2 : Time)
    (b : list byte) (o : World) (ino : nat) (old : list byte) :
  let name := fst (GenLogFileName time_Format (m w) c now) in
  poller (m w) = PollSelect -> idle (w_fire w) -> idle (context (m w)) ->
  absPath w = LogFilePath c ->
  quiet o ->
  names o !! sys.key (absPath w) = Some (os.File ino) ->
  inodes o !! ino = Some old ->
  thresholdSize (m w) < len old ->
  sys.key name <> sys.key (absPath w) ->
  exists o1 m1 o2 w2 o3 m3,
    poller_step time_Format p1 true (m w) c now o = (o1, m1) /\
    chan.items (fire m1) = [name] /\
    Writer_Write (mkWriter m1 (file w) (absPath w) (cf w) (rollingfilech w)) b o1
      = (o2, w2, (len b, None)) /\
    poller_step time_Format p2 tick2 (m w2) c now2 o2 = (o3, m3) /\
    poller m3 = PollSelect /\ chan.items (fire m3) = [] /\ startAt m3 = now /\
    is_open o3 (length (fds o)) = false /\
    names o3 !! sys.key name = Some (os.File ino) /\ inodes o3 !! ino = Some old /\
    data o3 (file w2) = Some b /\ is_open o3 (file w2) = true /\
    names o3 !! sys.key (absPath w) = Some (os.File (length (inodes o))).
Proof.
  intros name Hp [Hfi Hfc] [Hxi Hxc] Habs Hq Hn Hd Hth Hne.
  assert (Hilt : (ino < length (inodes o))%nat) by (apply lookup_lt_Some in Hd; exact Hd).
  unfold w_fire in Hfi, Hfc.
  (* the tick *)
  unfold poller_step at 1. rewrite Hp. unfold chan.recv_ready. rewrite Hxi, Hxc.
  rewrite <- Habs.
  destruct (Open_at o (absPath w) ino Hq Hn) as (oa & -> & Hna & Hia & Hfa & Hqa).
  assert (Hfda : fds oa !! length (fds o) = Some (ino, true))
    by (rewrite Hfa; apply list_lookup_middle; reflexivity).
  destruct (Stat_at oa _ ino old Hqa Hfda ltac:(rewrite Hia; exact Hd))
    as (o1 & -> & Hn1 & Hi1 & Hf1 & Hq1).
  unfold volume_exceeded. destruct (Z.ltb_spec (thresholdSize (m w)) (len old)); [|lia].
  set (m1 := set_poller (trigger time_Format (m w) c now) (PollOffering (length (fds o)))).
  assert (Hm1 : chan.items (fire m1) = [name]).
  { unfold m1, trigger, name, GenLogFileName.
    cbn [fire set_poller set_fire set_startAt chan.offer chan.items fst]. rewrite Hfi.
    reflexivity. }
  exists o1, m1.
  (* the write *)
  set (w1 := mkWriter m1 (file w) (absPath w) (cf w) (rollingfilech w)).
  unfold Writer_Write, chan.try_recv.
  change (chan.items (w_fire w1)) with (chan.items (fire m1)). rewrite Hm1.
  set (w0 := set_w_fire w1 _).
  assert (Hn1' : names o1 !! sys.key (absPath w0) = Some (os.File ino))
    by (rewrite Hn1, Hna; exact Hn).
  destruct (Reopen_ok w0 name o1 ino Hq1 Hn1' Hne)
    as (o2 & -> & Hn2 & Hi2 & Hf2 & _ & _ & _ & Hq2).
  change (absPath w0) with (absPath w) in *.
  cbn [file set_file].
  assert (Hfd2 : fds o2 !! length (fds o1) = Some (length (inodes o1), true))
    by (rewrite Hf2; apply list_lookup_middle; reflexivity).
  assert (Hd2 : inodes o2 !! length (inodes o1) = Some [])
    by (rewrite Hi2; apply list_lookup_middle; reflexivity).
  destruct (Write_at o2 _ _ b [] Hq2 Hfd2 Hd2) as (o3 & -> & Hn3 & Hi3 & Hf3 & Hq3 & _).
  set (w2 := set_file w0 (length (fds o1))).
  (* the poller resumes *)
  assert (Hfd3 : fds o3 !! length (fds o) = Some (ino, true)).
  { rewrite Hf3, Hf2, Hf1. apply lookup_app_l_Some. exact Hfda. }
  destruct (Close_at o3 _ _ Hq3 Hfd3) as (o4 & HC & Hn4 & Hi4 & Hf4 & _).
  assert (Hstep : poller_step time_Format p2 tick2 (m w2) c now2 o3
                  = (o4, set_poller (m w2) PollSelect)).
  { unfold poller_step.
    change (poller (m w2)) with (PollOffering (length (fds o))).
    change (chan.items (fire (m w2))) with (@nil string). cbv beta iota.
    rewrite HC. reflexivity. }
  exists o3, w2, o4, (set_poller (m w2) PollSelect).
  split; [reflexivity|]. split; [reflexivity|]. split; [reflexivity|]. split; [exact Hstep|].
  split; [reflexivity|]. split; [reflexivity|]. split; [reflexivity|].
  unfold is_open, data. unfold w2. cbn [file set_file].
  rewrite Hf4, Hn4, Hi4, Hn3, Hi3, Hn2, Hi2, Hf3, Hf2, Hf1, Hfa, Hn1, Hna, Hi1, Hia.
  assert (Hlen : length (fds o ++ [(ino, true)]) = S (length (fds o)))
    by (rewrite length_app; cbn; lia).
  rewrite Hlen.
  split.
  { rewrite list_lookup_insert_eq; [reflexivity|]. rewrite !length_app. cbn. lia. }
  split; [rewrite lookup_insert_ne by congruence; apply lookup_insert_eq|].
  split; [rewrite list_lookup_insert_ne by lia; apply lookup_app_l_Some; exact Hd|].
  rewrite list_lookup_insert_ne by lia.
  rewrite (list_lookup_middle _ [] (length (inodes o), true) (S (length (fds o))))
    by (rewrite length_app; cbn; lia).
  rewrite list_lookup_insert_eq by (rewrite length_app; cbn; lia).
  split; [reflexivity|]. split; [reflexivity|]. apply lookup_insert_eq.
Qed.

Lemma volume_rotation_cycle_witness :
  exists o1 m1 o2 w2 o3 m3,
    poller_step format0 0 true manager_polling NewDefaultConfig 7 world1_written = (o1, m1) /\
    chan.items (fire m1) = ["log/log.log.202001010000"%string] /\
    Writer_Write (mkWriter m1 0 (LogFilePath NewDefaultConfig) NewDefaultConfig None)
      (bytes_of "new") o1 = (o2, w2, (3, None)) /\
    poller_step format0 0 false (m w2) NewDefaultConfig 8 o2 = (o3, m3) /\
    poller m3 = PollSelect /\ chan.items (fire m3) = [] /\ startAt m3 = 7 /\
    is_open o3 1%nat = false /\
    names o3 !! "log/log.log.202001010000"%string = Some (os.File 0) /\
    inodes o3 !! 0%nat = Some (bytes_of "old") /\
    data o3 (file w2) = Some (bytes_of "new") /\ is_open o3 (file w2) = true /\
    names o3 !! "log/log.log"%string = Some (os.File 1).
Proof.
  apply (volume_rotation_cycle format0 0 0 false writer_polling NewDefaultConfig 7 8
           (bytes_of "new") world1_written 0 (bytes_of "old")
           eq_refl (conj eq_refl eq_refl) (conj eq_refl eq_refl) eq_refl eq_refl);
    try (vm_compute; reflexivity); try (vm_compute; discriminate).
Defined.
